(** * hl_monitor: the monthly due-diligence monitor

    A shallow embedding of [src/hl_monitor.py].  The script is one
    sequential pipeline (research, load, compare, render, send, save) whose
    only state lives outside the process: the report files, the clock, the
    language-model service, the mail relay and the console.  That outside
    world is an explicit record threaded through a small state-and-exception
    monad; every Python function of the module is a definition of the same
    name below.  Files hold bytes: what [json.dump] writes and what
    [json.load] makes of it are functions on text. *)

From Stdlib Require Import ZArith Ascii String List Lia DecimalString DecimalN.
From stdpp Require Import base option gmap strings list fin_maps.

(** ** Python [str] values

    A [str] is a sequence of code points.  It is kept as the bytes of its
    UTF-8 encoding; a surrogate code point, which a [str] may hold on its
    own, takes the three bytes the scheme gives its range.  Concatenation and
    equality are those of the byte strings; [len] counts code points. *)

(** The double quote, the backslash and the line feed. *)
Definition dq : string := String "034"%char EmptyString.
Definition QUOTE : ascii := "034"%char.
Definition BACKSLASH : ascii := "\"%char.
Definition LF : ascii := "010"%char.

(** [len(s)]: every byte but the continuation bytes starts a code point. *)
Definition is_continuation_byte (c : ascii) : bool :=
  match c with
  | Ascii _ _ _ _ _ _ b6 b7 => b7 && negb b6
  end.

Fixpoint py_len (s : string) : nat :=
  match s with
  | EmptyString => 0
  | String c s' => (if is_continuation_byte c then 0 else 1) + py_len s'
  end.

(** [str(n)] *)
Definition str_of_nat (n : nat) : string :=
  NilEmpty.string_of_uint (Nat.to_uint n).

Definition str_of_N (n : N) : string :=
  NilEmpty.string_of_uint (N.to_uint n).

(** [s * n] *)
Fixpoint str_repeat (s : string) (n : nat) : string :=
  match n with
  | 0 => ""
  | S n' => s +:+ str_repeat s n'
  end.

(** [s.startswith(p)] *)
Fixpoint str_startswith (p s : string) : bool :=
  match p, s with
  | EmptyString, _ => true
  | String a p', String b s' => if decide (a = b) then str_startswith p' s' else false
  | String _ _, EmptyString => false
  end.

(** [s[n:]] *)
Fixpoint str_drop (n : nat) (s : string) : string :=
  match n, s with
  | 0, _ => s
  | S n', String _ s' => str_drop n' s'
  | S _, EmptyString => ""
  end.

(** [s[:n]] *)
Fixpoint str_take (n : nat) (s : string) : string :=
  match n, s with
  | S n', String c s' => String c (str_take n' s')
  | _, _ => ""
  end.

(** [s.endswith("/")] *)
Fixpoint ends_with_slash (s : string) : bool :=
  match s with
  | EmptyString => false
  | String c EmptyString => bool_decide (c = "/"%char)
  | String _ s' => ends_with_slash s'
  end.

(** [s.replace(old, new)] for a non-empty [old]: occurrences are replaced
    from the left and do not overlap.  [skip] is the number of characters of
    a match that are still to be passed over. *)
Fixpoint replace_from (old new : string) (skip : nat) (s : string) : string :=
  match s with
  | EmptyString => ""
  | String c s' =>
      match skip with
      | S k => replace_from old new k s'
      | 0 =>
          if str_startswith old s
          then new +:+ replace_from old new (String.length old - 1) s'
          else String c (replace_from old new 0 s')
      end
  end.

Definition str_replace (old new s : string) : string := replace_from old new 0 s.

(** *** Code points

    [utf8 cp] is the encoding of one code point, [codepoints s] reads a byte
    string back.  A byte string stands for a [str] when it is the encoding of
    the code points read from it and none of them is beyond U+10FFFF; it is
    UTF-8 text, as a file opened in text mode has to be, when moreover none
    is a surrogate. *)
Definition utf8 (cp : N) : string :=
  if (cp <? 128)%N then String (ascii_of_N cp) ""
  else if (cp <? 2048)%N then
    String (ascii_of_N (192 + cp / 64)) (String (ascii_of_N (128 + cp mod 64)) "")
  else if (cp <? 65536)%N then
    String (ascii_of_N (224 + cp / 4096))
      (String (ascii_of_N (128 + (cp / 64) mod 64))
         (String (ascii_of_N (128 + cp mod 64)) ""))
  else
    String (ascii_of_N (240 + cp / 262144))
      (String (ascii_of_N (128 + (cp / 4096) mod 64))
         (String (ascii_of_N (128 + (cp / 64) mod 64))
            (String (ascii_of_N (128 + cp mod 64)) ""))).

Fixpoint str_of (cps : list N) : string :=
  match cps with
  | [] => ""
  | cp :: cps' => utf8 cp +:+ str_of cps'
  end.

Fixpoint codepoints (s : string) : list N :=
  match s with
  | EmptyString => []
  | String c1 s1 =>
      let b1 := N_of_ascii c1 in
      if (b1 <? 128)%N then b1 :: codepoints s1
      else if (b1 <? 224)%N then
        match s1 with
        | String c2 s2 => (b1 mod 32 * 64 + N_of_ascii c2 mod 64)%N :: codepoints s2
        | EmptyString => []
        end
      else if (b1 <? 240)%N then
        match s1 with
        | String c2 (String c3 s3) =>
            (b1 mod 16 * 4096 + N_of_ascii c2 mod 64 * 64 + N_of_ascii c3 mod 64)%N
              :: codepoints s3
        | _ => []
        end
      else
        match s1 with
        | String c2 (String c3 (String c4 s4)) =>
            (b1 mod 8 * 262144 + N_of_ascii c2 mod 64 * 4096
             + N_of_ascii c3 mod 64 * 64 + N_of_ascii c4 mod 64)%N
              :: codepoints s4
        | _ => []
        end
  end.

(** The surrogates: U+D800 to U+DBFF (high) and U+DC00 to U+DFFF (low). *)
Definition is_high (u : N) : bool := ((55296 <=? u) && (u <? 56320))%N.
Definition is_low (u : N) : bool := ((56320 <=? u) && (u <? 57344))%N.

Definition is_str (s : string) : bool :=
  String.eqb (str_of (codepoints s)) s
  && forallb (fun cp => (cp <? 1114112)%N) (codepoints s).

Definition is_utf8 (s : string) : bool :=
  is_str s && forallb (fun cp => negb (is_high cp || is_low cp)) (codepoints s).

(** Text that is ASCII throughout. *)
Fixpoint ascii_only (s : string) : bool :=
  match s with
  | EmptyString => true
  | String c s' => (N_of_ascii c <? 128)%N && ascii_only s'
  end.

(** ** [datetime] *)

Record datetime := mk_datetime {
  year : N;
  month : N;
  day : N;
  hour : N;
  minute : N;
  second : N;
  microsecond : N
}.

(** The invariants every [datetime] object satisfies. *)
Definition valid_datetime (d : datetime) : Prop :=
  (1 <= year d <= 9999 /\ 1 <= month d <= 12 /\ 1 <= day d <= 31 /\
   hour d < 24 /\ minute d < 60 /\ second d < 60 /\ microsecond d < 1000000)%N.

Definition same_calendar_day (a b : datetime) : Prop :=
  year a = year b /\ month a = month b /\ day a = day b.

Definition digit (n : N) : ascii := ascii_of_N (48 + n mod 10)%N.

(** Zero-padded decimal of fixed [width], as [%d], [%m], [%H], [%M]. *)
Fixpoint zero_padded (width : nat) (n : N) : string :=
  match width with
  | 0 => ""
  | S w => zero_padded w (n / 10)%N +:+ String (digit n) ""
  end.

(** [%Y]: the C library of the runner prints the year as it is, four digits
    from the year 1000 on and fewer before. *)
Definition strftime_Y (y : N) : string := str_of_N y.

Definition month_names : list string :=
  ["January"; "February"; "March"; "April"; "May"; "June"; "July";
   "August"; "September"; "October"; "November"; "December"].

Definition month_name (m : N) : string := nth (N.to_nat m - 1) month_names "".

(** [strftime("%d %B %Y")] *)
Definition strftime_d_B_Y (d : datetime) : string :=
  zero_padded 2 (day d) +:+ " " +:+ month_name (month d) +:+ " " +:+ strftime_Y (year d).

(** [strftime('%Y-%m-%d')] *)
Definition strftime_Y_m_d (d : datetime) : string :=
  strftime_Y (year d) +:+ "-" +:+ zero_padded 2 (month d) +:+ "-" +:+ zero_padded 2 (day d).

(** [strftime('%Y-%m-%d %H:%M')] *)
Definition strftime_Y_m_d_H_M (d : datetime) : string :=
  strftime_Y_m_d d +:+ " " +:+ zero_padded 2 (hour d) +:+ ":" +:+ zero_padded 2 (minute d).

(** [isoformat()]: the year always has four digits; the fraction is printed
    only when it is not zero. *)
Definition isoformat (d : datetime) : string :=
  zero_padded 4 (year d) +:+ "-" +:+ zero_padded 2 (month d) +:+ "-" +:+ zero_padded 2 (day d)
    +:+ "T" +:+ zero_padded 2 (hour d) +:+ ":" +:+ zero_padded 2 (minute d)
    +:+ ":" +:+ zero_padded 2 (second d)
    +:+ (if decide (microsecond d = 0%N) then "" else "." +:+ zero_padded 6 (microsecond d)).

Definition is_leap (y : N) : bool :=
  ((y mod 4 =? 0) && negb (y mod 100 =? 0) || (y mod 400 =? 0))%N.

Definition days_in_month (y m : N) : N :=
  match m with
  | 2 => if is_leap y then 29 else 28
  | 4 | 6 | 9 | 11 => 30
  | _ => 31
  end%N.

(** [d.replace(day=n)] *)
Definition replace_day (n : N) (d : datetime) : datetime :=
  mk_datetime (year d) (month d) n (hour d) (minute d) (second d) (microsecond d).

Definition next_day (d : datetime) : datetime :=
  if (day d <? days_in_month (year d) (month d))%N
  then replace_day (day d + 1) d
  else if (month d <? 12)%N
       then mk_datetime (year d) (month d + 1) 1 (hour d) (minute d) (second d) (microsecond d)
       else mk_datetime (year d + 1) 1 1 (hour d) (minute d) (second d) (microsecond d).

(** [d + timedelta(days=n)] *)
Fixpoint add_days (n : nat) (d : datetime) : datetime :=
  match n with
  | 0 => d
  | S n' => add_days n' (next_day d)
  end.

(** ** JSON

    The two calls of the [json] library the module makes, as functions on
    text: [json.dump(data, f, indent=2)] for a dict of strings, with the
    default [ensure_ascii], and [json.load(f)]. *)

(** *** Writing

    Every code point outside the printable ASCII range, the quote and the
    backslash is escaped; a code point beyond U+FFFF is written as the two
    surrogates of its UTF-16 form. *)
Definition hexdigit (n : N) : ascii :=
  ascii_of_N (if (n <? 10)%N then 48 + n else 87 + n).

Definition hex4 (n : N) : string :=
  String (hexdigit (n / 4096))
    (String (hexdigit (n / 256 mod 16))
       (String (hexdigit (n / 16 mod 16))
          (String (hexdigit (n mod 16)) ""))).

Definition escape_unit (u : N) : string := String BACKSLASH (String "u" (hex4 u)).

Definition escape_cp (cp : N) : string :=
  if (cp =? 34)%N then String BACKSLASH dq
  else if (cp =? 92)%N then String BACKSLASH (String BACKSLASH "")
  else if (cp =? 10)%N then String BACKSLASH "n"
  else if (cp =? 13)%N then String BACKSLASH "r"
  else if (cp =? 9)%N then String BACKSLASH "t"
  else if (cp =? 8)%N then String BACKSLASH "b"
  else if (cp =? 12)%N then String BACKSLASH "f"
  else if ((32 <=? cp) && (cp <=? 126))%N then String (ascii_of_N cp) ""
  else if (cp <? 65536)%N then escape_unit cp
  else escape_unit (55296 + (cp - 65536) / 1024)
         +:+ escape_unit (56320 + (cp - 65536) mod 1024).

Fixpoint escape_cps (cps : list N) : string :=
  match cps with
  | [] => ""
  | cp :: cps' => escape_cp cp +:+ escape_cps cps'
  end.

Definition json_escape (s : string) : string := escape_cps (codepoints s).

Definition json_string (s : string) : string := String QUOTE (json_escape s +:+ dq).

(** One member on a line of its own, indented by two spaces. *)
Definition json_member (kv : string * string) : string :=
  String LF "  " +:+ json_string kv.1 +:+ ": " +:+ json_string kv.2.

(** [json.dumps(d, indent=2)] for a dict [d] of strings, in insertion order. *)
Definition json_dumps (d : list (string * string)) : string :=
  match d with
  | [] => "{}"
  | _ :: _ => "{" +:+ String.concat "," (map json_member d) +:+ String LF "}"
  end.

(** *** Reading *)

(** What [json.load] returns: [None], a [bool], a number (kept as its
    lexeme, [NaN] and the infinities among them), a [str], a [list], or a
    [dict] given by its members in the order of the text. *)
#[warnings="-register-all"]
Inductive json :=
  | JNull
  | JBool (b : bool)
  | JNumber (lexeme : string)
  | JString (s : string)
  | JArray (items : list json)
  | JObject (members : list (string * json)).

(** A text is parsed into a value or rejected.  [Unmodelled] marks the texts
    on which the library's answer depends on limits of the interpreter that
    are not part of this model: containers nested deeper than [MAX_DEPTH] and
    numbers of more than 1000 characters. *)
Inductive parsed (A : Type) :=
  | Value (a : A)
  | Invalid
  | Unmodelled.
Arguments Value {A} a.
Arguments Invalid {A}.
Arguments Unmodelled {A}.

Definition unhex (c : ascii) : option N :=
  let b := N_of_ascii c in
  if ((48 <=? b) && (b <=? 57))%N then Some (b - 48)%N
  else if ((97 <=? b) && (b <=? 102))%N then Some (b - 87)%N
  else if ((65 <=? b) && (b <=? 70))%N then Some (b - 55)%N
  else None.

Definition hex4_value (h1 h2 h3 h4 : ascii) : option N :=
  match unhex h1, unhex h2, unhex h3, unhex h4 with
  | Some a, Some b, Some c, Some d => Some (((a * 16 + b) * 16 + c) * 16 + d)%N
  | _, _, _, _ => None
  end.

Definition join_surrogates (hi lo : N) : N :=
  (65536 + (hi - 55296) * 1024 + (lo - 56320))%N.

Definition flush (pending : option N) : string :=
  match pending with
  | Some hi => utf8 hi
  | None => ""
  end.

Definition simple_escape (e : ascii) : option ascii :=
  if decide (e = QUOTE) then Some QUOTE
  else if decide (e = BACKSLASH) then Some BACKSLASH
  else if decide (e = "/"%char) then Some "/"%char
  else if decide (e = "b"%char) then Some "008"%char
  else if decide (e = "f"%char) then Some "012"%char
  else if decide (e = "n"%char) then Some "010"%char
  else if decide (e = "r"%char) then Some "013"%char
  else if decide (e = "t"%char) then Some "009"%char
  else None.

Definition emit (out : string) (k : option (string * string)) : option (string * string) :=
  match k with
  | Some (v, rest) => Some (out +:+ v, rest)
  | None => None
  end.

(** A string, from behind its opening quote: the text it denotes and what
    follows its closing quote.  [pending] is a high surrogate read from a
    [\uXXXX] escape that a low one may still follow: the two are then one
    code point.  Control characters must be escaped. *)
Fixpoint scan_string (pending : option N) (s : string) : option (string * string) :=
  match s with
  | EmptyString => None
  | String c s1 =>
      if decide (c = QUOTE) then Some (flush pending, s1)
      else if decide (c = BACKSLASH) then
        match s1 with
        | EmptyString => None
        | String e s2 =>
            if decide (e = "u"%char) then
              match s2 with
              | String h1 (String h2 (String h3 (String h4 s6))) =>
                  match hex4_value h1 h2 h3 h4 with
                  | None => None
                  | Some u =>
                      match pending with
                      | Some hi =>
                          if is_low u
                          then emit (utf8 (join_surrogates hi u)) (scan_string None s6)
                          else if is_high u
                               then emit (utf8 hi) (scan_string (Some u) s6)
                               else emit (utf8 hi +:+ utf8 u) (scan_string None s6)
                      | None =>
                          if is_high u then scan_string (Some u) s6
                          else emit (utf8 u) (scan_string None s6)
                      end
                  end
              | _ => None
              end
            else
              match simple_escape e with
              | Some ch => emit (flush pending +:+ String ch "") (scan_string None s2)
              | None => None
              end
        end
      else if (N_of_ascii c <? 32)%N then None
      else emit (flush pending +:+ String c "") (scan_string None s1)
  end.

Definition is_ws (c : ascii) : bool :=
  bool_decide (c ∈ [" "%char; "009"%char; "010"%char; "013"%char]).

Fixpoint skip_ws (s : string) : string :=
  match s with
  | EmptyString => ""
  | String c s' => if is_ws c then skip_ws s' else s
  end.

Definition is_digit (c : ascii) : bool :=
  ((48 <=? N_of_ascii c) && (N_of_ascii c <=? 57))%N.

(** The digits a text starts with, and the rest. *)
Fixpoint digits (s : string) : string * string :=
  match s with
  | EmptyString => ("", "")
  | String c s' =>
      if is_digit c then let '(ds, rest) := digits s' in (String c ds, rest)
      else ("", s)
  end.

Definition fraction (s : string) : string * string :=
  match s with
  | String p (String d s') =>
      if bool_decide (p = "."%char) && is_digit d
      then let '(ds, rest) := digits s' in (String p (String d ds), rest)
      else ("", s)
  | _ => ("", s)
  end.

Definition exponent (s : string) : string * string :=
  match s with
  | String e s1 =>
      if bool_decide (e ∈ ["e"%char; "E"%char]) then
        let '(sign, s2) :=
          match s1 with
          | String g s2 =>
              if bool_decide (g ∈ ["+"%char; "-"%char]) then (String g "", s2) else ("", s1)
          | EmptyString => ("", s1)
          end in
        let '(ds, rest) := digits s2 in
        match ds with
        | EmptyString => ("", s)
        | _ => (String e (sign +:+ ds), rest)
        end
      else ("", s)
  | EmptyString => ("", s)
  end.

(** A number: an optional minus, an integer part without leading zeros, an
    optional fraction, an optional exponent. *)
Definition scan_number (s : string) : option (string * string) :=
  let '(sign, s0) :=
    match s with
    | String c s' => if decide (c = "-"%char) then ("-", s') else ("", s)
    | EmptyString => ("", s)
    end in
  match s0 with
  | String c s1 =>
      if is_digit c then
        let '(int, s2) :=
          if decide (c = "0"%char) then ("0", s1)
          else let '(ds, rest) := digits s1 in (String c ds, rest) in
        let '(frac, s3) := fraction s2 in
        let '(exp, s4) := exponent s3 in
        Some (sign +:+ int +:+ frac +:+ exp, s4)
      else None
  | EmptyString => None
  end.

Definition literals : list (string * json) :=
  [("null", JNull); ("true", JBool true); ("false", JBool false);
   ("NaN", JNumber "NaN"); ("Infinity", JNumber "Infinity");
   ("-Infinity", JNumber "-Infinity")].

Fixpoint scan_literal (ls : list (string * json)) (s : string) : option (json * string) :=
  match ls with
  | [] => None
  | (name, v) :: ls' =>
      if str_startswith name s then Some (v, str_drop (String.length name) s)
      else scan_literal ls' s
  end.

Definition scan_scalar (s : string) : parsed (json * string) :=
  match scan_literal literals s with
  | Some r => Value r
  | None =>
      match scan_number s with
      | Some (lexeme, rest) =>
          if 1000 <? String.length lexeme then Unmodelled
          else Value (JNumber lexeme, rest)
      | None => Invalid
      end
  end.

(** A value, the members of an object from its first key on, and the items
    of an array from its first item on; each with the text that follows.
    [fuel] bounds the calls and is never used up when it exceeds the length
    of the text; [depth] is the number of containers that may still be
    opened. *)
Fixpoint parse_value (fuel depth : nat) (s : string) {struct fuel} : parsed (json * string) :=
  match fuel with
  | 0 => Unmodelled
  | S fuel' =>
      match s with
      | EmptyString => Invalid
      | String c s1 =>
          if decide (c = QUOTE) then
            match scan_string None s1 with
            | Some (v, rest) => Value (JString v, rest)
            | None => Invalid
            end
          else if decide (c = "{"%char) then
            match depth, skip_ws s1 with
            | 0, _ => Unmodelled
            | S _, EmptyString => Invalid
            | S depth', String c2 s2 =>
                if decide (c2 = "}"%char) then Value (JObject [], s2)
                else match parse_members fuel' depth' (String c2 s2) with
                     | Value (members, rest) => Value (JObject members, rest)
                     | Invalid => Invalid
                     | Unmodelled => Unmodelled
                     end
            end
          else if decide (c = "["%char) then
            match depth, skip_ws s1 with
            | 0, _ => Unmodelled
            | S _, EmptyString => Invalid
            | S depth', String c2 s2 =>
                if decide (c2 = "]"%char) then Value (JArray [], s2)
                else match parse_items fuel' depth' (String c2 s2) with
                     | Value (items, rest) => Value (JArray items, rest)
                     | Invalid => Invalid
                     | Unmodelled => Unmodelled
                     end
            end
          else scan_scalar s
      end
  end
with parse_members (fuel depth : nat) (s : string) {struct fuel}
  : parsed (list (string * json) * string) :=
  match fuel with
  | 0 => Unmodelled
  | S fuel' =>
      match s with
      | EmptyString => Invalid
      | String c s1 =>
          if decide (c = QUOTE) then
            match scan_string None s1 with
            | None => Invalid
            | Some (key, s2) =>
                match skip_ws s2 with
                | EmptyString => Invalid
                | String c3 s3 =>
                    if decide (c3 = ":"%char) then
                      match parse_value fuel' depth (skip_ws s3) with
                      | Value (v, s4) =>
                          match skip_ws s4 with
                          | EmptyString => Invalid
                          | String c5 s5 =>
                              if decide (c5 = "}"%char) then Value ([(key, v)], s5)
                              else if decide (c5 = ","%char) then
                                match parse_members fuel' depth (skip_ws s5) with
                                | Value (members, s6) => Value ((key, v) :: members, s6)
                                | Invalid => Invalid
                                | Unmodelled => Unmodelled
                                end
                              else Invalid
                          end
                      | Invalid => Invalid
                      | Unmodelled => Unmodelled
                      end
                    else Invalid
                end
            end
          else Invalid
      end
  end
with parse_items (fuel depth : nat) (s : string) {struct fuel}
  : parsed (list json * string) :=
  match fuel with
  | 0 => Unmodelled
  | S fuel' =>
      match parse_value fuel' depth s with
      | Value (v, s1) =>
          match skip_ws s1 with
          | EmptyString => Invalid
          | String c2 s2 =>
              if decide (c2 = "]"%char) then Value ([v], s2)
              else if decide (c2 = ","%char) then
                match parse_items fuel' depth (skip_ws s2) with
                | Value (items, s3) => Value (v :: items, s3)
                | Invalid => Invalid
                | Unmodelled => Unmodelled
                end
              else Invalid
          end
      | Invalid => Invalid
      | Unmodelled => Unmodelled
      end
  end.

Definition MAX_DEPTH : nat := 100.

(** [json.loads(s)]: one value, with white space around it and nothing else. *)
Definition json_loads (s : string) : parsed json :=
  match parse_value (S (S (String.length s))) MAX_DEPTH (skip_ws s) with
  | Value (v, rest) =>
      match skip_ws rest with
      | EmptyString => Value v
      | String _ _ => Invalid
      end
  | Invalid => Invalid
  | Unmodelled => Unmodelled
  end.

(** The value a [dict] built from [members] has at [key]: of two members
    with the same key the later one counts. *)
Fixpoint dict_lookup (key : string) (members : list (string * json)) : option json :=
  match members with
  | [] => None
  | (k, v) :: rest =>
      match dict_lookup key rest with
      | Some v' => Some v'
      | None => if decide (k = key) then Some v else None
      end
  end.

(** ** The language-model service *)

(** A content block of a response; [hasattr(block, "text")] holds of the
    text blocks only (tool-use and search-result blocks carry no text). *)
Inductive block :=
  | TextBlock (text : string)
  | OtherBlock (kind : string).

Inductive msg_content :=
  | Text (s : string)
  | Blocks (bs : list block).

Record message := Message { role : string; message_content : msg_content }.

Record tool := Tool { tool_type : string; tool_name : string; max_uses : N }.

Record request := Request {
  model : string;
  max_tokens : N;
  tools : list tool;
  messages : list message
}.

Record response := Response { stop_reason : string; content : list block }.

(** How one call of [client.messages.create] ends: with the response, or
    with the exception the client library raises once it has given up (it
    may have sent the request more than once by then). *)
Inductive api_result :=
  | Reply (r : response)
  | ApiFailure (what : string).

(** ** Mail *)

Record email := Email {
  Subject : string;
  From : string;
  To : string;
  html_part : string
}.

(** ** Exceptions *)

Inductive exn :=
  | NameError (name : string)
  | TypeError
  | AttributeError
  | JSONDecodeError
  | UnicodeDecodeError
  | FileNotFoundError (path : string)
  | OSError (path : string)
  | APIError (what : string)
  | SMTPException
  | Exception (name : string).

(** What a library call that is left open answers: a value or an exception. *)
Inductive answer (A : Type) :=
  | Gives (a : A)
  | Throws (e : exn).
Arguments Gives {A} a.
Arguments Throws {A} e.

(** How the body of [send_email] after its first line ends for a message:
    the relay has accepted it and the call returns; the relay has accepted it
    and the call raises all the same (the session is closed on leaving the
    [with] block, and a bad answer to that is an exception); or the call
    raises before the relay has accepted anything (building the message,
    connecting, logging in, sending). *)
Inductive delivery :=
  | Delivered
  | DeliveredThenRaised (e : exn)
  | NotDelivered (e : exn).

(** How writing a file fails: [open] raises and the file is as it was, or
    [open] has emptied the file and the write stops after [written] bytes. *)
Inductive write_failure :=
  | OpenFails
  | WriteStops (written : nat).

(** ** The world

    [clock] and [api] are the answers the environment gives, in the order
    they are asked for: the [n]-th reading of the clock and the outcome of
    the [n]-th call of the client.  The script is deterministic, so
    quantifying over these sequences covers every behaviour of clock and
    service along a run.  [fs] maps the path of a file, relative to the
    directory above the script's, to its bytes; [read_fault], [write_fault]
    and [smtp] say which reads, writes and deliveries fail, and how.
    [json_beyond] and [py_format] are the answers of the interpreter where
    this model leaves them open: [json.load] on the texts marked
    [Unmodelled], and the text an f-string makes of a value that is neither a
    [str], [None] nor a [bool]. *)
Record config := Config {
  ANTHROPIC_API_KEY : string;
  GMAIL_ADDRESS : string;
  GMAIL_APP_PASSWORD : string;
  RECIPIENT_EMAIL : string;
  SCRIPT_DIR_PARENT : string
}.

Record world := World {
  environ : config;
  fs : gmap string string;
  read_fault : string -> bool;
  write_fault : string -> option write_failure;
  clock : nat -> datetime;
  ticks : nat;
  api : nat -> api_result;
  api_log : list request;
  smtp : email -> delivery;
  outbox : list email;
  stdout : list string;
  json_beyond : string -> answer json;
  py_format : json -> answer string
}.

Definition set_fs (f : gmap string string) (w : world) : world :=
  World (environ w) f (read_fault w) (write_fault w) (clock w) (ticks w) (api w) (api_log w)
        (smtp w) (outbox w) (stdout w) (json_beyond w) (py_format w).

Definition set_ticks (n : nat) (w : world) : world :=
  World (environ w) (fs w) (read_fault w) (write_fault w) (clock w) n (api w) (api_log w)
        (smtp w) (outbox w) (stdout w) (json_beyond w) (py_format w).

Definition set_api_log (l : list request) (w : world) : world :=
  World (environ w) (fs w) (read_fault w) (write_fault w) (clock w) (ticks w) (api w) l
        (smtp w) (outbox w) (stdout w) (json_beyond w) (py_format w).

Definition set_outbox (l : list email) (w : world) : world :=
  World (environ w) (fs w) (read_fault w) (write_fault w) (clock w) (ticks w) (api w) (api_log w)
        (smtp w) l (stdout w) (json_beyond w) (py_format w).

Definition set_stdout (l : list string) (w : world) : world :=
  World (environ w) (fs w) (read_fault w) (write_fault w) (clock w) (ticks w) (api w) (api_log w)
        (smtp w) (outbox w) l (json_beyond w) (py_format w).

(** ** The monad: state, exceptions, and fuel for the one loop *)

Inductive outcome (A : Type) :=
  | Return (a : A)
  | Raise (e : exn)
  | OutOfFuel.
Arguments Return {A} a.
Arguments Raise {A} e.
Arguments OutOfFuel {A}.

Definition M (A : Type) : Type := world -> outcome A * world.

#[global] Instance M_ret : MRet M := fun A a w => (Return a, w).

#[global] Instance M_bind : MBind M := fun A B f m w =>
  match m w with
  | (Return a, w') => f a w'
  | (Raise e, w') => (Raise e, w')
  | (OutOfFuel, w') => (OutOfFuel, w')
  end.

Definition raise {A} (e : exn) : M A := fun w => (Raise e, w).

Definition out_of_fuel {A} : M A := fun w => (OutOfFuel, w).

Definition answered {A} (a : answer A) : M A :=
  match a with
  | Gives a => mret a
  | Throws e => raise e
  end.

(** The constants the module computed when it was imported: four values of
    [os.environ], and [SCRIPT_DIR.parent] as the string of that path. *)
Definition module_constants : M config := fun w => (Return (environ w), w).

(** [print(s)] *)
Definition print (s : string) : M unit :=
  fun w => (Return tt, set_stdout (stdout w ++ [s]) w).

(** [datetime.now()] *)
Definition datetime_now : M datetime :=
  fun w => (Return (clock w (ticks w)), set_ticks (S (ticks w)) w).

(** [client.messages.create(...)]: the call is logged with its arguments; it
    returns the response or raises what the client library raises. *)
Definition messages_create (req : request) : M response :=
  fun w =>
    let w' := set_api_log (api_log w ++ [req]) w in
    match api w (length (api_log w)) with
    | Reply r => (Return r, w')
    | ApiFailure what => (Raise (APIError what), w')
    end.

(** [path.exists()] *)
Definition path_exists (p : string) : M bool :=
  fun w => (Return (bool_decide (is_Some (fs w !! p))), w).

(** [with open(p, "r") as f: json.load(f)]: the file is opened, read and
    decoded as text (UTF-8, the encoding of the runner's locale), then the
    text is parsed. *)
Definition json_load (p : string) : M json :=
  fun w =>
    match fs w !! p with
    | None => (Raise (FileNotFoundError p), w)
    | Some content =>
        if read_fault w p then (Raise (OSError p), w)
        else if negb (is_utf8 content) then (Raise UnicodeDecodeError, w)
        else match json_loads content with
             | Value v => (Return v, w)
             | Invalid => (Raise JSONDecodeError, w)
             | Unmodelled => answered (json_beyond w content) w
             end
    end.

(** [data.get(key, default)]: only a [dict] has the method. *)
Definition dict_get (data : json) (key : string) (dflt : json) : M json :=
  match data with
  | JObject members => mret (default dflt (dict_lookup key members))
  | _ => raise AttributeError
  end.

(** [with open(p, "w") as f: json.dump(data, f, indent=2)] *)
Definition json_dump (data : list (string * string)) (p : string) : M unit :=
  fun w =>
    match write_fault w p with
    | None => (Return tt, set_fs (<[p := json_dumps data]> (fs w)) w)
    | Some OpenFails => (Raise (OSError p), w)
    | Some (WriteStops written) =>
        (Raise (OSError p), set_fs (<[p := str_take written (json_dumps data)]> (fs w)) w)
    end.

(** [p.mkdir(parents=True, exist_ok=True)]: directories are not files of the
    store; the call can only fail. *)
Definition mkdir (p : string) : M unit :=
  fun w =>
    match write_fault w p with
    | Some _ => (Raise (OSError p), w)
    | None => (Return tt, w)
    end.

(** The [MIMEMultipart] message and the [with smtplib.SMTP_SSL(...)] block of
    [send_email] as one step. *)
Definition smtp_deliver (msg : email) : M unit :=
  fun w =>
    match smtp w msg with
    | Delivered => (Return tt, set_outbox (outbox w ++ [msg]) w)
    | DeliveredThenRaised e => (Raise e, set_outbox (outbox w ++ [msg]) w)
    | NotDelivered e => (Raise e, w)
    end.

(** The text an f-string puts in the place of [{v}]. *)
Definition format_value (v : json) : M string :=
  match v with
  | JString s => mret s
  | JNull => mret "None"
  | JBool true => mret "True"
  | JBool false => mret "False"
  | _ => fun w => answered (py_format w v) w
  end.

(** ** Name resolution

    A name that is not local to a function is looked up among the names
    bound at module level, then among the builtins. *)
Definition module_globals : list string :=
  ["__name__"; "__doc__"; "__file__";
   "os"; "json"; "smtplib"; "anthropic"; "MIMEText"; "MIMEMultipart";
   "datetime"; "Path";
   "ANTHROPIC_API_KEY"; "GMAIL_ADDRESS"; "GMAIL_APP_PASSWORD"; "RECIPIENT_EMAIL";
   "SCRIPT_DIR"; "REPORTS_DIR"; "LATEST_REPORT_PATH";
   "get_research_prompt"; "get_comparison_prompt"; "conduct_research";
   "compare_reports"; "load_previous_report"; "save_report";
   "create_email_html"; "send_email"; "main"].

Definition builtins : list string :=
  ["abs"; "aiter"; "all"; "anext"; "any"; "ascii"; "bin"; "bool"; "breakpoint";
   "bytearray"; "bytes"; "callable"; "chr"; "classmethod"; "compile"; "complex";
   "delattr"; "dict"; "dir"; "divmod"; "enumerate"; "eval"; "exec"; "filter";
   "float"; "format"; "frozenset"; "getattr"; "globals"; "hasattr"; "hash";
   "help"; "hex"; "id"; "input"; "int"; "isinstance"; "issubclass"; "iter";
   "len"; "list"; "locals"; "map"; "max"; "memoryview"; "min"; "next"; "object";
   "oct"; "open"; "ord"; "pow"; "print"; "property"; "range"; "repr";
   "reversed"; "round"; "set"; "setattr"; "slice"; "sorted"; "staticmethod";
   "str"; "sum"; "super"; "tuple"; "type"; "vars"; "zip"; "__import__"].

Definition load_global (name : string) : M unit :=
  if bool_decide (name ∈ module_globals ++ builtins) then mret tt
  else raise (NameError name).

(** ** The literals of the module

    Each constant is a literal of the source, byte for byte; the pieces of an
    f-string are numbered in order, one piece between two interpolations. *)

Definition RESEARCH_PROMPT : string :=
  "Conduct comprehensive due diligence research on Hargreaves Lansdown (HL) with focus on recent developments. Search for and analyze:

1. **CEO Search & Leadership**
   - Current status of CEO search (Dan Olley and Amy Stirling departed after acquisition)
   - Any announcements about permanent CEO appointment
   - Changes to executive team or board

2. **New Ownership Impact**
   - How are CVC Capital Partners, Nordic Capital, and ADIA changing the company?
   - Technology investment announcements
   - Strategic direction changes since March 2025 privatisation
   - Any fee structure changes or new product announcements

3. **Woodford Litigation**
   - Current status of the ¬£200m+ group legal action by RGL Management
   - Any court dates, rulings, or settlement discussions
   - Financial provisions or statements about the case
   - Impact on company finances or reputation

4. **Operational Performance**
   - Recent AUA (Assets Under Administration) figures
   - Client numbers and net flows
   - Platform reliability incidents
   - Customer service quality indicators

5. **Regulatory Standing**
   - Any new FCA actions, investigations, or concerns
   - Consumer Duty compliance updates
   - FSCS protection status confirmation

6. **Financial Health**
   - Latest available financial metrics
   - Cash position and debt levels
   - Any credit rating changes

Provide a structured report with clear sections. Include specific dates and sources for all claims. Flag any items that represent significant changes or concerns for a Junior ISA customer with ¬£30,000+ invested.

Today's date: ".

Definition COMPARISON_PROMPT_0 : string :=
  "Compare these two due diligence reports on Hargreaves Lansdown and identify significant changes.

PREVIOUS REPORT (".

Definition COMPARISON_PROMPT_1 : string :=
  "):
".

Definition COMPARISON_PROMPT_2 : string :=
  "

---

NEW REPORT (".

Definition COMPARISON_PROMPT_3 : string :=
  "):
".

Definition COMPARISON_PROMPT_4 : string :=
  "

---

Provide a structured comparison with these sections:

## üî¥ CRITICAL CHANGES (Immediate attention required)
Items that significantly affect risk for a ¬£30k+ Junior ISA holder

## üü° NOTABLE DEVELOPMENTS (Worth monitoring)
Material changes that don't require immediate action

## üü¢ POSITIVE UPDATES
Improvements or reassuring developments

## ‚ÑπÔ∏è STATUS UNCHANGED
Key items that remain the same (brief summary)

## üìä METRICS COMPARISON TABLE
| Metric | Previous | Current | Change |
|--------|----------|---------|--------|
(Include AUA, client numbers, cash position, litigation status where available)

## üí° RECOMMENDATION
Brief assessment: Should the JISA holder take any action based on these changes?

Be specific about what changed and when. If no significant changes occurred, clearly state that the situation remains stable.".

Definition H2_OPEN : string :=
  String.concat dq
    ["<h2 style=";
     "color: #2c3e50; border-bottom: 2px solid #3498db; padding-bottom: 5px;";
     ">"].

Definition H2_CLOSE : string :=
  "</h2>".

Definition H3_OPEN : string :=
  String.concat dq
    ["<h3 style=";
     "color: #34495e;";
     ">"].

Definition H3_CLOSE : string :=
  "</h3>".

Definition STRONG_OPEN : string :=
  "<strong>".

Definition STRONG_CLOSE : string :=
  "</strong>".

Definition ROW_OPEN : string :=
  String.concat dq
    ["<tr><td style=";
     "border: 1px solid #ddd; padding: 8px;";
     ">"].

Definition ROW_CLOSE : string :=
  "</td></tr>".

Definition PARAGRAPH_BREAK : string :=
  String.concat dq
    ["</p><p style=";
     "margin: 10px 0;";
     ">"].

Definition HTML_0 : string :=
  String.concat dq
    ["
    <!DOCTYPE html>
    <html>
    <head>
        <meta charset=";
     "UTF-8";
     ">
        <style>
            body { font-family: -apple-system, BlinkMacSystemFont, 'Segoe UI', Roboto, sans-serif; line-height: 1.6; color: #333; max-width: 800px; margin: 0 auto; padding: 20px; }
            h1 { color: #1a5276; }
            h2 { color: #2c3e50; border-bottom: 2px solid #3498db; padding-bottom: 5px; }
            table { border-collapse: collapse; width: 100%; margin: 15px 0; }
            th, td { border: 1px solid #ddd; padding: 8px; text-align: left; }
            th { background: #3498db; color: white; }
            .footer { margin-top: 30px; padding-top: 20px; border-top: 1px solid #ddd; font-size: 12px; color: #666; }
        </style>
    </head>
    <body>
        <h1>üè¶ Hargreaves Lansdown Due Diligence Report</h1>
        <p style=";
     "color: #666;";
     ">Generated: "].

Definition HTML_1 : string :=
  "</p>
        
        ".

Definition HTML_2 : string :=
  "
        
        ".

Definition HTML_3 : string :=
  String.concat dq
    ["
        
        <details style=";
     "margin: 20px 0;";
     ">
            <summary style=";
     "cursor: pointer; font-weight: bold; font-size: 18px; color: #2c3e50; padding: 10px; background: #f8f9fa; border-radius: 5px;";
     ">
                üìÑ Full Research Report (click to expand)
            </summary>
            <div style=";
     "background: #fff; border: 1px solid #ddd; border-radius: 0 0 5px 5px; padding: 20px; margin-top: -5px;";
     ">
                "].

Definition HTML_4 : string :=
  String.concat dq
    ["
            </div>
        </details>
        
        <div class=";
     "footer";
     ">
            <p>This report was automatically generated using Claude AI with web search.</p>
            <p>Repository: <a href=";
     "https://github.com/YOUR_USERNAME/hl-monitoring";
     ">hl-monitoring</a></p>
            <p>Next report scheduled: "].

Definition HTML_5 : string :=
  "</p>
        </div>
    </body>
    </html>
    ".

Definition FIRST_RUN_SUBJECT : string :=
  "üÜï First HL Due Diligence Report".

Definition FIRST_RUN_INTRO : string :=
  String.concat dq
    ["<p style=";
     "background: #e8f4f8; padding: 15px; border-radius: 5px;";
     ">
            This is your <strong>first automated due diligence report</strong> on Hargreaves Lansdown. 
            Future monthly reports will include a comparison highlighting changes since this baseline.
        </p>"].

Definition MONTHLY_SUBJECT : string :=
  "üìä Monthly HL Due Diligence Update".

Definition MONTHLY_INTRO : string :=
  String.concat dq
    ["<p style=";
     "background: #e8f4f8; padding: 15px; border-radius: 5px;";
     ">
            Your monthly due diligence report on Hargreaves Lansdown is ready. 
            See the <strong>Changes Summary</strong> below for what's new since last month.
        </p>"].

Definition COMPARISON_SECTION_0 : string :=
  String.concat dq
    ["
        <div style=";
     "background: #fff; border: 1px solid #ddd; border-radius: 5px; padding: 20px; margin: 20px 0;";
     ">
            <h2 style=";
     "color: #2c3e50; margin-top: 0;";
     ">üìã Changes Since Last Report</h2>
            "].

Definition COMPARISON_SECTION_1 : string :=
  "
        </div>
        ".

(** ** Configuration *)

Definition path_join (dir name : string) : string := dir +:+ "/" +:+ name.

(** Files are named relative to [SCRIPT_DIR.parent], the directory above the
    script's. *)
Definition REPORTS_DIR : string := "reports".

Definition LATEST_REPORT_PATH : string := path_join REPORTS_DIR "latest_report.json".

(** [str(SCRIPT_DIR.parent / p)], the way a path is printed: [parent] is the
    string of a [Path], so it ends with a slash only when it is a root, and it
    is a single dot when the script was started by a name relative to that
    directory. *)
Definition path_str (parent p : string) : string :=
  if decide (parent = ".") then p
  else if ends_with_slash parent then parent +:+ p
  else path_join parent p.

Definition MODEL : string := "claude-sonnet-4-20250514".

Definition web_search (uses : N) : tool := Tool "web_search_20250305" "web_search" uses.

Definition PAUSE_TURN : string := "pause_turn".

(** ** [get_research_prompt] and [get_comparison_prompt] *)

Definition get_research_prompt : M string :=
  now ← datetime_now;
  mret (RESEARCH_PROMPT +:+ strftime_d_B_Y now).

(** The fields of the f-string are evaluated from left to right: the
    previous date, the previous report, the clock, the new report.  The two
    previous values are whatever the record file held. *)
Definition get_comparison_prompt (previous_report : json) (new_report : string)
    (previous_date : json) : M string :=
  date_text ← format_value previous_date;
  report_text ← format_value previous_report;
  now ← datetime_now;
  mret (COMPARISON_PROMPT_0 +:+ date_text +:+ COMPARISON_PROMPT_1 +:+ report_text
        +:+ COMPARISON_PROMPT_2 +:+ strftime_d_B_Y now +:+ COMPARISON_PROMPT_3 +:+ new_report
        +:+ COMPARISON_PROMPT_4).

(** ** [conduct_research] *)

(** The text of the blocks that have one, in order. *)
Fixpoint extract_text (bs : list block) : string :=
  match bs with
  | [] => ""
  | TextBlock t :: bs' => t +:+ extract_text bs'
  | OtherBlock _ :: bs' => extract_text bs'
  end.

Definition continuation (messages : list message) (r : response) : list message :=
  messages ++ [Message "assistant" (Blocks (content r));
               Message "user" (Text "Please continue your research.")].

(** The [while response.stop_reason == "pause_turn"] loop.  The source has no
    bound on it; [fuel] counts the iterations the model is willing to follow
    and [OutOfFuel] is the loop still running. *)
Fixpoint research_loop (fuel : nat) (messages : list message) (r : response)
  : M response :=
  if decide (stop_reason r = PAUSE_TURN) then
    match fuel with
    | 0 => out_of_fuel
    | S fuel' =>
        print "Claude requesting more search time, continuing...";;
        let messages := continuation messages r in
        r' ← messages_create (Request MODEL 8192 [web_search 10] messages);
        research_loop fuel' messages r'
    end
  else mret r.

Definition conduct_research (fuel : nat) : M string :=
  print "Starting research with Claude API + web search...";;
  prompt ← get_research_prompt;
  r ← messages_create (Request MODEL 8192 [web_search 15] [Message "user" (Text prompt)]);
  prompt ← get_research_prompt;
  let messages := [Message "user" (Text prompt)] in
  r ← research_loop fuel messages r;
  let report_text := extract_text (content r) in
  print ("Research complete. Report length: " +:+ str_of_nat (py_len report_text)
         +:+ " characters");;
  mret report_text.

(** ** [compare_reports] *)

Definition compare_reports (previous_report : json) (new_report : string)
    (previous_date : json) : M string :=
  print "Comparing reports...";;
  prompt ← get_comparison_prompt previous_report new_report previous_date;
  r ← messages_create (Request MODEL 4096 [] [Message "user" (Text prompt)]);
  mret (extract_text (content r)).

(** ** [load_previous_report] and [save_report] *)

Definition load_previous_report : M (option (json * json)) :=
  present ← path_exists LATEST_REPORT_PATH;
  if present : bool then
    data ← json_load LATEST_REPORT_PATH;
    report ← dict_get data "report" (JString "");
    date ← dict_get data "date" (JString "Unknown");
    mret (Some (report, date))
  else mret None.

(** The dict [save_report] builds, in the order of its keys. *)
Definition record (date timestamp report : string) : list (string * string) :=
  [("date", date); ("timestamp", timestamp); ("report", report)].

Definition archive_path (now : datetime) : string :=
  path_join REPORTS_DIR ("report_" +:+ strftime_Y_m_d now +:+ ".json").

Definition save_report (report : string) : M unit :=
  mkdir REPORTS_DIR;;
  now1 ← datetime_now;
  now2 ← datetime_now;
  let data := record (strftime_d_B_Y now1) (isoformat now2) report in
  json_dump data LATEST_REPORT_PATH;;
  now3 ← datetime_now;
  json_dump data (archive_path now3);;
  cfg ← module_constants;
  print ("Report saved to " +:+ path_str (SCRIPT_DIR_PARENT cfg) LATEST_REPORT_PATH).

(** ** [create_email_html] *)


(** [text.split("\n")] *)
Fixpoint split_lines (s : string) : list string :=
  match s with
  | EmptyString => [""]
  | String c s' =>
      let ls := split_lines s' in
      if decide (c = LF) then "" :: ls
      else match ls with
           | l :: ls' => String c l :: ls'
           | [] => [String c ""]
           end
  end.

Definition join_lines (ls : list string) : string := String.concat (String LF "") ls.

(** The text before the first occurrence of [pat] and the text after it. *)
Fixpoint str_partition (pat s : string) {struct s} : option (string * string) :=
  if str_startswith pat s then Some ("", str_drop (String.length pat) s)
  else match s with
       | EmptyString => None
       | String c s' =>
           match str_partition pat s' with
           | Some (a, b) => Some (String c a, b)
           | None => None
           end
       end.

(** The text before the last occurrence of [c] and the text after it. *)
Fixpoint str_rpartition (c : ascii) (s : string) : option (string * string) :=
  match s with
  | EmptyString => None
  | String a s' =>
      match str_rpartition c s' with
      | Some (x, y) => Some (String a x, y)
      | None => if decide (a = c) then Some ("", s') else None
      end
  end.

(** The four substitutions of [md_to_html] never match across a newline
    ([.] excludes it, [^] and [$] are line anchors under [re.MULTILINE]), so
    each is a map over the lines of the text.

    [^## (.+)$] and [^### (.+)$]: a line that starts with the marker and goes
    on for at least one character. *)
Definition sub_heading (marker opening closing line : string) : string :=
  if str_startswith marker line then
    match str_drop (String.length marker) line with
    | EmptyString => line
    | rest => opening +:+ rest +:+ closing
    end
  else line.

(** [\*\*(.+?)\*\*]: from the left, two stars, the shortest non-empty group,
    two stars. *)
Fixpoint sub_strong (fuel : nat) (s : string) : string :=
  match fuel, s with
  | 0, _ => s
  | _, EmptyString => ""
  | S fuel', String c s' =>
      if str_startswith "**" s then
        match str_drop 2 s with
        | String g rest =>
            match str_partition "**" rest with
            | Some (group, after) =>
                STRONG_OPEN +:+ String g group +:+ STRONG_CLOSE +:+ sub_strong fuel' after
            | None => String c (sub_strong fuel' s')
            end
        | EmptyString => String c (sub_strong fuel' s')
        end
      else String c (sub_strong fuel' s')
  end.

(** [\|(.+)\|]: from the first bar of the line to its last one, with a
    non-empty group between them. *)
Definition sub_row (line : string) : string :=
  match str_partition "|" line with
  | Some (before, inner) =>
      match str_rpartition "|" inner with
      | Some (String g group, after) =>
          before +:+ ROW_OPEN +:+ String g group +:+ ROW_CLOSE +:+ after
      | _ => line
      end
  | None => line
  end.

Definition per_line (f : string -> string) (text : string) : string :=
  join_lines (f <$> split_lines text).

Definition md_to_html_str (text : string) : string :=
  let text := per_line (sub_heading "## " H2_OPEN H2_CLOSE) text in
  let text := per_line (sub_heading "### " H3_OPEN H3_CLOSE) text in
  let text := per_line (fun l => sub_strong (S (String.length l)) l) text in
  let text := per_line sub_row text in
  let text := str_replace (String LF (String LF "")) PARAGRAPH_BREAK text in
  str_replace (String LF "") "<br>" text.

(** [md_to_html(text)]: [re.sub] raises [TypeError] on [None]. *)
Definition md_to_html (text : option string) : M string :=
  match text with
  | Some s => mret (md_to_html_str s)
  | None => raise TypeError
  end.

Definition create_email_html (comparison : option string) (full_report : string)
    (is_first_run : bool) : M (string * string) :=
  now ← datetime_now;
  let date_str := strftime_d_B_Y now in
  '(subject_line, intro, comparison_section) ←
    (if is_first_run
     then mret (FIRST_RUN_SUBJECT, FIRST_RUN_INTRO, "")
     else converted ← md_to_html comparison;
          mret (MONTHLY_SUBJECT, MONTHLY_INTRO,
                COMPARISON_SECTION_0 +:+ converted +:+ COMPARISON_SECTION_1));
  report_html ← md_to_html (Some full_report);
  now ← datetime_now;
  load_global "timedelta";;
  let next_report :=
    strftime_d_B_Y (replace_day 1 (add_days 32 (replace_day 1 now))) in
  let html :=
    HTML_0 +:+ date_str +:+ HTML_1 +:+ intro +:+ HTML_2 +:+ comparison_section
      +:+ HTML_3 +:+ report_html +:+ HTML_4 +:+ next_report +:+ HTML_5 in
  mret (html, subject_line).

(** ** [send_email] *)

Definition send_email (html_content subject : string) : M unit :=
  cfg ← module_constants;
  print ("Sending email to " +:+ RECIPIENT_EMAIL cfg +:+ "...");;
  smtp_deliver (Email subject (GMAIL_ADDRESS cfg) (RECIPIENT_EMAIL cfg) html_content);;
  print "Email sent successfully!".

(** ** [main] *)

Definition banner : string := str_repeat "=" 60.

(** Steps 1 to 3: the new report, the previous record if there is one, and
    the comparison with it or the first-run flag. *)
Definition research_and_compare (fuel : nat) : M (string * option string * bool) :=
  print banner;;
  now ← datetime_now;
  print ("HL Due Diligence Monitor - " +:+ strftime_Y_m_d_H_M now);;
  print banner;;
  new_report ← conduct_research fuel;
  previous ← load_previous_report;
  match previous with
  | Some (previous_report, previous_date) =>
      date_text ← format_value previous_date;
      print ("Found previous report from " +:+ date_text);;
      comparison ← compare_reports previous_report new_report previous_date;
      mret (new_report, Some comparison, false)
  | None =>
      print "No previous report found - this is the first run";;
      mret (new_report, None, true)
  end.

(** Steps 5 and 6: send, then save, then report completion. *)
Definition send_then_save (html_content subject new_report : string) : M unit :=
  send_email html_content subject;;
  save_report new_report;;
  print banner;;
  print "Complete!";;
  print banner.

(** [from datetime import timedelta] on entry binds a name local to [main];
    it adds nothing to the names of the module. *)
Definition main (fuel : nat) : M unit :=
  '(new_report, comparison, is_first_run) ← research_and_compare fuel;
  '(html_content, subject) ← create_email_html comparison new_report is_first_run;
  send_then_save html_content subject new_report.

(** * Vocabulary of the properties *)

(** A computation that leaves one observation of the world as it was,
    whatever its outcome. *)
Definition keeps {A X} (field : world -> X) (m : M A) : Prop :=
  forall w, field (snd (m w)) = field w.

(** A computation that never returns normally. *)
Definition returned {A} (o : outcome A) : bool :=
  match o with
  | Return _ => true
  | _ => false
  end.

Definition never_returns {A} (m : M A) : Prop :=
  forall w, returned (fst (m w)) = false.

(** A file that can be read, holds UTF-8 text, and is the JSON text of [v]. *)
Definition holds_json (w : world) (p : string) (v : json) : Prop :=
  exists content,
    fs w !! p = Some content /\ read_fault w p = false /\
    is_utf8 content = true /\ json_loads content = Value v.

(** The string a [str] is after it has been written by [json.dump] and read
    by [json.load]: a high surrogate and a low surrogate that follow each
    other have become the one code point the pair stands for. *)
Definition opt_list (pending : option N) : list N :=
  match pending with
  | Some hi => [hi]
  | None => []
  end.

Fixpoint rejoin (pending : option N) (cps : list N) : list N :=
  match cps with
  | [] => opt_list pending
  | cp :: rest =>
      if is_low cp then
        match pending with
        | Some hi => join_surrogates hi cp :: rejoin None rest
        | None => cp :: rejoin None rest
        end
      else if is_high cp then opt_list pending ++ rejoin (Some cp) rest
      else opt_list pending ++ cp :: rejoin None rest
  end.

Definition joined (s : string) : string := str_of (rejoin None (codepoints s)).

(** A high surrogate right before a low one, as two code points. *)
Fixpoint surrogate_pair (cps : list N) : bool :=
  match cps with
  | [] => false
  | hi :: rest =>
      match rest with
      | lo :: _ => (is_high hi && is_low lo) || surrogate_pair rest
      | [] => false
      end
  end.

(** The dict [json.load] makes of the text [json.dump] wrote for [d]. *)
Definition reloaded (d : list (string * string)) : list (string * json) :=
  map (fun kv => (joined kv.1, JString (joined kv.2))) d.

(** The members of an object from the first key on, as [json.dump] writes
    them with [indent=2]. *)
Fixpoint members_text (kv : string * string) (d : list (string * string)) : string :=
  json_string kv.1 +:+ ": " +:+ json_string kv.2 +:+
  match d with
  | [] => String LF "}"
  | kv' :: d' => "," +:+ String LF "  " +:+ members_text kv' d'
  end.

(** The number a text of decimal digits denotes. *)
Fixpoint number_from (acc : N) (s : string) : option N :=
  match s with
  | EmptyString => Some acc
  | String c s' =>
      if is_digit c then number_from (acc * 10 + (N_of_ascii c - 48)) s' else None
  end.

Definition number (s : string) : option N := number_from 0 s.

(** The three readings of the clock a save started in [w] takes: for the
    [date] member, for the [timestamp] member, for the name of the archive. *)
Definition date_reading (w : world) : datetime := clock w (ticks w).
Definition timestamp_reading (w : world) : datetime := clock w (S (ticks w)).
Definition archive_reading (w : world) : datetime := clock w (S (S (ticks w))).

(** The record a save started in [w] writes. *)
Definition saved_record (report : string) (w : world) : list (string * string) :=
  record (strftime_d_B_Y (date_reading w)) (isoformat (timestamp_reading w)) report.

(** Example worlds.  The clock of [quiet_world] stands still just before
    midnight on 31 January 2025; nothing fails and the service answers every
    call with the same finished report. *)
Definition example_config : config :=
  Config "sk-test" "monitor@example.org" "app-password" "owner@example.org"
         "/home/runner/work/hl-regular-due-diligence/hl-regular-due-diligence".

Definition example_reply : api_result :=
  Reply (Response "end_turn" [TextBlock "AUA rose 5%."]).

Definition no_read_fault : string -> bool := fun _ => false.
Definition no_write_fault : string -> option write_failure := fun _ => None.
Definition example_beyond : string -> answer json :=
  fun _ => Throws (Exception "RecursionError").
Definition example_format : json -> answer string := fun _ => Gives "0".

Definition quiet_world : world :=
  World example_config ∅ no_read_fault no_write_fault
        (fun _ => mk_datetime 2025 1 31 23 59 58 0)
        0 (fun _ => example_reply) [] (fun _ => Delivered) [] []
        example_beyond example_format.

(** The same world with a clock that passes midnight after three readings. *)
Definition midnight_world : world :=
  World example_config ∅ no_read_fault no_write_fault
        (fun n => if n <? 3 then mk_datetime 2025 1 31 23 59 58 0
                  else mk_datetime 2025 2 1 0 0 1 0)
        0 (fun _ => example_reply) [] (fun _ => Delivered) [] []
        example_beyond example_format.





(** The world after [print(s)]. *)
Definition said (s : string) (w : world) : world := set_stdout (stdout w ++ [s]) w.

(** The world after the banner of [main]. *)
Definition preamble (w : world) : world :=
  said banner
    (said ("HL Due Diligence Monitor - " +:+ strftime_Y_m_d_H_M (clock w (ticks w)))
       (set_ticks (S (ticks w)) (said banner w))).


(** The message [send_email] hands to the relay. *)
Definition outgoing (html_content subject : string) (w : world) : email :=
  Email subject (GMAIL_ADDRESS (environ w)) (RECIPIENT_EMAIL (environ w)) html_content.

(** A relay that refuses every message, and one that accepts every message
    and answers the closing of the session with an error. *)
Definition refusing_world : world :=
  World example_config ∅ no_read_fault no_write_fault
        (fun _ => mk_datetime 2025 1 31 23 59 58 0)
        0 (fun _ => example_reply) [] (fun _ => NotDelivered SMTPException) [] []
        example_beyond example_format.

Definition bad_quit_world : world :=
  World example_config ∅ no_read_fault no_write_fault
        (fun _ => mk_datetime 2025 1 31 23 59 58 0)
        0 (fun _ => example_reply) [] (fun _ => DeliveredThenRaised SMTPException) [] []
        example_beyond example_format.

(** The outcome of the [k]-th call made from [w] on. *)
Definition reply_at (w : world) (k : nat) : api_result := api w (length (api_log w) + k).

(** A reply that asks for a continuation. *)
Definition is_pause (a : api_result) : bool :=
  match a with
  | Reply r => bool_decide (stop_reason r = PAUSE_TURN)
  | ApiFailure _ => false
  end.

Definition research_request (uses : N) (messages : list message) : request :=
  Request MODEL 8192 [web_search uses] messages.

(** The world after one continuation request has been announced and made. *)
Definition continued (messages : list message) (r : response) (w : world) : world :=
  set_api_log (api_log w ++ [research_request 10 (continuation messages r)])
    (set_stdout (stdout w ++ ["Claude requesting more search time, continuing..."]) w).

(** The opening request of [conduct_research], and the world in which the
    loop starts: the prompt has been built twice, the request made once. *)
Definition first_request (w : world) : request :=
  research_request 15
    [Message "user" (Text (RESEARCH_PROMPT +:+ strftime_d_B_Y (clock w (ticks w))))].

Definition first_messages (w : world) : list message :=
  [Message "user" (Text (RESEARCH_PROMPT +:+ strftime_d_B_Y (clock w (S (ticks w)))))].

Definition requested (w : world) : world :=
  set_api_log (api_log w ++ [first_request w])
    (set_ticks (S (ticks w))
       (set_stdout (stdout w ++ ["Starting research with Claude API + web search..."]) w)).

Definition started (w : world) : world := set_ticks (S (S (ticks w))) (requested w).

Definition completed (text : string) (w : world) : world :=
  set_stdout (stdout w ++ ["Research complete. Report length: "
                           +:+ str_of_nat (py_len text) +:+ " characters"]) w.

(** A service that pauses twice before it answers. *)
Definition pause_reply : api_result :=
  Reply (Response "pause_turn" [OtherBlock "server_tool_use"]).

Definition pausing_world : world :=
  World example_config ∅ no_read_fault no_write_fault
        (fun _ => mk_datetime 2025 1 31 23 59 58 0)
        0 (fun n => if n <? 2 then pause_reply else example_reply) [] (fun _ => Delivered) [] []
        example_beyond example_format.

(** A second run: a record of 1 January 2025 is on disk, the clock shows
    1 February 2025, the service answers the research request and then the
    comparison request. *)
Definition second_run_world : world :=
  World example_config
        {[LATEST_REPORT_PATH :=
            json_dumps (record "01 January 2025" "2025-01-01T09:00:00" "AUA flat.")]}
        no_read_fault no_write_fault
        (fun _ => mk_datetime 2025 2 1 9 0 0 0)
        0
        (fun n => if n <? 1 then example_reply
                  else Reply (Response "end_turn" [TextBlock "## AUA up 5% since January."]))
        [] (fun _ => Delivered) [] []
        example_beyond example_format.

(** Worlds for the further properties.  In [full_disk_world] the archive of
    31 January 2025 cannot be opened for writing; in [torn_world] the record
    of second_run_world is emptied by [open] and the write that follows
    fails at once; in [corrupt_record_world] the record file is not JSON. *)
Definition full_disk_world : world :=
  World example_config ∅ no_read_fault
        (fun p => if bool_decide (p = "reports/report_2025-01-31.json")
                  then Some OpenFails else None)
        (fun _ => mk_datetime 2025 1 31 23 59 58 0)
        0 (fun _ => example_reply) [] (fun _ => Delivered) [] []
        example_beyond example_format.

Definition torn_world : world :=
  World example_config (fs second_run_world) no_read_fault
        (fun p => if bool_decide (p = LATEST_REPORT_PATH) then Some (WriteStops 0) else None)
        (fun _ => mk_datetime 2025 2 1 9 0 0 0)
        0 (fun _ => example_reply) [] (fun _ => Delivered) [] []
        example_beyond example_format.


(** The instruction that ends every continuation conversation. *)
Definition CONTINUE : message := Message "user" (Text "Please continue your research.").

(** The turns that [rs] pauses add to a conversation: for each of them the
    assistant turn with the content of the response, then the instruction
    to continue. *)
Definition turns (rs : list response) : list message :=
  flat_map (fun r => [Message "assistant" (Blocks (content r)); CONTINUE]) rs.

(** A service that pauses once and then fails. *)
Definition failing_world : world :=
  World example_config ∅ no_read_fault no_write_fault
        (fun _ => mk_datetime 2025 1 31 23 59 58 0)
        0 (fun n => if n <? 1 then pause_reply else ApiFailure "overloaded")
        [] (fun _ => Delivered) [] []
        example_beyond example_format.

(** A world in which midnight falls after the first reading of the clock. *)
Definition new_day_world : world :=
  World example_config ∅ no_read_fault no_write_fault
        (fun n => if n <? 1 then mk_datetime 2025 1 31 23 59 59 0
                  else mk_datetime 2025 2 1 0 0 0 0)
        0 (fun n => if n <? 1 then pause_reply else example_reply)
        [] (fun _ => Delivered) [] []
        example_beyond example_format.

(** [c in s] *)
Fixpoint str_has (c : ascii) (s : string) : bool :=
  match s with
  | EmptyString => false
  | String a s' => if decide (a = c) then true else str_has c s'
  end.

(** Text on one line with no star and no bar: nothing in it is markup for
    the bold and table substitutions of [md_to_html]. *)
Definition plain (s : string) : Prop :=
  str_has LF s = false /\ str_has "*" s = false /\ str_has "|" s = false.

(** A world in which midnight falls after the second reading of the clock. *)
Definition late_save_world : world :=
  World example_config ∅ no_read_fault no_write_fault
        (fun n => if n <? 2 then mk_datetime 2025 1 31 23 59 59 0
                  else mk_datetime 2025 2 1 0 0 0 0)
        0 (fun _ => example_reply) [] (fun _ => Delivered) [] []
        example_beyond example_format.

(** A report whose last two code points are the surrogates U+D83C and
    U+DF26, and the same report ending with the code point U+1F326. *)
Definition split_pair_report : string :=
  "Rain " +:+ String "237"%char (String "160"%char (String "188"%char
              (String "237"%char (String "188"%char (String "166"%char "")))))%string.

Definition joined_pair_report : string :=
  "Rain " +:+ String "240"%char (String "159"%char (String "140"%char
              (String "166"%char "")))%string.

(** * Properties *)

(** ** Running monadic code *)

Lemma run_bind {A B} (m : M A) (f : A -> M B) (w : world) :
  (m ≫= f) w =
  match m w with
  | (Return a, w') => f a w'
  | (Raise e, w') => (Raise e, w')
  | (OutOfFuel, w') => (OutOfFuel, w')
  end.
Proof. reflexivity. Qed.

(** ** Computations that never return *)

Lemma never_returns_bind_l {A B} (m : M A) (f : A -> M B) :
  never_returns m -> never_returns (m ≫= f).
Proof.
  intros Hm w. rewrite run_bind. specialize (Hm w).
  destruct (m w) as [[a | e |] w1]; simpl in *; congruence.
Qed.

Lemma never_returns_bind_r {A B} (m : M A) (f : A -> M B) :
  (forall a, never_returns (f a)) -> never_returns (m ≫= f).
Proof.
  intros Hf w. rewrite run_bind.
  destruct (m w) as [[a | e |] w1]; simpl; [apply Hf | reflexivity | reflexivity].
Qed.

(** What rendering does, for every input: the outcome is an exception, and
    which one depends only on whether a comparison has to be converted. *)
Lemma create_email_html_outcome comparison full_report is_first_run w :
  fst (create_email_html comparison full_report is_first_run w) =
  if is_first_run then Raise (NameError "timedelta")
  else match comparison with
       | Some _ => Raise (NameError "timedelta")
       | None => Raise TypeError
       end.
Proof. destruct is_first_run, comparison; reflexivity. Qed.

Lemma create_email_html_never_returns comparison full_report is_first_run :
  never_returns (create_email_html comparison full_report is_first_run).
Proof.
  intros w. rewrite create_email_html_outcome.
  destruct is_first_run, comparison; reflexivity.
Qed.

Lemma main_never_returns fuel : never_returns (main fuel).
Proof.
  unfold main. apply never_returns_bind_r. intros [[new_report comparison] is_first_run].
  apply never_returns_bind_l, create_email_html_never_returns.
Qed.

(** ** Frames: what a computation leaves alone

    Each function of the module touches a few fields of the world.  The
    lemmas are stated once, for any observation [field] of the world that
    does not depend on the fields the function writes. *)

Create HintDb keeps discriminated.

Section Frame.
Context {X : Type} (field : world -> X).

Lemma keeps_bind {A B} (m : M A) (f : A -> M B) :
  keeps field m -> (forall a, keeps field (f a)) -> keeps field (m ≫= f).
Proof.
  intros Hm Hf w. rewrite run_bind. specialize (Hm w).
  destruct (m w) as [[a | e |] w1]; simpl in *; try assumption.
  rewrite Hf. assumption.
Qed.

Lemma keeps_bind_never {A B} (m : M A) (f : A -> M B) :
  keeps field m -> never_returns m -> keeps field (m ≫= f).
Proof.
  intros Hk Hn w. rewrite run_bind. specialize (Hk w). specialize (Hn w).
  destruct (m w) as [[a | e |] w1]; simpl in *; congruence.
Qed.

Lemma keeps_ret {A} (a : A) : keeps field (mret a).
Proof. intros w. reflexivity. Qed.

Lemma keeps_raise {A} (e : exn) : keeps field (raise (A:=A) e).
Proof. intros w. reflexivity. Qed.

Lemma keeps_out_of_fuel {A} : keeps field (out_of_fuel (A:=A)).
Proof. intros w. reflexivity. Qed.

Lemma keeps_module_constants : keeps field module_constants.
Proof. intros w. reflexivity. Qed.

Lemma keeps_path_exists p : keeps field (path_exists p).
Proof. intros w. reflexivity. Qed.

Lemma keeps_answered {A} (a : answer A) : keeps field (answered a).
Proof. intros w. destruct a; reflexivity. Qed.

Lemma keeps_json_load p : keeps field (json_load p).
Proof.
  intros w. unfold json_load. destruct (fs w !! p) as [content |]; [| reflexivity].
  destruct (read_fault w p); [reflexivity |].
  destruct (is_utf8 content); [| reflexivity]. cbn [negb].
  destruct (json_loads content); [reflexivity | reflexivity | apply keeps_answered].
Qed.

Lemma keeps_dict_get d k v : keeps field (dict_get d k v).
Proof. intros w. destruct d; reflexivity. Qed.

Lemma keeps_format_value v : keeps field (format_value v).
Proof.
  intros w. destruct v as [| [] | | | |]; try reflexivity; apply keeps_answered.
Qed.

Lemma keeps_load_global name : keeps field (load_global name).
Proof. intros w. unfold load_global. case_bool_decide; reflexivity. Qed.

Lemma keeps_md_to_html t : keeps field (md_to_html t).
Proof. intros w. destruct t; reflexivity. Qed.

Hint Resolve keeps_ret keeps_raise keeps_out_of_fuel keeps_module_constants
  keeps_path_exists keeps_json_load keeps_dict_get keeps_format_value keeps_load_global
  keeps_md_to_html : keeps.

Ltac frame :=
  repeat first
    [ apply keeps_bind; [ | intros ? ]
    | solve [ eauto with keeps ]
    | match goal with
      | |- keeps _ (match ?x with _ => _ end) => destruct x
      | |- keeps _ (if ?b then _ else _) => destruct b
      end ].

Lemma keeps_load_previous_report : keeps field load_previous_report.
Proof. unfold load_previous_report. frame. Qed.

(** Console output and clock readings. *)
Hypothesis field_stdout : forall l w, field (set_stdout l w) = field w.
Hypothesis field_ticks : forall n w, field (set_ticks n w) = field w.

Lemma keeps_print s : keeps field (print s).
Proof. intros w. apply field_stdout. Qed.

Lemma keeps_now : keeps field datetime_now.
Proof. intros w. apply field_ticks. Qed.

Hint Resolve keeps_print keeps_now : keeps.

Lemma keeps_get_research_prompt : keeps field get_research_prompt.
Proof. unfold get_research_prompt. frame. Qed.

Lemma keeps_get_comparison_prompt a b c : keeps field (get_comparison_prompt a b c).
Proof. unfold get_comparison_prompt. frame. Qed.

Lemma keeps_create_email_html c r f : keeps field (create_email_html c r f).
Proof. unfold create_email_html. frame. Qed.

Hint Resolve keeps_get_research_prompt keeps_get_comparison_prompt
  keeps_load_previous_report keeps_create_email_html : keeps.

(** Writing files. *)
Section Files.
Hypothesis field_fs : forall f w, field (set_fs f w) = field w.

Lemma keeps_mkdir p : keeps field (mkdir p).
Proof. intros w. unfold mkdir. destruct (write_fault w p); reflexivity. Qed.

Lemma keeps_json_dump data p : keeps field (json_dump data p).
Proof.
  intros w. unfold json_dump.
  destruct (write_fault w p) as [[| written] |]; [reflexivity | apply field_fs ..].
Qed.

Hint Resolve keeps_mkdir keeps_json_dump : keeps.

Lemma keeps_save_report report : keeps field (save_report report).
Proof. unfold save_report. frame. Qed.
End Files.

(** Sending mail. *)
Section Mail.
Hypothesis field_outbox : forall l w, field (set_outbox l w) = field w.

Lemma keeps_smtp_deliver msg : keeps field (smtp_deliver msg).
Proof.
  intros w. unfold smtp_deliver.
  destruct (smtp w msg); [apply field_outbox | apply field_outbox | reflexivity].
Qed.

Hint Resolve keeps_smtp_deliver : keeps.

Lemma keeps_send_email h s : keeps field (send_email h s).
Proof. unfold send_email. frame. Qed.
End Mail.

(** Talking to the service. *)
Section Service.
Hypothesis field_api_log : forall l w, field (set_api_log l w) = field w.

Lemma keeps_messages_create req : keeps field (messages_create req).
Proof.
  intros w. unfold messages_create.
  destruct (api w _); simpl; apply field_api_log.
Qed.

Hint Resolve keeps_messages_create : keeps.

Lemma keeps_research_loop fuel :
  forall msgs r, keeps field (research_loop fuel msgs r).
Proof.
  induction fuel as [| fuel IH]; intros msgs r; simpl;
    destruct (decide (stop_reason r = PAUSE_TURN)); frame.
Qed.

Hint Resolve keeps_research_loop : keeps.

Lemma keeps_conduct_research fuel : keeps field (conduct_research fuel).
Proof. unfold conduct_research. frame. Qed.

Lemma keeps_compare_reports a b c : keeps field (compare_reports a b c).
Proof. unfold compare_reports. frame. Qed.

Hint Resolve keeps_conduct_research keeps_compare_reports : keeps.

Lemma keeps_research_and_compare fuel : keeps field (research_and_compare fuel).
Proof. unfold research_and_compare. frame. Qed.

(** [main] stops at the rendering step, so it writes what steps 1 to 4
    write and nothing else. *)
Lemma keeps_main fuel : keeps field (main fuel).
Proof.
  unfold main. apply keeps_bind; [apply keeps_research_and_compare |].
  intros [[new_report comparison] is_first_run].
  apply keeps_bind_never;
    [ apply keeps_create_email_html | apply create_email_html_never_returns ].
Qed.
End Service.
End Frame.

Lemma main_keeps_fs fuel : keeps fs (main fuel).
Proof. apply keeps_main; reflexivity. Qed.

Lemma main_keeps_outbox fuel : keeps outbox (main fuel).
Proof. apply keeps_main; reflexivity. Qed.
(** ** Text

    Code points, the text [json.dump] writes, and what [json.load] makes of
    it. *)

Ltac Zify.zify_post_hook ::= Z.to_euclidean_division_equations.

Lemma append_empty_r (s : string) : s +:+ "" = s.
Proof. induction s as [| c s IH]; [reflexivity |]. change (String c (s +:+ "") = String c s). rewrite IH. reflexivity. Qed.

Lemma append_assoc (a b c : string) : (a +:+ b) +:+ c = a +:+ (b +:+ c).
Proof. induction a as [| x a IH]; [reflexivity |]. change (String x ((a +:+ b) +:+ c) = String x (a +:+ (b +:+ c))). rewrite IH. reflexivity. Qed.

Lemma str_of_app a b : str_of (a ++ b) = str_of a +:+ str_of b.
Proof. induction a as [| x a IH]; simpl; [reflexivity |]. rewrite IH, append_assoc. reflexivity. Qed.

Lemma unhex_hexdigit n : (n < 16)%N -> unhex (hexdigit n) = Some n.
Proof.
  intros Hn. unfold unhex, hexdigit.
  destruct (N.ltb_spec n 10).
  - rewrite N_ascii_embedding by lia.
    replace ((48 <=? 48 + n) && (48 + n <=? 57))%N with true
      by (symmetry; apply andb_true_iff; split; apply N.leb_le; lia).
    f_equal. lia.
  - rewrite N_ascii_embedding by lia.
    replace ((48 <=? 87 + n) && (87 + n <=? 57))%N with false
      by (symmetry; apply andb_false_iff; right; apply N.leb_gt; lia).
    replace ((97 <=? 87 + n) && (87 + n <=? 102))%N with true
      by (symmetry; apply andb_true_iff; split; apply N.leb_le; lia).
    f_equal. lia.
Qed.

Lemma hex4_value_hex4 n :
  (n < 65536)%N ->
  hex4_value (hexdigit (n / 4096)) (hexdigit (n / 256 mod 16))
             (hexdigit (n / 16 mod 16)) (hexdigit (n mod 16)) = Some n.
Proof.
  intros Hn. unfold hex4_value.
  rewrite !unhex_hexdigit.
  - f_equal. lia.
  - apply N.mod_lt; lia.
  - apply N.mod_lt; lia.
  - apply N.mod_lt; lia.
  - apply N.Div0.div_lt_upper_bound; lia.
Qed.

Lemma append_cons c (a b : string) : String c a +:+ b = String c (a +:+ b).
Proof. reflexivity. Qed.

Lemma append_nil_l (b : string) : "" +:+ b = b.
Proof. reflexivity. Qed.

Lemma ascii_of_N_inj a b : (a < 256)%N -> (b < 256)%N -> ascii_of_N a = ascii_of_N b -> a = b.
Proof.
  intros Ha Hb H. apply (f_equal N_of_ascii) in H.
  rewrite !N_ascii_embedding in H by assumption. exact H.
Qed.

Lemma scan_plain p cp t :
  (32 <= cp)%N -> (cp <= 126)%N -> cp <> 34%N -> cp <> 92%N ->
  scan_string p (String (ascii_of_N cp) t) =
  emit (flush p +:+ String (ascii_of_N cp) "") (scan_string None t).
Proof.
  intros Hlo Hhi Hq Hb. cbn [scan_string].
  destruct (decide (ascii_of_N cp = QUOTE)) as [E | _].
  { change QUOTE with (ascii_of_N 34) in E. apply ascii_of_N_inj in E; lia. }
  destruct (decide (ascii_of_N cp = BACKSLASH)) as [E | _].
  { change BACKSLASH with (ascii_of_N 92) in E. apply ascii_of_N_inj in E; lia. }
  rewrite N_ascii_embedding by lia.
  destruct (N.ltb_spec cp 32); [lia | reflexivity].
Qed.

Lemma scan_simple p e ch t :
  e <> "u"%char -> simple_escape e = Some ch ->
  scan_string p (String BACKSLASH (String e t)) =
  emit (flush p +:+ String ch "") (scan_string None t).
Proof.
  intros Hu He. cbn [scan_string].
  destruct (decide (BACKSLASH = QUOTE)) as [E | _]; [discriminate E |].
  destruct (decide (BACKSLASH = BACKSLASH)) as [_ | E]; [| contradiction E; reflexivity].
  destruct (decide (e = "u"%char)) as [E | _]; [contradiction |].
  rewrite He. reflexivity.
Qed.

Lemma scan_unit p u t :
  (u < 65536)%N ->
  scan_string p (escape_unit u +:+ t) =
  match p with
  | Some hi =>
      if is_low u then emit (utf8 (join_surrogates hi u)) (scan_string None t)
      else if is_high u then emit (utf8 hi) (scan_string (Some u) t)
           else emit (utf8 hi +:+ utf8 u) (scan_string None t)
  | None =>
      if is_high u then scan_string (Some u) t
      else emit (utf8 u) (scan_string None t)
  end.
Proof.
  intros Hu. unfold escape_unit, hex4. rewrite !append_cons, append_nil_l. cbn [scan_string].
  destruct (decide (BACKSLASH = QUOTE)) as [E | _]; [discriminate E |].
  destruct (decide (BACKSLASH = BACKSLASH)) as [_ | E]; [| contradiction E; reflexivity].
  destruct (decide ("u"%char = "u"%char)) as [_ | E]; [| contradiction E; reflexivity].
  rewrite hex4_value_hex4 by assumption. reflexivity.
Qed.

Lemma flush_opt_list p : str_of (opt_list p) = flush p.
Proof. destruct p; simpl; [apply append_empty_r | reflexivity]. Qed.

Lemma emit_some out v t : emit out (Some (v, t)) = Some (out +:+ v, t).
Proof. reflexivity. Qed.

Lemma is_high_spec u : is_high u = true <-> (55296 <= u < 56320)%N.
Proof. unfold is_high. rewrite andb_true_iff, N.leb_le, N.ltb_lt. reflexivity. Qed.

Lemma is_low_spec u : is_low u = true <-> (56320 <= u < 57344)%N.
Proof. unfold is_low. rewrite andb_true_iff, N.leb_le, N.ltb_lt. reflexivity. Qed.

Lemma is_high_false u : is_high u = false <-> ~ (55296 <= u < 56320)%N.
Proof. rewrite <- is_high_spec. destruct (is_high u); split; intros; congruence. Qed.

Lemma is_low_false u : is_low u = false <-> ~ (56320 <= u < 57344)%N.
Proof. rewrite <- is_low_spec. destruct (is_low u); split; intros; congruence. Qed.

(** The code points that are written as [\uXXXX], alone or as a pair. *)
Lemma scan_escape_unicode cp cps p t :
  (cp < 1114112)%N ->
  (cp < 32 \/ 126 < cp)%N ->
  (forall p t, scan_string p (escape_cps cps +:+ String QUOTE t)
               = Some (str_of (rejoin p cps), t)) ->
  scan_string p
    ((if (cp <? 65536)%N then escape_unit cp
      else escape_unit (55296 + (cp - 65536) / 1024)
             +:+ escape_unit (56320 + (cp - 65536) mod 1024))
     +:+ escape_cps cps +:+ String QUOTE t) =
  Some (str_of (if is_low cp
                then match p with
                     | Some hi => join_surrogates hi cp :: rejoin None cps
                     | None => cp :: rejoin None cps
                     end
                else if is_high cp then opt_list p ++ rejoin (Some cp) cps
                     else opt_list p ++ cp :: rejoin None cps), t).
Proof.
  intros Hcp Hrange IH. destruct (N.ltb_spec cp 65536) as [Hbmp | Hastral].
  - rewrite scan_unit by assumption.
    destruct (is_low cp) eqn:Hlow; [| destruct (is_high cp) eqn:Hhigh].
    + assert (Hnh : is_high cp = false).
      { apply is_high_false. apply is_low_spec in Hlow. lia. }
      destruct p as [hi |]; [| rewrite Hnh]; rewrite IH, emit_some; reflexivity.
    + destruct p as [hi |]; rewrite IH; [rewrite emit_some |]; reflexivity.
    + destruct p as [hi |]; rewrite IH, emit_some; cbn [opt_list app str_of];
        rewrite ?append_assoc; reflexivity.
  - set (hi := (55296 + (cp - 65536) / 1024)%N).
    set (lo := (56320 + (cp - 65536) mod 1024)%N).
    assert (Hhi : is_high hi = true) by (apply is_high_spec; subst hi; lia).
    assert (Hlo : is_low lo = true) by (apply is_low_spec; subst lo; lia).
    assert (Hhl : is_low hi = false).
    { apply is_low_false. apply is_high_spec in Hhi. lia. }
    assert (Hjoin : join_surrogates hi lo = cp).
    { unfold join_surrogates. subst hi lo. lia. }
    assert (Hcl : is_low cp = false) by (apply is_low_false; lia).
    assert (Hch : is_high cp = false) by (apply is_high_false; lia).
    rewrite Hcl, Hch, append_assoc.
    rewrite scan_unit by (apply is_high_spec in Hhi; lia).
    rewrite Hhl, Hhi.
    assert (Hnext : scan_string (Some hi) (escape_unit lo +:+ escape_cps cps +:+ String QUOTE t)
                    = Some (utf8 cp +:+ str_of (rejoin None cps), t)).
    { rewrite scan_unit by (apply is_low_spec in Hlo; lia).
      rewrite Hlo, Hjoin, IH. reflexivity. }
    rewrite Hnext.
    destruct p as [h |]; [rewrite emit_some |]; cbn [opt_list app str_of]; reflexivity.
Qed.

(** What [json.loads] reads back from the escaped text of a string. *)
Lemma scan_escape cps :
  Forall (fun cp => (cp < 1114112)%N) cps ->
  forall p t,
    scan_string p (escape_cps cps +:+ String QUOTE t) = Some (str_of (rejoin p cps), t).
Proof.
  induction 1 as [| cp cps Hcp _ IH]; intros p t.
  - cbn [escape_cps rejoin]. rewrite append_nil_l. cbn [scan_string].
    destruct (decide (QUOTE = QUOTE)) as [_ | E]; [| contradiction E; reflexivity].
    rewrite flush_opt_list. reflexivity.
  - cbn [escape_cps rejoin]. rewrite append_assoc.
    assert (Hplain : is_low cp = false -> is_high cp = false ->
              forall esc,
                scan_string p (esc +:+ escape_cps cps +:+ String QUOTE t) =
                emit (flush p +:+ utf8 cp) (scan_string None (escape_cps cps +:+ String QUOTE t)) ->
                scan_string p (esc +:+ escape_cps cps +:+ String QUOTE t) =
                Some (str_of (if is_low cp
                              then match p with
                                   | Some hi => join_surrogates hi cp :: rejoin None cps
                                   | None => cp :: rejoin None cps
                                   end
                              else if is_high cp then opt_list p ++ rejoin (Some cp) cps
                                   else opt_list p ++ cp :: rejoin None cps), t)).
    { intros -> -> esc ->. rewrite IH, emit_some, str_of_app, flush_opt_list.
      cbn [str_of]. rewrite append_assoc. reflexivity. }
    unfold escape_cp.
    destruct (N.eqb_spec cp 34) as [-> |].
    { apply Hplain; [reflexivity | reflexivity |]. apply (scan_simple p QUOTE QUOTE); [discriminate | reflexivity]. }
    destruct (N.eqb_spec cp 92) as [-> |].
    { apply Hplain; [reflexivity | reflexivity |].
      apply (scan_simple p BACKSLASH BACKSLASH); [discriminate | reflexivity]. }
    destruct (N.eqb_spec cp 10) as [-> |].
    { apply Hplain; [reflexivity | reflexivity |].
      apply (scan_simple p "n"%char "010"%char); [discriminate | reflexivity]. }
    destruct (N.eqb_spec cp 13) as [-> |].
    { apply Hplain; [reflexivity | reflexivity |].
      apply (scan_simple p "r"%char "013"%char); [discriminate | reflexivity]. }
    destruct (N.eqb_spec cp 9) as [-> |].
    { apply Hplain; [reflexivity | reflexivity |].
      apply (scan_simple p "t"%char "009"%char); [discriminate | reflexivity]. }
    destruct (N.eqb_spec cp 8) as [-> |].
    { apply Hplain; [reflexivity | reflexivity |].
      apply (scan_simple p "b"%char "008"%char); [discriminate | reflexivity]. }
    destruct (N.eqb_spec cp 12) as [-> |].
    { apply Hplain; [reflexivity | reflexivity |].
      apply (scan_simple p "f"%char "012"%char); [discriminate | reflexivity]. }
    destruct (N.leb_spec 32 cp) as [Hlo | Hlo]; cbn [andb].
    + destruct (N.leb_spec cp 126) as [Hhi | Hhi].
      * apply Hplain.
        -- unfold is_low. destruct (N.leb_spec 56320 cp); [lia | reflexivity].
        -- unfold is_high. destruct (N.leb_spec 55296 cp); [lia | reflexivity].
        -- rewrite append_cons, append_nil_l. rewrite scan_plain by assumption.
           unfold utf8. destruct (N.ltb_spec cp 128); [reflexivity | lia].
      * apply scan_escape_unicode; [assumption | lia | exact IH].
    + apply scan_escape_unicode; [assumption | lia | exact IH].
Qed.

Lemma is_str_codepoints s :
  is_str s = true ->
  str_of (codepoints s) = s /\ Forall (fun cp => (cp < 1114112)%N) (codepoints s).
Proof.
  unfold is_str. rewrite andb_true_iff, String.eqb_eq.
  intros [Heq Hall]. split; [exact Heq |].
  revert Hall. generalize (codepoints s). intros cps.
  induction cps as [| cp cps IH]; intros Hall; [constructor |].
  cbn [forallb] in Hall. apply andb_true_iff in Hall as [Hcp Hall].
  constructor; [apply N.ltb_lt, Hcp | apply IH, Hall].
Qed.

Lemma scan_json_string s t :
  is_str s = true ->
  scan_string None (json_escape s +:+ String QUOTE t) = Some (joined s, t).
Proof. intros Hs. apply scan_escape, is_str_codepoints, Hs. Qed.

Lemma json_dumps_members kv d :
  json_dumps (kv :: d) = String "{" (String LF "  " +:+ members_text kv d).
Proof.
  unfold json_dumps. rewrite append_cons, append_nil_l. f_equal.
  revert kv. induction d as [| kv' d IH]; intros kv.
  - cbn [map String.concat members_text]. unfold json_member.
    rewrite !append_assoc. reflexivity.
  - change (map json_member (kv :: kv' :: d))
      with (json_member kv :: map json_member (kv' :: d)).
    change (String.concat "," (json_member kv :: map json_member (kv' :: d)))
      with (json_member kv +:+ "," +:+ String.concat "," (map json_member (kv' :: d))).
    rewrite !append_assoc, IH. cbn [members_text]. unfold json_member.
    rewrite !append_assoc. reflexivity.
Qed.

Lemma parse_value_string fuel depth s t :
  is_str s = true ->
  parse_value (S fuel) depth (json_string s +:+ t) = Value (JString (joined s), t).
Proof.
  intros Hs. unfold json_string, dq.
  rewrite append_cons, append_assoc, append_cons, append_nil_l.
  cbn [parse_value].
  destruct (decide (QUOTE = QUOTE)) as [_ | E]; [| contradiction E; reflexivity].
  rewrite (scan_json_string _ _ Hs). reflexivity.
Qed.

(** One member, and what follows it. *)
Lemma parse_one_member fuel depth k v after :
  is_str k = true -> is_str v = true ->
  parse_members (S (S fuel)) depth (json_string k +:+ ": " +:+ json_string v +:+ after) =
  match skip_ws after with
  | EmptyString => Invalid
  | String c s =>
      if decide (c = "}"%char) then Value ([(joined k, JString (joined v))], s)
      else if decide (c = ","%char) then
        match parse_members (S fuel) depth (skip_ws s) with
        | Value (members, rest) => Value ((joined k, JString (joined v)) :: members, rest)
        | Invalid => Invalid
        | Unmodelled => Unmodelled
        end
      else Invalid
  end.
Proof.
  intros Hk Hv. remember (S fuel) as fuel1 eqn:Hfuel.
  unfold json_string at 1. unfold dq.
  rewrite append_cons, append_assoc, append_cons, append_nil_l.
  cbn [parse_members].
  destruct (decide (QUOTE = QUOTE)) as [_ | E]; [| contradiction E; reflexivity].
  rewrite (scan_json_string _ _ Hk).
  rewrite !append_cons, append_nil_l.
  change (skip_ws (String ":" (String " " (json_string v +:+ after))))
    with (String ":" (String " " (json_string v +:+ after))).
  cbn iota.
  destruct (decide (":"%char = ":"%char)) as [_ | E]; [| contradiction E; reflexivity].
  change (skip_ws (String " " (json_string v +:+ after)))
    with (skip_ws (json_string v +:+ after)).
  unfold json_string at 1. rewrite append_cons.
  change (skip_ws (String QUOTE ((json_escape v +:+ dq) +:+ after)))
    with (String QUOTE ((json_escape v +:+ dq) +:+ after)).
  rewrite <- append_cons. change (String QUOTE (json_escape v +:+ dq)) with (json_string v).
  subst fuel1. rewrite (parse_value_string _ _ _ _ Hv). reflexivity.
Qed.

Lemma parse_members_text d :
  forall kv fuel depth t,
    length d + 2 <= fuel ->
    is_str kv.1 = true -> is_str kv.2 = true ->
    Forall (fun kv => is_str kv.1 = true /\ is_str kv.2 = true) d ->
    parse_members fuel depth (members_text kv d +:+ t) = Value (reloaded (kv :: d), t).
Proof.
  induction d as [| kv' d IH]; intros kv fuel depth t Hfuel Hk Hv Hd;
    (destruct fuel as [| fuel]; [simpl in Hfuel; lia |]);
    (destruct fuel as [| fuel]; [simpl in Hfuel; lia |]);
    cbn [members_text]; rewrite !append_assoc;
    rewrite (parse_one_member _ _ _ _ _ Hk Hv).
  - rewrite !append_cons, append_nil_l.
    change (skip_ws (String LF (String "}" t))) with (String "}" t). cbn iota.
    destruct (decide ("}"%char = "}"%char)) as [_ | E]; [| contradiction E; reflexivity].
    reflexivity.
  - rewrite !append_cons, !append_nil_l.
    change (skip_ws (String "," (String LF (String " " (String " " (members_text kv' d +:+ t))))))
      with (String "," (String LF (String " " (String " " (members_text kv' d +:+ t))))).
    cbn iota.
    destruct (decide (","%char = "}"%char)) as [E | _]; [discriminate E |].
    destruct (decide (","%char = ","%char)) as [_ | E]; [| contradiction E; reflexivity].
    change (skip_ws (String LF (String " " (String " " (members_text kv' d +:+ t)))))
      with (skip_ws (members_text kv' d +:+ t)).
    assert (Hskip : skip_ws (members_text kv' d +:+ t) = members_text kv' d +:+ t).
    { destruct d; cbn [members_text]; unfold json_string at 1;
        rewrite !append_cons; reflexivity. }
    rewrite Hskip. inversion Hd as [| ? ? [Hk' Hv'] Hd']; subst.
    rewrite (IH kv' (S fuel) depth t); [reflexivity | simpl in *; lia | assumption ..].
Qed.

Lemma length_append (a b : string) :
  String.length (a +:+ b) = String.length a + String.length b.
Proof. induction a as [| c a IH]; [reflexivity |]. rewrite append_cons. simpl. rewrite IH. reflexivity. Qed.

Lemma length_members_text d : forall kv, length d + 2 <= String.length (members_text kv d).
Proof.
  induction d as [| kv' d IH]; intros kv; cbn [members_text];
    rewrite !length_append; unfold json_string; simpl String.length.
  - simpl. lia.
  - specialize (IH kv'). simpl. lia.
Qed.

(** [json.loads(json.dumps(d, indent=2))] for a dict [d] of strings. *)
Theorem json_loads_dumps d :
  Forall (fun kv => is_str kv.1 = true /\ is_str kv.2 = true) d ->
  json_loads (json_dumps d) = Value (JObject (reloaded d)).
Proof.
  intros Hd. destruct d as [| kv d]; [reflexivity |].
  inversion Hd as [| ? ? [Hk Hv] Hd']; subst.
  unfold json_loads. rewrite json_dumps_members.
  change (skip_ws (String "{" (String LF "  " +:+ members_text kv d)))
    with (String "{" (String LF "  " +:+ members_text kv d)).
  cbn [parse_value String.length].
  destruct (decide ("{"%char = QUOTE)) as [E | _]; [discriminate E |].
  destruct (decide ("{"%char = "{"%char)) as [_ | E]; [| contradiction E; reflexivity].
  rewrite !append_cons, append_nil_l.
  change (skip_ws (String LF (String " " (String " " (members_text kv d)))))
    with (skip_ws (members_text kv d)).
  assert (Hskip : skip_ws (members_text kv d) = members_text kv d).
  { destruct d; cbn [members_text]; unfold json_string at 1;
      rewrite !append_cons; reflexivity. }
  rewrite Hskip.
  assert (Hfirst : exists c s, members_text kv d = String c s /\ c <> "}"%char).
  { destruct d; exists QUOTE; eexists; (split; [| discriminate]);
      cbn [members_text]; unfold json_string at 1; rewrite !append_cons; reflexivity. }
  destruct Hfirst as (c & s & Hcs & Hc).
  unfold MAX_DEPTH. rewrite Hcs. cbn iota.
  destruct (decide (c = "}"%char)) as [E | _]; [contradiction |].
  rewrite <- Hcs.
  rewrite <- (append_empty_r (members_text kv d)) at 2.
  rewrite parse_members_text; try assumption.
  - reflexivity.
  - pose proof (length_members_text d kv). simpl. lia.
Qed.

Lemma ascii_only_app a b : ascii_only (a +:+ b) = ascii_only a && ascii_only b.
Proof.
  induction a as [| c a IH]; [reflexivity |].
  rewrite append_cons. cbn [ascii_only]. rewrite IH, andb_assoc. reflexivity.
Qed.

Lemma ascii_only_codepoints s :
  ascii_only s = true ->
  str_of (codepoints s) = s /\ Forall (fun cp => (cp < 128)%N) (codepoints s).
Proof.
  induction s as [| c s IH]; intros H; [split; [reflexivity | constructor] |].
  cbn [ascii_only] in H. apply andb_true_iff in H as [Hc Hs].
  destruct (IH Hs) as [Heq Hall]. cbn [codepoints]. cbv zeta. rewrite Hc.
  split.
  - cbn [str_of]. unfold utf8. rewrite Hc, ascii_N_embedding, append_cons, append_nil_l, Heq.
    reflexivity.
  - constructor; [apply N.ltb_lt, Hc | exact Hall].
Qed.

Lemma surrogate_pair_tail cp cps : surrogate_pair (cp :: cps) = false -> surrogate_pair cps = false.
Proof.
  destruct cps as [| lo cps]; [reflexivity |].
  cbn [surrogate_pair]. intros H. apply orb_false_iff in H as [_ H]. exact H.
Qed.

(** Without a high surrogate right before a low one nothing is joined. *)
Lemma rejoin_no_pair cps :
  forall p,
    (forall hi, p = Some hi -> is_high hi = true) ->
    surrogate_pair (opt_list p ++ cps) = false ->
    rejoin p cps = opt_list p ++ cps.
Proof.
  induction cps as [| cp cps IH]; intros p Hp Hpair;
    [cbn [rejoin]; rewrite app_nil_r; reflexivity |].
  cbn [rejoin]. destruct (is_low cp) eqn:Hlow; [| destruct (is_high cp) eqn:Hhigh].
  - destruct p as [hi |].
    + cbn [opt_list app surrogate_pair] in Hpair.
      rewrite (Hp hi eq_refl), Hlow in Hpair. discriminate Hpair.
    + cbn [opt_list app] in *. rewrite (IH None); [reflexivity | discriminate |].
      apply surrogate_pair_tail in Hpair. exact Hpair.
  - rewrite (IH (Some cp)); [reflexivity | intros hi [= <-]; exact Hhigh |].
    destruct p as [hi |]; cbn [opt_list app] in *;
      [apply surrogate_pair_tail in Hpair |]; exact Hpair.
  - rewrite (IH None); [reflexivity | discriminate |].
    destruct p as [hi |]; cbn [opt_list app] in *;
      [apply surrogate_pair_tail in Hpair |]; apply surrogate_pair_tail in Hpair; exact Hpair.
Qed.

Lemma joined_no_pair s :
  is_str s = true -> surrogate_pair (codepoints s) = false -> joined s = s.
Proof.
  intros Hs Hpair. unfold joined.
  rewrite (rejoin_no_pair _ None); [apply is_str_codepoints, Hs | discriminate | exact Hpair].
Qed.

Lemma length_utf8_surrogate u :
  is_high u = true \/ is_low u = true -> String.length (utf8 u) = 3.
Proof.
  intros H. assert (Hu : (55296 <= u < 57344)%N).
  { destruct H as [H | H]; [apply is_high_spec in H | apply is_low_spec in H]; lia. }
  unfold utf8.
  destruct (N.ltb_spec u 128); [lia |]. destruct (N.ltb_spec u 2048); [lia |].
  destruct (N.ltb_spec u 65536); [reflexivity | lia].
Qed.

Lemma length_utf8_joined hi lo : String.length (utf8 (join_surrogates hi lo)) = 4.
Proof.
  unfold utf8, join_surrogates.
  destruct (N.ltb_spec (65536 + (hi - 55296) * 1024 + (lo - 56320)) 128); [lia |].
  destruct (N.ltb_spec (65536 + (hi - 55296) * 1024 + (lo - 56320)) 2048); [lia |].
  destruct (N.ltb_spec (65536 + (hi - 55296) * 1024 + (lo - 56320)) 65536); [lia | reflexivity].
Qed.

Lemma surrogate_pair_cons hi lo l :
  surrogate_pair (hi :: lo :: l) = is_high hi && is_low lo || surrogate_pair (lo :: l).
Proof. reflexivity. Qed.

(** Joining never makes the text longer, and a pair makes it shorter. *)
Lemma rejoin_length cps :
  forall p,
    (forall hi, p = Some hi -> is_high hi = true) ->
    String.length (str_of (rejoin p cps))
    + (if surrogate_pair (opt_list p ++ cps) then 2 else 0)
    <= String.length (str_of (opt_list p ++ cps)).
Proof.
  induction cps as [| cp cps IH]; intros p Hp.
  - cbn [rejoin]. rewrite app_nil_r. destruct p; simpl; lia.
  - cbn [rejoin]. destruct (is_low cp) eqn:Hlow; [| destruct (is_high cp) eqn:Hhigh].
    + destruct p as [hi |].
      * specialize (IH None ltac:(discriminate)). cbn [opt_list app] in *.
        rewrite surrogate_pair_cons, (Hp hi eq_refl), Hlow. cbn [andb orb str_of].
        rewrite !length_append, length_utf8_joined.
        rewrite (length_utf8_surrogate hi) by (left; apply Hp; reflexivity).
        rewrite (length_utf8_surrogate cp) by (right; exact Hlow).
        destruct (surrogate_pair cps); lia.
      * specialize (IH None ltac:(discriminate)). cbn [opt_list app] in *.
        assert (Hsame : surrogate_pair (cp :: cps) = surrogate_pair cps).
        { destruct cps as [| lo cps]; [reflexivity |]. cbn [surrogate_pair].
          assert (Hnh : is_high cp = false).
          { apply is_high_false. apply is_low_spec in Hlow. lia. }
          rewrite Hnh. reflexivity. }
        rewrite Hsame. cbn [str_of]. rewrite !length_append.
        destruct (surrogate_pair cps); lia.
    + specialize (IH (Some cp) ltac:(intros hi [= <-]; exact Hhigh)).
      cbn [opt_list app] in IH. rewrite str_of_app, flush_opt_list, length_append.
      destruct p as [hi |]; cbn [opt_list app flush].
      * rewrite surrogate_pair_cons, Hlow, andb_false_r. cbn [orb].
        cbn [str_of]. rewrite (length_append (utf8 hi)).
        cbn [str_of] in IH. lia.
      * simpl String.length. exact IH.
    + specialize (IH None ltac:(discriminate)). cbn [opt_list app] in IH.
      rewrite str_of_app, flush_opt_list, length_append. cbn [str_of].
      rewrite length_append.
      assert (Hsame : surrogate_pair (cp :: cps) = surrogate_pair cps).
      { destruct cps as [| lo cps]; [reflexivity |]. cbn [surrogate_pair].
        rewrite Hhigh. reflexivity. }
      destruct p as [hi |]; cbn [opt_list app flush].
      * rewrite surrogate_pair_cons, Hlow, andb_false_r. cbn [orb].
        rewrite Hsame. cbn [str_of]. rewrite !length_append.
        destruct (surrogate_pair cps); lia.
      * rewrite Hsame. cbn [str_of]. rewrite !length_append. simpl String.length.
        destruct (surrogate_pair cps); lia.
Qed.

Lemma joined_pair s :
  is_str s = true -> surrogate_pair (codepoints s) = true -> joined s <> s.
Proof.
  intros Hs Hpair Heq.
  pose proof (rejoin_length (codepoints s) None ltac:(discriminate)) as Hlen.
  cbn [opt_list app] in Hlen. rewrite Hpair in Hlen.
  fold (joined s) in Hlen. rewrite Heq in Hlen.
  destruct (is_str_codepoints s Hs) as [Hround _]. rewrite Hround in Hlen. lia.
Qed.

Lemma Forall_forallb {A} (f : A -> bool) (l : list A) :
  Forall (fun x => f x = true) l -> forallb f l = true.
Proof.
  induction 1 as [| x l Hx _ IH]; [reflexivity |]. cbn [forallb]. rewrite Hx, IH. reflexivity.
Qed.

Lemma small_no_pair cps : Forall (fun cp => (cp < 128)%N) cps -> surrogate_pair cps = false.
Proof.
  induction 1 as [| cp cps Hcp Hall IH]; [reflexivity |].
  destruct cps as [| lo cps]; [reflexivity |]. rewrite surrogate_pair_cons, IH, orb_false_r.
  replace (is_high cp) with false by (symmetry; apply is_high_false; lia). reflexivity.
Qed.

Lemma ascii_is_str s : ascii_only s = true -> is_str s = true /\ is_utf8 s = true /\ joined s = s.
Proof.
  intros H. destruct (ascii_only_codepoints s H) as [Heq Hall].
  assert (Hstr : is_str s = true).
  { unfold is_str. rewrite Heq, String.eqb_refl. cbn [andb].
    apply Forall_forallb. eapply Forall_impl; [exact Hall |].
    intros cp Hcp. apply N.ltb_lt. cbv beta in Hcp. lia. }
  split; [exact Hstr |]. split.
  - unfold is_utf8. rewrite Hstr. cbn [andb].
    apply Forall_forallb. eapply Forall_impl; [exact Hall |].
    intros cp Hcp. cbv beta in Hcp.
    replace (is_high cp) with false by (symmetry; apply is_high_false; lia).
    replace (is_low cp) with false by (symmetry; apply is_low_false; lia).
    reflexivity.
  - apply joined_no_pair; [exact Hstr | apply small_no_pair, Hall].
Qed.

Lemma ascii_only_hexdigit n : (n < 16)%N -> (N_of_ascii (hexdigit n) <? 128)%N = true.
Proof.
  intros Hn. unfold hexdigit. apply N.ltb_lt.
  destruct (N.ltb_spec n 10); rewrite N_ascii_embedding; lia.
Qed.

Lemma ascii_only_escape_unit u : (u < 65536)%N -> ascii_only (escape_unit u) = true.
Proof.
  intros Hu. unfold escape_unit, hex4. cbn [ascii_only].
  rewrite !ascii_only_hexdigit; [reflexivity | lia ..].
Qed.

Lemma ascii_only_escape_cp cp : (cp < 1114112)%N -> ascii_only (escape_cp cp) = true.
Proof.
  intros Hcp. unfold escape_cp.
  repeat match goal with
         | |- context [(cp =? ?k)%N] => destruct (N.eqb_spec cp k); [reflexivity |]
         end.
  destruct (N.leb_spec 32 cp); cbn [andb]; [destruct (N.leb_spec cp 126) |].
  - cbn [ascii_only]. rewrite N_ascii_embedding by lia.
    replace (cp <? 128)%N with true by (symmetry; apply N.ltb_lt; lia). reflexivity.
  - destruct (N.ltb_spec cp 65536); [apply ascii_only_escape_unit; assumption |].
    rewrite ascii_only_app, !ascii_only_escape_unit; [reflexivity | lia ..].
  - destruct (N.ltb_spec cp 65536); [apply ascii_only_escape_unit; assumption | lia].
Qed.

Lemma ascii_only_json_escape s : is_str s = true -> ascii_only (json_escape s) = true.
Proof.
  intros Hs. destruct (is_str_codepoints s Hs) as [_ Hall]. unfold json_escape.
  induction Hall as [| cp cps Hcp _ IH]; [reflexivity |].
  cbn [escape_cps]. rewrite ascii_only_app, IH, ascii_only_escape_cp by assumption. reflexivity.
Qed.

Lemma ascii_only_json_string s : is_str s = true -> ascii_only (json_string s) = true.
Proof.
  intros Hs. unfold json_string. cbn [ascii_only].
  rewrite ascii_only_app, ascii_only_json_escape by assumption. reflexivity.
Qed.

Lemma ascii_only_json_dumps d :
  Forall (fun kv => is_str kv.1 = true /\ is_str kv.2 = true) d ->
  ascii_only (json_dumps d) = true.
Proof.
  intros Hd. destruct d as [| kv d]; [reflexivity |].
  rewrite json_dumps_members. cbn [ascii_only]. rewrite append_cons. cbn [ascii_only].
  rewrite ascii_only_app. cbn [ascii_only andb].
  inversion Hd as [| ? ? [Hk Hv] Hd']; subst. clear Hd.
  revert kv Hk Hv. induction Hd' as [| kv' d [Hk' Hv'] _ IH]; intros kv Hk Hv;
    cbn [members_text]; rewrite !ascii_only_app, !ascii_only_json_string by assumption.
  - reflexivity.
  - rewrite IH by assumption. reflexivity.
Qed.

(** ** The report store *)

Lemma append_eq_length (a1 a2 b1 b2 : string) :
  String.length a1 = String.length a2 ->
  a1 +:+ b1 = a2 +:+ b2 -> a1 = a2 /\ b1 = b2.
Proof.
  revert a2. induction a1 as [| c a1 IH]; intros [| c2 a2] Hlen Heq;
    simpl in *; try discriminate.
  - split; [reflexivity | assumption].
  - injection Heq as -> Heq. destruct (IH a2) as [-> ->]; [lia | assumption |].
    split; reflexivity.
Qed.

Lemma append_inv_prefix (p a b : string) : p +:+ a = p +:+ b -> a = b.
Proof.
  induction p as [| c p IH]; simpl; intros H; [assumption |].
  apply IH. injection H as H. assumption.
Qed.

Lemma length_zero_padded width n : String.length (zero_padded width n) = width.
Proof.
  revert n. induction width as [| w IH]; intros n; simpl; [reflexivity |].
  rewrite length_append, IH. simpl. lia.
Qed.

Lemma digit_inj (a b : N) : digit a = digit b -> (a mod 10 = b mod 10)%N.
Proof.
  unfold digit. intros H.
  assert (Ha : (a mod 10 < 10)%N) by (apply N.mod_lt; lia).
  assert (Hb : (b mod 10 < 10)%N) by (apply N.mod_lt; lia).
  apply (f_equal N_of_ascii) in H.
  rewrite !N_ascii_embedding in H by lia. lia.
Qed.

Lemma zero_padded_inj width :
  forall a b, (a < 10 ^ N.of_nat width)%N -> (b < 10 ^ N.of_nat width)%N ->
    zero_padded width a = zero_padded width b -> a = b.
Proof.
  induction width as [| w IH]; intros a b Ha Hb Heq.
  - simpl in Ha, Hb. lia.
  - simpl in Heq.
    apply append_eq_length in Heq; [| rewrite !length_zero_padded; reflexivity].
    destruct Heq as [Hhi Hlo]. injection Hlo as Hlo. apply digit_inj in Hlo.
    rewrite Nat2N.inj_succ, N.pow_succ_r' in Ha, Hb.
    assert (Hq : (a / 10 = b / 10)%N).
    { apply IH; [apply N.Div0.div_lt_upper_bound; lia
                | apply N.Div0.div_lt_upper_bound; lia | assumption]. }
    rewrite (N.div_mod' a 10), (N.div_mod' b 10). congruence.
Qed.

(** The digits of a zero-padded number read as that number. *)
Lemma number_from_app a b : forall acc,
  number_from acc (a +:+ b) =
  match number_from acc a with
  | Some v => number_from v b
  | None => None
  end.
Proof.
  induction a as [| c a IH]; intros acc; [reflexivity |].
  rewrite append_cons. cbn [number_from]. destruct (is_digit c); [apply IH | reflexivity].
Qed.

Lemma is_digit_digit n : is_digit (digit n) = true /\ (N_of_ascii (digit n) - 48 = n mod 10)%N.
Proof.
  unfold is_digit, digit.
  assert (Hn : (n mod 10 < 10)%N) by (apply N.mod_lt; lia).
  rewrite N_ascii_embedding by lia. split; [| lia].
  apply andb_true_iff. split; apply N.leb_le; lia.
Qed.

Lemma number_from_zero_padded width :
  forall acc n, (n < 10 ^ N.of_nat width)%N ->
    number_from acc (zero_padded width n) = Some (acc * 10 ^ N.of_nat width + n)%N.
Proof.
  induction width as [| w IH]; intros acc n Hn.
  - simpl in *. f_equal. lia.
  - cbn [zero_padded]. rewrite number_from_app.
    rewrite Nat2N.inj_succ, N.pow_succ_r' in *.
    rewrite IH by (apply N.Div0.div_lt_upper_bound; lia).
    cbn [number_from]. destruct (is_digit_digit n) as [-> ->]. f_equal.
    pose proof (N.div_mod' n 10). lia.
Qed.

Lemma number_zero_padded width n :
  (n < 10 ^ N.of_nat width)%N -> number (zero_padded width n) = Some n.
Proof.
  intros Hn. unfold number. rewrite number_from_zero_padded by assumption.
  rewrite N.mul_0_l, N.add_0_l. reflexivity.
Qed.

(** [%Y] from the year 1000 on: four digits. *)
Lemma strftime_Y_four y : (1000 <= y <= 9999)%N -> strftime_Y y = zero_padded 4 y.
Proof.
  intros Hy.
  assert (Hall : List.forallb
            (fun k => String.eqb (strftime_Y (1000 + N.of_nat k))
                                 (zero_padded 4 (1000 + N.of_nat k)))
            (List.seq 0 (N.to_nat 9000)) = true) by (vm_compute; reflexivity).
  rewrite List.forallb_forall in Hall.
  specialize (Hall (N.to_nat (y - 1000))).
  rewrite String.eqb_eq in Hall.
  replace (1000 + N.of_nat (N.to_nat (y - 1000)))%N with y in Hall by lia.
  apply Hall. apply List.in_seq. lia.
Qed.

Lemma str_of_N_inj a b : str_of_N a = str_of_N b -> a = b.
Proof.
  unfold str_of_N. intros H.
  apply (f_equal NilEmpty.uint_of_string) in H. rewrite !NilEmpty.usu in H.
  injection H as H. apply (f_equal N.of_uint) in H.
  rewrite !DecimalN.Unsigned.of_to in H. exact H.
Qed.

Lemma length_strftime_Y_m_d d :
  String.length (strftime_Y_m_d d) = String.length (strftime_Y (year d)) + 6.
Proof.
  unfold strftime_Y_m_d. rewrite !length_append, !length_zero_padded. simpl. lia.
Qed.

(** [%Y-%m-%d] tells calendar days apart. *)
Lemma strftime_Y_m_d_inj (a b : datetime) :
  valid_datetime a -> valid_datetime b ->
  strftime_Y_m_d a = strftime_Y_m_d b -> same_calendar_day a b.
Proof.
  intros (Hya & Hma & Hda & _) (Hyb & Hmb & Hdb & _) H.
  pose proof (f_equal String.length H) as Hlen.
  rewrite !length_strftime_Y_m_d in Hlen.
  unfold strftime_Y_m_d in H.
  apply append_eq_length in H; [| lia].
  destruct H as [Hy H]. apply append_inv_prefix in H.
  apply append_eq_length in H; [| rewrite !length_zero_padded; reflexivity].
  destruct H as [Hm Hd]. apply append_inv_prefix in Hd.
  apply str_of_N_inj in Hy.
  apply zero_padded_inj in Hm; [| simpl; lia | simpl; lia].
  apply zero_padded_inj in Hd; [| simpl; lia | simpl; lia].
  repeat split; assumption.
Qed.

Lemma archive_path_inj (a b : datetime) :
  valid_datetime a -> valid_datetime b ->
  archive_path a = archive_path b -> same_calendar_day a b.
Proof.
  intros Ha Hb H. unfold archive_path, path_join in H.
  do 3 apply append_inv_prefix in H.
  pose proof (f_equal String.length H) as Hlen. rewrite !length_append in Hlen.
  apply append_eq_length in H as [H _]; [| simpl in Hlen; lia].
  apply strftime_Y_m_d_inj; assumption.
Qed.

Lemma archive_path_same_day (a b : datetime) :
  same_calendar_day a b -> archive_path a = archive_path b.
Proof.
  intros (Hy & Hm & Hd). unfold archive_path, strftime_Y_m_d. rewrite Hy, Hm, Hd. reflexivity.
Qed.

Lemma archive_path_not_latest (d : datetime) : archive_path d <> LATEST_REPORT_PATH.
Proof. unfold archive_path, LATEST_REPORT_PATH, path_join, REPORTS_DIR. simpl. discriminate. Qed.

(** The name of an archive file: [reports/report_YYYY-MM-DD.json]. *)
Lemma archive_path_digits d :
  (1000 <= year d <= 9999)%N -> (month d <= 12)%N -> (day d <= 31)%N ->
  exists Y M D,
    archive_path d = "reports/report_" +:+ Y +:+ "-" +:+ M +:+ "-" +:+ D +:+ ".json" /\
    String.length Y = 4 /\ String.length M = 2 /\ String.length D = 2 /\
    number Y = Some (year d) /\ number M = Some (month d) /\ number D = Some (day d).
Proof.
  intros Hy Hm Hd.
  exists (zero_padded 4 (year d)), (zero_padded 2 (month d)), (zero_padded 2 (day d)).
  split.
  - unfold archive_path, path_join, REPORTS_DIR, strftime_Y_m_d.
    rewrite (strftime_Y_four _ Hy), !append_assoc. reflexivity.
  - rewrite !length_zero_padded, !number_zero_padded by (simpl; lia). repeat split.
Qed.

(** The texts of dates and timestamps are ASCII. *)
Lemma ascii_only_zero_padded width n : ascii_only (zero_padded width n) = true.
Proof.
  revert n. induction width as [| w IH]; intros n; [reflexivity |].
  cbn [zero_padded]. rewrite ascii_only_app, IH. cbn [ascii_only andb].
  unfold digit. assert (Hn : (n mod 10 < 10)%N) by (apply N.mod_lt; lia).
  rewrite N_ascii_embedding by lia.
  replace (48 + n mod 10 <? 128)%N with true by (symmetry; apply N.ltb_lt; lia). reflexivity.
Qed.

Lemma ascii_only_string_of_uint d : ascii_only (NilEmpty.string_of_uint d) = true.
Proof. induction d; simpl; assumption || reflexivity. Qed.

Lemma ascii_only_month_name m : ascii_only (month_name m) = true.
Proof.
  unfold month_name. generalize (N.to_nat m - 1). intros k.
  do 13 (destruct k as [| k]; [reflexivity |]). destruct k; reflexivity.
Qed.

Lemma ascii_only_strftime_d_B_Y d : ascii_only (strftime_d_B_Y d) = true.
Proof.
  unfold strftime_d_B_Y, strftime_Y, str_of_N.
  rewrite !ascii_only_app, ascii_only_zero_padded, ascii_only_month_name,
    ascii_only_string_of_uint. reflexivity.
Qed.

Lemma ascii_only_isoformat d : ascii_only (isoformat d) = true.
Proof.
  unfold isoformat. rewrite !ascii_only_app, !ascii_only_zero_padded.
  destruct (decide (microsecond d = 0%N)); [reflexivity |].
  rewrite ascii_only_app, ascii_only_zero_padded. reflexivity.
Qed.

(** What [json.load] makes of a record written by [json.dump]. *)
Lemma record_reloaded date timestamp report :
  ascii_only date = true -> ascii_only timestamp = true -> is_str report = true ->
  is_utf8 (json_dumps (record date timestamp report)) = true /\
  json_loads (json_dumps (record date timestamp report)) =
  Value (JObject [("date", JString date); ("timestamp", JString timestamp);
                  ("report", JString (joined report))]).
Proof.
  intros Hd Ht Hr.
  destruct (ascii_is_str _ Hd) as (Hds & _ & Hdj).
  destruct (ascii_is_str _ Ht) as (Hts & _ & Htj).
  assert (Hall : Forall (fun kv : string * string => is_str kv.1 = true /\ is_str kv.2 = true)
                   (record date timestamp report)).
  { unfold record. repeat constructor; assumption. }
  split.
  - apply ascii_is_str, ascii_only_json_dumps, Hall.
  - rewrite (json_loads_dumps _ Hall). unfold record, reloaded. cbn [map fst snd].
    rewrite Hdj, Htj. reflexivity.
Qed.

(** A save that succeeds has written the same text twice, read the clock
    three times, and printed one line. *)
Lemma save_report_success report w w' :
  save_report report w = (Return tt, w') ->
  fs w' = <[archive_path (archive_reading w) := json_dumps (saved_record report w)]>
            (<[LATEST_REPORT_PATH := json_dumps (saved_record report w)]> (fs w)) /\
  ticks w' = S (S (S (ticks w))) /\ clock w' = clock w /\
  read_fault w' = read_fault w /\ write_fault w' = write_fault w /\
  stdout w' = stdout w ++ ["Report saved to "
                           +:+ path_str (SCRIPT_DIR_PARENT (environ w)) LATEST_REPORT_PATH].
Proof.
  unfold save_report, saved_record, date_reading, timestamp_reading, archive_reading.
  rewrite run_bind. unfold mkdir at 1.
  destruct (write_fault w REPORTS_DIR) eqn:Hdir; [discriminate |].
  rewrite run_bind. simpl. rewrite run_bind. simpl.
  rewrite run_bind. unfold json_dump at 1. simpl.
  destruct (write_fault w LATEST_REPORT_PATH) as [[| n1] |] eqn:Hlatest;
    [discriminate | discriminate |].
  rewrite run_bind. simpl. rewrite run_bind. unfold json_dump at 1. simpl.
  destruct (write_fault w (archive_path _)) as [[| n2] |] eqn:Harchive;
    [discriminate | discriminate |].
  rewrite run_bind. simpl.
  unfold print. intros H. injection H as <-. simpl. repeat split; reflexivity.
Qed.

Lemma save_report_latest report w w' :
  save_report report w = (Return tt, w') ->
  fs w' !! LATEST_REPORT_PATH = Some (json_dumps (saved_record report w)).
Proof.
  intros H. apply save_report_success in H as (-> & _).
  rewrite lookup_insert_ne by apply archive_path_not_latest.
  apply lookup_insert_eq.
Qed.

Lemma save_report_archive report w w' :
  save_report report w = (Return tt, w') ->
  fs w' !! archive_path (archive_reading w) = Some (json_dumps (saved_record report w)).
Proof. intros H. apply save_report_success in H as (-> & _). apply lookup_insert_eq. Qed.

Lemma saved_record_reloaded report w :
  is_str report = true ->
  is_utf8 (json_dumps (saved_record report w)) = true /\
  json_loads (json_dumps (saved_record report w)) =
  Value (JObject [("date", JString (strftime_d_B_Y (date_reading w)));
                  ("timestamp", JString (isoformat (timestamp_reading w)));
                  ("report", JString (joined report))]).
Proof.
  intros Hr. apply record_reloaded;
    [apply ascii_only_strftime_d_B_Y | apply ascii_only_isoformat | exact Hr].
Qed.

(** Loading a record file that holds a JSON object. *)
Lemma json_load_holds w p v : holds_json w p v -> json_load p w = (Return v, w).
Proof.
  intros (content & Hfile & Hread & Hutf & Hjson). unfold json_load.
  rewrite Hfile, Hread, Hutf, Hjson. reflexivity.
Qed.

Lemma load_previous_report_object w members :
  holds_json w LATEST_REPORT_PATH (JObject members) ->
  load_previous_report w =
  (Return (Some (default (JString "") (dict_lookup "report" members),
                 default (JString "Unknown") (dict_lookup "date" members))), w).
Proof.
  intros H. unfold load_previous_report.
  rewrite run_bind. unfold path_exists.
  destruct H as (content & Hfile & Hrest) eqn:Hholds. rewrite Hfile. simpl.
  rewrite run_bind.
  rewrite (json_load_holds w LATEST_REPORT_PATH (JObject members));
    [reflexivity | exists content; split; assumption].
Qed.

Lemma load_previous_report_absent w :
  fst (load_previous_report w) = Return None <-> fs w !! LATEST_REPORT_PATH = None.
Proof.
  unfold load_previous_report. rewrite run_bind. unfold path_exists.
  destruct (fs w !! LATEST_REPORT_PATH) as [content |] eqn:H; simpl.
  - split; [| discriminate]. rewrite run_bind. unfold json_load. rewrite H.
    destruct (read_fault w LATEST_REPORT_PATH); [discriminate |].
    destruct (is_utf8 content); [| discriminate]. cbn [negb].
    destruct (json_loads content) as [v | |]; [| discriminate |].
    + cbn iota. rewrite run_bind.
      destruct v; cbn; discriminate.
    + destruct (json_beyond w content) as [v | e]; [| discriminate].
      cbn. rewrite run_bind. destruct v; cbn; discriminate.
  - split; reflexivity.
Qed.

(** How loading fails on a record file that cannot be read as an object. *)
Lemma load_previous_report_fails w content e :
  fs w !! LATEST_REPORT_PATH = Some content ->
  fst (json_load LATEST_REPORT_PATH w) = Raise e ->
  load_previous_report w = (Raise e, w).
Proof.
  intros Hfile Hload. unfold load_previous_report.
  rewrite run_bind. unfold path_exists. rewrite Hfile. simpl. rewrite run_bind.
  pose proof (keeps_json_load (fun w => w) LATEST_REPORT_PATH w) as Hsame.
  destruct (json_load LATEST_REPORT_PATH w) as [o w1]. simpl in *. subst. reflexivity.
Qed.

Lemma load_previous_report_not_object w content v :
  fs w !! LATEST_REPORT_PATH = Some content ->
  json_load LATEST_REPORT_PATH w = (Return v, w) ->
  (forall members, v <> JObject members) ->
  load_previous_report w = (Raise AttributeError, w).
Proof.
  intros Hfile Hload Hv. unfold load_previous_report.
  rewrite run_bind. unfold path_exists. rewrite Hfile. simpl. rewrite run_bind, Hload.
  destruct v; try reflexivity. contradiction (Hv members). reflexivity.
Qed.

Lemma load_previous_report_malformed w content :
  fs w !! LATEST_REPORT_PATH = Some content ->
  read_fault w LATEST_REPORT_PATH = false ->
  (is_utf8 content = false -> load_previous_report w = (Raise UnicodeDecodeError, w)) /\
  (is_utf8 content = true -> json_loads content = Invalid ->
   load_previous_report w = (Raise JSONDecodeError, w)) /\
  (is_utf8 content = true ->
   forall v, json_loads content = Value v -> (forall members, v <> JObject members) ->
   load_previous_report w = (Raise AttributeError, w)).
Proof.
  intros Hfile Hread. split; [| split].
  - intros Hutf. apply (load_previous_report_fails w content); [exact Hfile |].
    unfold json_load. rewrite Hfile, Hread, Hutf. reflexivity.
  - intros Hutf Hjson. apply (load_previous_report_fails w content); [exact Hfile |].
    unfold json_load. rewrite Hfile, Hread, Hutf, Hjson. reflexivity.
  - intros Hutf v Hjson Hv. apply (load_previous_report_not_object w content v);
      [exact Hfile | | exact Hv].
    unfold json_load. rewrite Hfile, Hread, Hutf, Hjson. reflexivity.
Qed.

(** C4, as the code has it.  After [save_report r] has succeeded,
    [load_previous_report] returns a present result whose date is the date
    member the save wrote and whose report is [r] as the JSON text gives it
    back: [r] itself when no high surrogate is followed by a low one in it,
    and otherwise a different string, in which each such pair of code points
    has become the one code point it stands for. *)
Theorem save_then_load report w w' :
  is_str report = true ->
  save_report report w = (Return tt, w') ->
  read_fault w LATEST_REPORT_PATH = false ->
  load_previous_report w' =
    (Return (Some (JString (joined report), JString (strftime_d_B_Y (date_reading w)))), w') /\
  (surrogate_pair (codepoints report) = false -> joined report = report) /\
  (surrogate_pair (codepoints report) = true -> joined report <> report).
Proof.
  intros Hs Hsave Hread.
  pose proof (save_report_latest _ _ _ Hsave) as Hfile.
  destruct (save_report_success _ _ _ Hsave) as (_ & _ & _ & Hrf & _).
  destruct (saved_record_reloaded report w Hs) as [Hutf Hjson].
  split; [| split; [apply joined_no_pair, Hs | apply joined_pair, Hs]].
  rewrite (load_previous_report_object w'
             [("date", JString (strftime_d_B_Y (date_reading w)));
              ("timestamp", JString (isoformat (timestamp_reading w)));
              ("report", JString (joined report))]); [reflexivity |].
  exists (json_dumps (saved_record report w)).
  rewrite Hrf. repeat split; assumption.
Qed.

Lemma save_then_load_witness :
  load_previous_report (snd (save_report "AUA rose 5%." quiet_world)) =
  (Return (Some (JString "AUA rose 5%.", JString "31 January 2025")),
   snd (save_report "AUA rose 5%." quiet_world)).
Proof.
  destruct (save_then_load "AUA rose 5%." quiet_world
              (snd (save_report "AUA rose 5%." quiet_world)))
    as (Hload & Hsame & _); [reflexivity | reflexivity | reflexivity |].
  rewrite Hload, Hsame by reflexivity. reflexivity.
Defined.

(** The claim that the report comes back byte for byte fails on a report
    that ends with a high and a low surrogate: the save succeeds, and the load
    returns the report with the one code point U+1F326 in their place. *)
Lemma save_then_load_surrogate_pair :
  is_str split_pair_report = true /\
  fst (save_report split_pair_report quiet_world) = Return tt /\
  fst (load_previous_report (snd (save_report split_pair_report quiet_world))) =
    Return (Some (JString joined_pair_report, JString "31 January 2025")) /\
  joined_pair_report <> split_pair_report.
Proof.
  split; [vm_compute; reflexivity |]. split; [vm_compute; reflexivity |].
  split; [vm_compute; reflexivity | discriminate].
Qed.

(** C9.  After a successful [save_report r] the latest-record file and the
    archive file of that save hold the same bytes: the JSON text of one
    record, with the date string, the timestamp and the report text of this
    save, which reads back as an object with these three members. *)
Theorem save_report_copies_agree report w w' :
  save_report report w = (Return tt, w') ->
  exists content,
    fs w' !! LATEST_REPORT_PATH = Some content /\
    fs w' !! archive_path (archive_reading w) = Some content /\
    content = json_dumps [("date", strftime_d_B_Y (date_reading w));
                          ("timestamp", isoformat (timestamp_reading w));
                          ("report", report)] /\
    (is_str report = true ->
     json_loads content =
     Value (JObject [("date", JString (strftime_d_B_Y (date_reading w)));
                     ("timestamp", JString (isoformat (timestamp_reading w)));
                     ("report", JString (joined report))])).
Proof.
  intros H. exists (json_dumps (saved_record report w)).
  split; [eapply save_report_latest, H |].
  split; [eapply save_report_archive, H |].
  split; [reflexivity |].
  intros Hs. apply saved_record_reloaded, Hs.
Qed.

Lemma save_report_copies_agree_witness :
  exists content,
    fs (snd (save_report "AUA rose 5%." quiet_world)) !! LATEST_REPORT_PATH
      = Some content /\
    fs (snd (save_report "AUA rose 5%." quiet_world)) !! "reports/report_2025-01-31.json"
      = Some content /\
    content = json_dumps [("date", "31 January 2025");
                          ("timestamp", "2025-01-31T23:59:58");
                          ("report", "AUA rose 5%.")] /\
    json_loads content =
    Value (JObject [("date", JString "31 January 2025");
                    ("timestamp", JString "2025-01-31T23:59:58");
                    ("report", JString "AUA rose 5%.")]).
Proof.
  destruct (save_report_copies_agree "AUA rose 5%." quiet_world
              (snd (save_report "AUA rose 5%." quiet_world)))
    as (content & Hlatest & Harchive & Htext & Hjson); [reflexivity |].
  exists content. split; [exact Hlatest |]. split; [exact Harchive |].
  split; [exact Htext |]. rewrite (Hjson eq_refl). reflexivity.
Defined.




Lemma save_report_never_refused report w :
  (forall p, write_fault w p = None) -> fst (save_report report w) = Return tt.
Proof.
  intros Hok. unfold save_report.
  rewrite run_bind. unfold mkdir at 1. rewrite Hok.
  rewrite run_bind. simpl. rewrite run_bind. simpl.
  rewrite run_bind. unfold json_dump at 1. simpl. rewrite Hok.
  rewrite run_bind. simpl. rewrite run_bind. unfold json_dump at 1. simpl. rewrite Hok.
  reflexivity.
Qed.

(** C6.  Two saves in a row.  The day of a save is the day of the clock
    reading that names its archive file; from the year 1000 on the name is
    [reports/report_] followed by the four digits of the year, the two of the
    month and the two of the day, with dashes between, and [.json].  On two
    different days the two archive files are distinct and each holds the
    text of its own save; on the same day there is one archive file for that
    day and it holds the text of the second save: the date and timestamp of
    the second save and the second report, which is what reading the file as
    JSON gives back.  A save is never refused because of what is on disk
    already: without a write fault it succeeds. *)
Theorem save_report_twice :
  (forall d, (1000 <= year d <= 9999)%N -> (month d <= 12)%N -> (day d <= 31)%N ->
      exists Y M D,
        archive_path d = "reports/report_" +:+ Y +:+ "-" +:+ M +:+ "-" +:+ D +:+ ".json" /\
        String.length Y = 4 /\ String.length M = 2 /\ String.length D = 2 /\
        number Y = Some (year d) /\ number M = Some (month d) /\ number D = Some (day d)) /\
  (forall report w,
      (forall p, write_fault w p = None) -> fst (save_report report w) = Return tt) /\
  (forall r1 r2 w w1 w2,
      save_report r1 w = (Return tt, w1) ->
      save_report r2 w1 = (Return tt, w2) ->
      valid_datetime (archive_reading w) ->
      valid_datetime (archive_reading w1) ->
      let day1 := archive_reading w in
      let day2 := archive_reading w1 in
      let text1 := json_dumps [("date", strftime_d_B_Y (date_reading w));
                               ("timestamp", isoformat (timestamp_reading w));
                               ("report", r1)] in
      let text2 := json_dumps [("date", strftime_d_B_Y (date_reading w1));
                               ("timestamp", isoformat (timestamp_reading w1));
                               ("report", r2)] in
      (~ same_calendar_day day1 day2 ->
       archive_path day1 <> archive_path day2 /\
       fs w2 !! archive_path day1 = Some text1 /\
       fs w2 !! archive_path day2 = Some text2) /\
      (same_calendar_day day1 day2 ->
       archive_path day1 = archive_path day2 /\
       fs w2 !! archive_path day2 = Some text2 /\
       dom (fs w2) = {[LATEST_REPORT_PATH; archive_path day2]} ∪ dom (fs w)) /\
      (is_str r2 = true ->
       json_loads text2 =
       Value (JObject [("date", JString (strftime_d_B_Y (date_reading w1)));
                       ("timestamp", JString (isoformat (timestamp_reading w1)));
                       ("report", JString (joined r2))]))).
Proof.
  split; [apply archive_path_digits |]. split; [apply save_report_never_refused |].
  intros r1 r2 w w1 w2 H1 H2 Hv1 Hv2 day1 day2 text1 text2.
  pose proof (save_report_archive _ _ _ H1) as Ha1.
  pose proof (save_report_archive _ _ _ H2) as Ha2.
  apply save_report_success in H1 as (Hfs1 & _).
  apply save_report_success in H2 as (Hfs2 & _).
  change (json_dumps (saved_record r1 w)) with text1 in *.
  change (json_dumps (saved_record r2 w1)) with text2 in *.
  fold day1 in Ha1, Hfs1. fold day2 in Ha2, Hfs2.
  split; [| split].
  - intros Hdiff.
    assert (Hne : archive_path day1 <> archive_path day2).
    { intros Heq. apply Hdiff. apply archive_path_inj; assumption. }
    split; [assumption |]. split; [| assumption].
    rewrite Hfs2. rewrite lookup_insert_ne by congruence.
    rewrite lookup_insert_ne by (apply not_eq_sym, archive_path_not_latest).
    assumption.
  - intros Hsame. apply archive_path_same_day in Hsame.
    split; [assumption |]. split; [assumption |].
    rewrite Hfs2, Hfs1, Hsame, !dom_insert_L.
    apply set_eq. intros p. rewrite !elem_of_union, !elem_of_singleton. tauto.
  - intros Hs. apply (saved_record_reloaded r2 w1 Hs).
Qed.

Lemma save_report_twice_witness :
  let w1 := snd (save_report "AUA flat." midnight_world) in
  let w2 := snd (save_report "AUA rose 5%." w1) in
  let q1 := snd (save_report "AUA flat." quiet_world) in
  let q2 := snd (save_report "AUA rose 5%." q1) in
  (fs w2 !! "reports/report_2025-01-31.json"
     = Some (json_dumps [("date", "31 January 2025");
                         ("timestamp", "2025-01-31T23:59:58");
                         ("report", "AUA flat.")]) /\
   fs w2 !! "reports/report_2025-02-01.json"
     = Some (json_dumps [("date", "01 February 2025");
                         ("timestamp", "2025-02-01T00:00:01");
                         ("report", "AUA rose 5%.")])) /\
  (fs q2 !! "reports/report_2025-01-31.json"
     = Some (json_dumps [("date", "31 January 2025");
                         ("timestamp", "2025-01-31T23:59:58");
                         ("report", "AUA rose 5%.")]) /\
   dom (fs q2) = {[LATEST_REPORT_PATH; "reports/report_2025-01-31.json"]}) /\
  (exists Y M D,
      archive_path (mk_datetime 2025 1 31 23 59 58 0)
        = "reports/report_" +:+ Y +:+ "-" +:+ M +:+ "-" +:+ D +:+ ".json" /\
      number Y = Some 2025%N /\ number M = Some 1%N /\ number D = Some 31%N).
Proof.
  intros w1 w2 q1 q2.
  destruct save_report_twice as (Hname & _ & Htwice). split; [| split].
  - destruct (Htwice "AUA flat." "AUA rose 5%." midnight_world w1 w2)
      as (Hdiff & _); try reflexivity.
    + unfold valid_datetime; simpl; lia.
    + unfold valid_datetime; simpl; lia.
    + destruct Hdiff as (_ & Hfirst & Hsecond).
      * intros (_ & Hmonth & _). vm_compute in Hmonth. discriminate.
      * split; [exact Hfirst | exact Hsecond].
  - destruct (Htwice "AUA flat." "AUA rose 5%." quiet_world q1 q2)
      as (_ & Hsame & _); try reflexivity.
    + unfold valid_datetime; simpl; lia.
    + unfold valid_datetime; simpl; lia.
    + destruct Hsame as (_ & Hsecond & Hdom).
      * repeat split.
      * split; [exact Hsecond |]. rewrite Hdom.
        change (dom (fs quiet_world)) with (dom (∅ : gmap string string)).
        change (archive_path (archive_reading q1)) with "reports/report_2025-01-31.json".
        rewrite dom_empty_L. apply union_empty_r_L.
  - destruct (Hname (mk_datetime 2025 1 31 23 59 58 0))
      as (Y & M & D & Hpath & _ & _ & _ & HY & HM & HD); [simpl; lia ..|].
    exists Y, M, D. repeat split; assumption.
Defined.

(** ** Delivery before persistence *)

Lemma send_email_run html_content subject w :
  send_email html_content subject w =
  let announced :=
    set_stdout (stdout w ++ ["Sending email to " +:+ RECIPIENT_EMAIL (environ w) +:+ "..."]) w in
  let accepted := set_outbox (outbox w ++ [outgoing html_content subject w]) announced in
  match smtp w (outgoing html_content subject w) with
  | Delivered =>
      (Return tt, set_stdout (stdout announced ++ ["Email sent successfully!"]) accepted)
  | DeliveredThenRaised e => (Raise e, accepted)
  | NotDelivered e => (Raise e, announced)
  end.
Proof.
  unfold send_email, outgoing. rewrite run_bind. simpl.
  rewrite run_bind. simpl. rewrite run_bind. unfold smtp_deliver. simpl.
  destruct (smtp w _); reflexivity.
Qed.

(** C5.  In the orchestrator the save comes after the send and only after a
    send that succeeded.  If [send_email] raises, the exception ends the run:
    the clock is not read again, no record is written, and the files are
    exactly those from before, whether the relay had refused the message or
    had accepted it before the call failed.  Whenever the files did change,
    the send had returned and the message is in the outbox.  For [main] as a
    whole, a run that ends in an exception leaves the files as they were. *)
Theorem send_failure_saves_nothing :
  (forall html_content subject new_report w e,
      smtp w (outgoing html_content subject w) = NotDelivered e ->
      fst (send_then_save html_content subject new_report w) = Raise e /\
      fs (snd (send_then_save html_content subject new_report w)) = fs w /\
      ticks (snd (send_then_save html_content subject new_report w)) = ticks w /\
      outbox (snd (send_then_save html_content subject new_report w)) = outbox w) /\
  (forall html_content subject new_report w e,
      smtp w (outgoing html_content subject w) = DeliveredThenRaised e ->
      fst (send_then_save html_content subject new_report w) = Raise e /\
      fs (snd (send_then_save html_content subject new_report w)) = fs w /\
      ticks (snd (send_then_save html_content subject new_report w)) = ticks w /\
      outbox (snd (send_then_save html_content subject new_report w)) =
      outbox w ++ [outgoing html_content subject w]) /\
  (forall html_content subject new_report w,
      fs (snd (send_then_save html_content subject new_report w)) <> fs w ->
      smtp w (outgoing html_content subject w) = Delivered /\
      outbox (snd (send_then_save html_content subject new_report w)) =
      outbox w ++ [outgoing html_content subject w]) /\
  (forall fuel w e,
      fst (main fuel w) = Raise e -> fs (snd (main fuel w)) = fs w).
Proof.
  split; [| split; [| split]].
  - intros h s r w e Hfail. unfold send_then_save.
    rewrite run_bind, send_email_run. simpl. rewrite Hfail. simpl. repeat split.
  - intros h s r w e Hfail. unfold send_then_save.
    rewrite run_bind, send_email_run. simpl. rewrite Hfail. simpl. repeat split.
  - intros h s r w Hchanged. unfold send_then_save in *.
    rewrite run_bind, send_email_run in *. simpl in *.
    destruct (smtp w (outgoing h s w)) as [| e | e];
      [| contradiction Hchanged; reflexivity | contradiction Hchanged; reflexivity].
    split; [reflexivity |].
    match goal with
    | |- outbox (snd (?m ?w1)) = _ => change (outbox (snd (m w1)) = outbox w1)
    end.
    apply (keeps_bind outbox); [apply keeps_save_report; reflexivity | intros _].
    repeat (apply keeps_bind; [apply keeps_print; reflexivity | intros _]).
    apply keeps_print; reflexivity.
  - intros fuel w e _. apply main_keeps_fs.
Qed.

Lemma send_failure_saves_nothing_witness :
  fst (send_then_save "<html></html>" "subject" "AUA rose 5%." refusing_world)
    = Raise SMTPException /\
  fs (snd (send_then_save "<html></html>" "subject" "AUA rose 5%." refusing_world)) = ∅ /\
  fs (snd (send_then_save "<html></html>" "subject" "AUA rose 5%." bad_quit_world)) = ∅ /\
  fs (snd (main 0 refusing_world)) = ∅.
Proof.
  destruct send_failure_saves_nothing as (Hsend & Hquit & _ & Hmain).
  destruct (Hsend "<html></html>" "subject" "AUA rose 5%." refusing_world SMTPException)
    as (Hraise & Hfs & _); [reflexivity |].
  destruct (Hquit "<html></html>" "subject" "AUA rose 5%." bad_quit_world SMTPException)
    as (_ & Hfs' & _); [reflexivity |].
  split; [exact Hraise |]. split; [exact Hfs |]. split; [exact Hfs' |].
  apply (Hmain 0 refusing_world (NameError "timedelta")). reflexivity.
Defined.

(** ** The continuation loop *)

Lemma reply_at_continued messages r w k :
  reply_at (continued messages r w) k = reply_at w (S k).
Proof.
  unfold reply_at, continued. simpl. rewrite length_app. simpl.
  f_equal. lia.
Qed.

Lemma research_loop_done fuel messages r w :
  stop_reason r <> PAUSE_TURN -> research_loop fuel messages r w = (Return r, w).
Proof.
  intros H. destruct fuel; simpl; destruct (decide (stop_reason r = PAUSE_TURN));
    try contradiction; reflexivity.
Qed.

Lemma research_loop_step fuel messages r w :
  stop_reason r = PAUSE_TURN ->
  research_loop (S fuel) messages r w =
  match reply_at w 0 with
  | Reply r' => research_loop fuel (continuation messages r) r' (continued messages r w)
  | ApiFailure what => (Raise (APIError what), continued messages r w)
  end.
Proof.
  intros H. simpl. destruct (decide (stop_reason r = PAUSE_TURN)); [| contradiction].
  rewrite run_bind. simpl. rewrite run_bind. unfold messages_create, reply_at. simpl.
  rewrite Nat.add_0_r. destruct (api w (length (api_log w))); reflexivity.
Qed.

Lemma research_loop_stalled messages r w :
  stop_reason r = PAUSE_TURN -> research_loop 0 messages r w = (OutOfFuel, w).
Proof.
  intros H. simpl. destruct (decide (stop_reason r = PAUSE_TURN)); [reflexivity | contradiction].
Qed.

Lemma is_pause_reply r : is_pause (Reply r) = true <-> stop_reason r = PAUSE_TURN.
Proof. simpl. rewrite bool_decide_eq_true. reflexivity. Qed.

(** As long as the service keeps pausing the loop keeps going. *)
Lemma research_loop_pauses fuel :
  forall messages r w,
    stop_reason r = PAUSE_TURN ->
    (forall k, k < fuel -> is_pause (reply_at w k) = true) ->
    fst (research_loop fuel messages r w) = OutOfFuel.
Proof.
  induction fuel as [| fuel IH]; intros messages r w Hr Hall.
  - rewrite research_loop_stalled by assumption. reflexivity.
  - rewrite research_loop_step by assumption.
    pose proof (Hall 0 ltac:(lia)) as H0.
    destruct (reply_at w 0) as [r' | what] eqn:Hreply; [| discriminate].
    apply IH; [apply is_pause_reply; assumption |].
    intros k Hk. rewrite reply_at_continued. apply Hall. lia.
Qed.

(** After [n] pauses and a reply that is final, the loop has sent [n]
    requests and returns that reply, whatever fuel is left over. *)
Lemma research_loop_finishes n :
  forall fuel messages r w final,
    stop_reason r = PAUSE_TURN ->
    (forall k, k < n -> is_pause (reply_at w k) = true) ->
    reply_at w n = Reply final ->
    stop_reason final <> PAUSE_TURN ->
    n < fuel ->
    exists w',
      research_loop fuel messages r w = (Return final, w') /\
      length (api_log w') = length (api_log w) + S n /\
      ticks w' = ticks w /\ clock w' = clock w.
Proof.
  induction n as [| n IH]; intros fuel messages r w final Hr Hall Hfinal Hstop Hfuel;
    (destruct fuel as [| fuel]; [lia |]); rewrite research_loop_step by assumption.
  - rewrite Hfinal. rewrite research_loop_done by assumption.
    eexists. split; [reflexivity |]. unfold continued. simpl.
    rewrite length_app. simpl. repeat split.
  - pose proof (Hall 0 ltac:(lia)) as H0.
    destruct (reply_at w 0) as [r' | what] eqn:Hreply; [| discriminate].
    destruct (IH fuel (continuation messages r) r' (continued messages r w) final)
      as (w' & Hrun & Hlen & Hticks & Hclock).
    + apply is_pause_reply; assumption.
    + intros k Hk. rewrite reply_at_continued. apply Hall. lia.
    + rewrite reply_at_continued. assumption.
    + assumption.
    + lia.
    + exists w'. split; [assumption |]. rewrite Hlen, Hticks, Hclock.
      unfold continued. simpl. rewrite length_app. simpl. repeat split. lia.
Qed.

(** A reply that is not a pause ends the loop, by returning or by raising. *)
Lemma research_loop_ends n :
  forall messages r w,
    is_pause (reply_at w n) = false ->
    fst (research_loop (S n) messages r w) <> OutOfFuel.
Proof.
  induction n as [| n IH]; intros messages r w Hn;
    destruct (decide (stop_reason r = PAUSE_TURN)) as [Hr | Hr];
    try (rewrite research_loop_done by assumption; discriminate);
    rewrite research_loop_step by assumption.
  - destruct (reply_at w 0) as [r' | what]; [| discriminate].
    simpl in Hn. rewrite bool_decide_eq_false in Hn.
    rewrite research_loop_done by assumption. discriminate.
  - destruct (reply_at w 0) as [r' | what]; [| discriminate].
    apply IH. rewrite reply_at_continued. assumption.
Qed.

Lemma research_loop_ended fuel :
  forall messages r w,
    fst (research_loop fuel messages r w) <> OutOfFuel ->
    stop_reason r <> PAUSE_TURN \/ exists k, is_pause (reply_at w k) = false.
Proof.
  induction fuel as [| fuel IH]; intros messages r w Hend;
    destruct (decide (stop_reason r = PAUSE_TURN)) as [Hr | Hr]; try (left; assumption).
  - rewrite research_loop_stalled in Hend by assumption. contradiction Hend. reflexivity.
  - right. rewrite research_loop_step in Hend by assumption.
    destruct (reply_at w 0) as [r' | what] eqn:Hreply.
    + destruct (IH _ _ _ Hend) as [Hdone | [k Hk]].
      * exists 0. rewrite Hreply. simpl. rewrite bool_decide_eq_false. assumption.
      * exists (S k). rewrite <- reply_at_continued with (messages := messages) (r := r).
        assumption.
    + exists 0. rewrite Hreply. reflexivity.
Qed.

Lemma research_loop_log fuel :
  forall messages r w,
    exists sent, api_log (snd (research_loop fuel messages r w)) = api_log w ++ sent.
Proof.
  induction fuel as [| fuel IH]; intros messages r w;
    destruct (decide (stop_reason r = PAUSE_TURN)) as [Hr | Hr];
    try (rewrite research_loop_done by assumption; exists []; simpl;
         rewrite app_nil_r; reflexivity).
  - rewrite research_loop_stalled by assumption. exists []. simpl.
    rewrite app_nil_r. reflexivity.
  - rewrite research_loop_step by assumption.
    destruct (reply_at w 0) as [r' | what].
    + destruct (IH (continuation messages r) r' (continued messages r w)) as [sent Hsent].
      rewrite Hsent. unfold continued. simpl. rewrite <- app_assoc. eexists. reflexivity.
    + simpl. eexists. reflexivity.
Qed.

Lemma conduct_research_run fuel w :
  conduct_research fuel w =
  match reply_at w 0 with
  | ApiFailure what => (Raise (APIError what), requested w)
  | Reply r =>
      match research_loop fuel (first_messages w) r (started w) with
      | (Return final, w') =>
          (Return (extract_text (content final)), completed (extract_text (content final)) w')
      | (Raise e, w') => (Raise e, w')
      | (OutOfFuel, w') => (OutOfFuel, w')
      end
  end.
Proof.
  unfold conduct_research, get_research_prompt, reply_at.
  rewrite run_bind. simpl. rewrite run_bind. simpl.
  rewrite run_bind. unfold messages_create. simpl. rewrite Nat.add_0_r.
  destruct (api w (length (api_log w))) as [r | what]; [| reflexivity].
  rewrite run_bind. simpl. rewrite run_bind.
  change (set_ticks _ (set_api_log _ _)) with (started w).
  change [Message "user" (Text (RESEARCH_PROMPT +:+ strftime_d_B_Y (clock w (S (ticks w)))))]
    with (first_messages w).
  destruct (research_loop fuel (first_messages w) r (started w)) as [[final | e |] w'];
    reflexivity.
Qed.

Lemma reply_at_started w k : reply_at (started w) k = reply_at w (S k).
Proof.
  unfold reply_at, started, requested. simpl. rewrite length_app. simpl. f_equal. lia.
Qed.

(** C7.  [conduct_research] and its continuation loop.
    - The first request allows 15 searches and carries the research prompt.
    - A reply with the continuation status makes the client send one more
      request, allowing 10 searches, whose conversation is the previous one
      extended by the assistant turn just received and the instruction to
      continue; the loop goes on from there.
    - The loop ends exactly when some reply is not a continuation; while the
      service keeps pausing the model never runs out of requests to send.
    - No count of continuations is too large: after any number [n] of pauses
      followed by a final reply the client has sent [n + 1] requests and
      returns the text of the final reply. *)
Theorem conduct_research_loop :
  (forall fuel w,
      api_log (snd (conduct_research fuel w)) !! length (api_log w) =
      Some (Request MODEL 8192 [Tool "web_search_20250305" "web_search" 15]
              [Message "user"
                 (Text (RESEARCH_PROMPT +:+ strftime_d_B_Y (clock w (ticks w))))])) /\
  (forall fuel messages r w,
      stop_reason r = "pause_turn" ->
      let extended :=
        messages ++ [Message "assistant" (Blocks (content r));
                     Message "user" (Text "Please continue your research.")] in
      api_log (snd (research_loop (S fuel) messages r w)) !! length (api_log w) =
      Some (Request MODEL 8192 [Tool "web_search_20250305" "web_search" 10] extended) /\
      research_loop (S fuel) messages r w =
      match reply_at w 0 with
      | Reply r' => research_loop fuel extended r' (continued messages r w)
      | ApiFailure what => (Raise (APIError what), continued messages r w)
      end) /\
  (forall w,
      (exists fuel, fst (conduct_research fuel w) <> OutOfFuel) <->
      (exists k, is_pause (reply_at w k) = false)) /\
  (forall n w final,
      (forall k, k < n -> is_pause (reply_at w k) = true) ->
      reply_at w n = Reply final ->
      stop_reason final <> "pause_turn" ->
      (forall fuel, fuel < n -> fst (conduct_research fuel w) = OutOfFuel) /\
      (forall fuel, n <= fuel ->
         fst (conduct_research fuel w) = Return (extract_text (content final)) /\
         length (api_log (snd (conduct_research fuel w))) = length (api_log w) + S n)).
Proof.
  split; [| split; [| split]].
  - intros fuel w. rewrite conduct_research_run.
    destruct (reply_at w 0) as [r | what].
    + destruct (research_loop_log fuel (first_messages w) r (started w)) as [sent Hsent].
      assert (Hlog : forall w', api_log w' = api_log (started w) ++ sent ->
                api_log w' !! length (api_log w) = Some (first_request w)).
      { intros w' ->. unfold started, requested. simpl. rewrite <- app_assoc.
        rewrite lookup_app_r by lia. rewrite Nat.sub_diag. reflexivity. }
      destruct (research_loop fuel (first_messages w) r (started w)) as [[final | e |] w'];
        simpl in *; apply Hlog; assumption.
    + simpl. rewrite lookup_app_r by lia. rewrite Nat.sub_diag. reflexivity.
  - intros fuel messages r w Hr extended. split; [| apply research_loop_step; assumption].
    rewrite research_loop_step by assumption.
    assert (Hlog : forall w' sent, api_log w' = api_log (continued messages r w) ++ sent ->
              api_log w' !! length (api_log w) =
              Some (research_request 10 (continuation messages r))).
    { intros w' sent ->. unfold continued. simpl. rewrite <- app_assoc.
      rewrite lookup_app_r by lia. rewrite Nat.sub_diag. reflexivity. }
    destruct (reply_at w 0) as [r' | what].
    + destruct (research_loop_log fuel (continuation messages r) r' (continued messages r w))
        as [sent Hsent].
      apply (Hlog _ sent). assumption.
    + apply (Hlog _ []). simpl. rewrite app_nil_r. reflexivity.
  - intros w. split.
    + intros [fuel Hend]. rewrite conduct_research_run in Hend.
      destruct (reply_at w 0) as [r | what] eqn:Hreply.
      * assert (Hloop : fst (research_loop fuel (first_messages w) r (started w)) <> OutOfFuel).
        { destruct (research_loop fuel (first_messages w) r (started w)) as [[final | e |] w'];
            simpl in *; [discriminate | discriminate | intros _; apply Hend; reflexivity]. }
        apply research_loop_ended in Hloop as [Hdone | [k Hk]].
        -- exists 0. rewrite Hreply. simpl. rewrite bool_decide_eq_false. assumption.
        -- exists (S k). rewrite <- reply_at_started. assumption.
      * exists 0. rewrite Hreply. reflexivity.
    + intros [k Hk]. exists k. rewrite conduct_research_run.
      destruct (reply_at w 0) as [r | what] eqn:Hreply; [| discriminate].
      assert (Hloop : fst (research_loop k (first_messages w) r (started w)) <> OutOfFuel).
      { destruct k as [| k].
        - rewrite Hreply in Hk. simpl in Hk. rewrite bool_decide_eq_false in Hk.
          rewrite research_loop_done by assumption. discriminate.
        - apply research_loop_ends. rewrite reply_at_started. assumption. }
      destruct (research_loop k (first_messages w) r (started w)) as [[final | e |] w'];
        simpl in *; [discriminate | discriminate | contradiction Hloop; reflexivity].
  - intros n w final Hall Hfinal Hstop. split.
    + intros fuel Hfuel. rewrite conduct_research_run.
      pose proof (Hall 0 ltac:(lia)) as H0.
      destruct (reply_at w 0) as [r | what] eqn:Hreply; [| discriminate].
      assert (Hloop : fst (research_loop fuel (first_messages w) r (started w)) = OutOfFuel).
      { apply research_loop_pauses; [apply is_pause_reply; assumption |].
        intros k Hk. rewrite reply_at_started. apply Hall. lia. }
      destruct (research_loop fuel (first_messages w) r (started w)) as [[x | e |] w'];
        simpl in *; [discriminate | discriminate | reflexivity].
    + intros fuel Hfuel. rewrite conduct_research_run.
      destruct n as [| n].
      * rewrite Hfinal. rewrite research_loop_done by assumption. simpl.
        rewrite length_app. simpl. split; [reflexivity | lia].
      * pose proof (Hall 0 ltac:(lia)) as H0.
        destruct (reply_at w 0) as [r | what] eqn:Hreply; [| discriminate].
        destruct (research_loop_finishes n fuel (first_messages w) r (started w) final)
          as (w' & Hrun & Hlen & _).
        -- apply is_pause_reply; assumption.
        -- intros k Hk. rewrite reply_at_started. apply Hall. lia.
        -- rewrite reply_at_started. assumption.
        -- assumption.
        -- lia.
        -- rewrite Hrun. simpl. split; [reflexivity |]. rewrite Hlen.
           unfold started, requested. simpl. rewrite length_app. simpl. lia.
Qed.

Lemma conduct_research_loop_witness :
  (fst (conduct_research 1 pausing_world) = OutOfFuel /\
   fst (conduct_research 2 pausing_world) = Return "AUA rose 5%." /\
   length (api_log (snd (conduct_research 2 pausing_world))) = 3) /\
  api_log (snd (research_loop 1 [] (Response "pause_turn" []) pausing_world)) !! 0 =
  Some (Request MODEL 8192 [Tool "web_search_20250305" "web_search" 10]
          [Message "assistant" (Blocks []);
           Message "user" (Text "Please continue your research.")]).
Proof.
  destruct conduct_research_loop as (_ & Hstep & _ & Hcount). split.
  - destruct (Hcount 2 pausing_world (Response "end_turn" [TextBlock "AUA rose 5%."]))
      as (Hshort & Hlong).
    + intros [| [| k]] Hk; [reflexivity | reflexivity | lia].
    + reflexivity.
    + discriminate.
    + split; [apply Hshort; lia |]. apply (Hlong 2). lia.
  - apply (Hstep 0 [] (Response "pause_turn" []) pausing_world). reflexivity.
Defined.

(** ** Rendering *)

(** Steps 1 to 3, outcome by outcome. *)
Lemma research_and_compare_run fuel w :
  research_and_compare fuel w =
  match conduct_research fuel (preamble w) with
  | (Return new_report, w1) =>
      match load_previous_report w1 with
      | (Return (Some (previous_report, previous_date)), w2) =>
          match format_value previous_date w2 with
          | (Return date_text, w2') =>
              match compare_reports previous_report new_report previous_date
                      (said ("Found previous report from " +:+ date_text) w2') with
              | (Return comparison, w3) => (Return (new_report, Some comparison, false), w3)
              | (Raise e, w3) => (Raise e, w3)
              | (OutOfFuel, w3) => (OutOfFuel, w3)
              end
          | (Raise e, w2') => (Raise e, w2')
          | (OutOfFuel, w2') => (OutOfFuel, w2')
          end
      | (Return None, w2) =>
          (Return (new_report, None, true),
           said "No previous report found - this is the first run" w2)
      | (Raise e, w2) => (Raise e, w2)
      | (OutOfFuel, w2) => (OutOfFuel, w2)
      end
  | (Raise e, w1) => (Raise e, w1)
  | (OutOfFuel, w1) => (OutOfFuel, w1)
  end.
Proof.
  unfold research_and_compare.
  rewrite run_bind. simpl. rewrite run_bind. simpl. rewrite run_bind. simpl.
  rewrite run_bind. simpl. rewrite run_bind.
  change (set_stdout _ (set_stdout _ (set_ticks _ (set_stdout _ w)))) with (preamble w).
  destruct (conduct_research fuel (preamble w)) as [[new_report | e |] w1]; try reflexivity.
  rewrite run_bind.
  destruct (load_previous_report w1) as [[[[previous_report previous_date] |] | e |] w2];
    reflexivity.
Qed.


(** With no record on disk the comparator is not run. *)
Lemma first_run_skips_comparator fuel w new_report w1 :
  fs w !! LATEST_REPORT_PATH = None ->
  conduct_research fuel (preamble w) = (Return new_report, w1) ->
  research_and_compare fuel w =
  (Return (new_report, None, true),
   said "No previous report found - this is the first run" w1).
Proof.
  intros Hnone Hresearch. rewrite research_and_compare_run, Hresearch.
  assert (Hfs : fs w1 !! LATEST_REPORT_PATH = None).
  { pose proof (keeps_conduct_research fs ltac:(reflexivity) ltac:(reflexivity)
                  ltac:(reflexivity) fuel (preamble w)) as Hk.
    rewrite Hresearch in Hk. simpl in Hk. rewrite Hk. exact Hnone. }
  apply load_previous_report_absent in Hfs.
  assert (Hw : snd (load_previous_report w1) = w1).
  { unfold load_previous_report. rewrite run_bind. unfold path_exists. simpl.
    apply load_previous_report_absent in Hfs. rewrite Hfs. reflexivity. }
  destruct (load_previous_report w1) as [o w2]. simpl in *. subst. reflexivity.
Qed.


(** Steps 1 to 3 hand over a comparison exactly when the run is not a first
    run. *)
Lemma research_and_compare_flag fuel w w' new_report comparison is_first_run :
  research_and_compare fuel w = (Return (new_report, comparison, is_first_run), w') ->
  is_first_run = bool_decide (comparison = None).
Proof.
  unfold research_and_compare.
  repeat (rewrite run_bind;
          match goal with
          | |- context [match ?m ?w0 with _ => _ end] =>
              destruct (m w0) as [[? | ? |] ?]; try discriminate
          end).
  match goal with
  | |- context [match ?p with Some _ => _ | None => _ end] =>
      destruct p as [[previous_report previous_date] |]
  end.
  - repeat (rewrite run_bind;
            match goal with
            | |- context [match ?m ?w0 with _ => _ end] =>
                destruct (m w0) as [[? | ? |] ?]; try discriminate
            end).
    intros [= <- <- <- <-]. reflexivity.
  - rewrite run_bind. simpl. intros [= <- <- <- <-]. reflexivity.
Qed.

(** C2, as the code has it.  [create_email_html] never returns.  It raises
    [NameError] for [timedelta], a name bound neither in the module nor among
    the builtins, whenever the comparison is a string or the run is a first
    run; with no comparison and the first-run flag off it raises [TypeError]
    earlier, when [md_to_html] is applied to [None].  [main] passes no
    comparison only on a first run, so every run that reaches the rendering
    step ends there with the [NameError], and no run of [main] completes. *)
Theorem create_email_html_always_raises :
  (forall comparison full_report is_first_run w,
      fst (create_email_html comparison full_report is_first_run w) =
      if is_first_run then Raise (NameError "timedelta")
      else match comparison with
           | Some _ => Raise (NameError "timedelta")
           | None => Raise TypeError
           end) /\
  (forall fuel w w' new_report comparison is_first_run,
      research_and_compare fuel w = (Return (new_report, comparison, is_first_run), w') ->
      fst (main fuel w) = Raise (NameError "timedelta")) /\
  (forall fuel w, returned (fst (main fuel w)) = false).
Proof.
  split; [| split].
  - apply create_email_html_outcome.
  - intros fuel w w' new_report comparison is_first_run Hrun.
    pose proof (research_and_compare_flag _ _ _ _ _ _ Hrun) as Hflag.
    unfold main. rewrite run_bind, Hrun. rewrite run_bind.
    pose proof (create_email_html_outcome comparison new_report is_first_run w') as Hout.
    destruct (create_email_html comparison new_report is_first_run w') as [[rendered | e |] w''];
      simpl in *; destruct is_first_run, comparison; simpl in *; congruence.
  - apply main_never_returns.
Qed.

Lemma create_email_html_always_raises_witness :
  fst (main 0 quiet_world) = Raise (NameError "timedelta").
Proof.
  apply (proj1 (proj2 create_email_html_always_raises) 0 quiet_world
           (snd (research_and_compare 0 quiet_world)) "AUA rose 5%." None true).
  vm_compute. reflexivity.
Defined.

(** The claim that every call raises [NameError] fails on a call with no
    comparison and the first-run flag off. *)
Lemma create_email_html_type_error :
  fst (create_email_html None "AUA rose 5%." false quiet_world) = Raise TypeError /\
  ~ (forall comparison full_report is_first_run w,
        fst (create_email_html comparison full_report is_first_run w) =
        Raise (NameError "timedelta")).
Proof.
  split; [reflexivity |].
  intros H. specialize (H None "AUA rose 5%." false quiet_world). discriminate H.
Qed.

(** Once steps 1 to 3 have returned, [main] is the rendering step and ends
    as it ends. *)
Lemma main_after_steps fuel w w' new_report comparison is_first_run :
  research_and_compare fuel w = (Return (new_report, comparison, is_first_run), w') ->
  exists e,
    fst (create_email_html comparison new_report is_first_run w') = Raise e /\
    main fuel w = (Raise e, snd (create_email_html comparison new_report is_first_run w')).
Proof.
  intros Hsteps. unfold main. rewrite run_bind, Hsteps. rewrite run_bind.
  pose proof (create_email_html_outcome comparison new_report is_first_run w') as Hout.
  destruct (create_email_html comparison new_report is_first_run w') as [[rendered | e |] w''];
    simpl in *.
  - destruct is_first_run, comparison; discriminate.
  - exists e. split; reflexivity.
  - destruct is_first_run, comparison; discriminate.
Qed.

(** C1, as the code has it.  On a run with no record on disk the comparison
    is skipped as claimed: steps 1 to 3 hand over no comparison and the
    first-run flag, and the service has received the research requests only.
    But no email is rendered: [create_email_html] raises [NameError] for
    [timedelta], nothing is sent and nothing is saved. *)
Theorem first_run_renders_nothing fuel w new_report w1 :
  fs w !! LATEST_REPORT_PATH = None ->
  conduct_research fuel (preamble w) = (Return new_report, w1) ->
  research_and_compare fuel w =
    (Return (new_report, None, true),
     said "No previous report found - this is the first run" w1) /\
  api_log (snd (main fuel w)) = api_log w1 /\
  fst (main fuel w) = Raise (NameError "timedelta") /\
  outbox (snd (main fuel w)) = outbox w /\
  fs (snd (main fuel w)) = fs w.
Proof.
  intros Hnone Hresearch.
  pose proof (first_run_skips_comparator _ _ _ _ Hnone Hresearch) as Hsteps.
  destruct (main_after_steps _ _ _ _ _ _ Hsteps) as (e & Hrender & Hmain).
  rewrite create_email_html_outcome in Hrender. simpl in Hrender. injection Hrender as <-.
  split; [exact Hsteps |]. split; [| split; [| split]].
  - rewrite Hmain. cbn [snd].
    rewrite (keeps_create_email_html api_log ltac:(reflexivity)). reflexivity.
  - rewrite Hmain. reflexivity.
  - apply main_keeps_outbox.
  - apply main_keeps_fs.
Qed.

Lemma first_run_renders_nothing_witness :
  fst (research_and_compare 0 quiet_world) = Return ("AUA rose 5%.", None, true) /\
  api_log (snd (main 0 quiet_world)) = [first_request quiet_world] /\
  fst (main 0 quiet_world) = Raise (NameError "timedelta") /\
  outbox (snd (main 0 quiet_world)) = [] /\
  fs (snd (main 0 quiet_world)) = ∅.
Proof.
  destruct (first_run_renders_nothing 0 quiet_world "AUA rose 5%."
              (snd (conduct_research 0 (preamble quiet_world))))
    as (Hsteps & Hlog & Hout & Hbox & Hfs); [reflexivity | vm_compute; reflexivity |].
  split; [rewrite Hsteps; reflexivity |].
  split; [rewrite Hlog; reflexivity |].
  split; [exact Hout |]. split; [exact Hbox | exact Hfs].
Defined.



(** C8.  Two calls of [create_email_html] with the same comparison, the same
    report and the same flag have the same outcome, in whatever states of the
    world they are made, one after the other or not.  (It is the same
    exception: see C2.) *)
Theorem rendering_is_deterministic comparison full_report is_first_run w1 w2 :
  fst (create_email_html comparison full_report is_first_run w1) =
  fst (create_email_html comparison full_report is_first_run w2) /\
  fst (create_email_html comparison full_report is_first_run w1) =
  fst (create_email_html comparison full_report is_first_run
         (snd (create_email_html comparison full_report is_first_run w1))).
Proof. rewrite !create_email_html_outcome. split; reflexivity. Qed.

(** * Further properties *)

(** ** The orchestrator *)

(** X1.  Whatever the clock, the service, the relay and the disk do, a run of
    [main] does not complete, delivers no message and writes no file. *)
Theorem main_is_inert fuel w :
  returned (fst (main fuel w)) = false /\
  outbox (snd (main fuel w)) = outbox w /\
  fs (snd (main fuel w)) = fs w.
Proof.
  split; [apply main_never_returns |].
  split; [apply main_keeps_outbox | apply main_keeps_fs].
Qed.

Lemma load_previous_report_read_only w : snd (load_previous_report w) = w.
Proof. apply (keeps_load_previous_report (fun w => w)). Qed.





(** ** The report store *)

Lemma save_report_run report w :
  save_report report w =
  let text := json_dumps (saved_record report w) in
  let dated := set_ticks (S (S (ticks w))) w in
  match write_fault w REPORTS_DIR with
  | Some _ => (Raise (OSError REPORTS_DIR), w)
  | None =>
      match write_fault w LATEST_REPORT_PATH with
      | Some OpenFails => (Raise (OSError LATEST_REPORT_PATH), dated)
      | Some (WriteStops written) =>
          (Raise (OSError LATEST_REPORT_PATH),
           set_fs (<[LATEST_REPORT_PATH := str_take written text]> (fs w)) dated)
      | None =>
          let latest := <[LATEST_REPORT_PATH := text]> (fs w) in
          let named := set_ticks (S (S (S (ticks w)))) (set_fs latest w) in
          let archive := archive_path (archive_reading w) in
          match write_fault w archive with
          | Some OpenFails => (Raise (OSError archive), named)
          | Some (WriteStops written) =>
              (Raise (OSError archive),
               set_fs (<[archive := str_take written text]> latest) named)
          | None =>
              (Return tt,
               said ("Report saved to "
                     +:+ path_str (SCRIPT_DIR_PARENT (environ w)) LATEST_REPORT_PATH)
                 (set_fs (<[archive := text]> latest) named))
          end
      end
  end.
Proof.
  unfold save_report, saved_record, date_reading, timestamp_reading, archive_reading.
  rewrite run_bind. unfold mkdir at 1.
  destruct (write_fault w REPORTS_DIR) eqn:Hdir; [reflexivity |].
  rewrite run_bind. simpl. rewrite run_bind. simpl.
  rewrite run_bind. unfold json_dump at 1. simpl.
  destruct (write_fault w LATEST_REPORT_PATH) as [[| n1] |] eqn:Hlatest;
    [reflexivity | reflexivity |].
  rewrite run_bind. simpl. rewrite run_bind. unfold json_dump at 1. simpl.
  destruct (write_fault w (archive_path _)) as [[| n2] |] eqn:Harchive; reflexivity.
Qed.

(** X3.  A save is not atomic, and a save that fails can destroy the record
    it was to replace.  When the directory cannot be made or the latest
    record cannot be opened, the save raises with every file as it was.  When
    the write of the latest record stops, the save raises and the file holds
    what was written of the new text: the previous record is gone, and if
    nothing was written the next load fails on the empty file.  When the
    archive cannot be written, the save raises and the latest record has been
    replaced already. *)
Theorem save_report_not_atomic report w :
  let text := json_dumps [("date", strftime_d_B_Y (date_reading w));
                          ("timestamp", isoformat (timestamp_reading w));
                          ("report", report)] in
  let after := snd (save_report report w) in
  (forall failure,
      write_fault w REPORTS_DIR = Some failure ->
      fst (save_report report w) = Raise (OSError REPORTS_DIR) /\ fs after = fs w) /\
  (write_fault w REPORTS_DIR = None ->
   (write_fault w LATEST_REPORT_PATH = Some OpenFails ->
    fst (save_report report w) = Raise (OSError LATEST_REPORT_PATH) /\ fs after = fs w) /\
   (forall written,
       write_fault w LATEST_REPORT_PATH = Some (WriteStops written) ->
       fst (save_report report w) = Raise (OSError LATEST_REPORT_PATH) /\
       fs after = <[LATEST_REPORT_PATH := str_take written text]> (fs w) /\
       (written = 0 -> read_fault w LATEST_REPORT_PATH = false ->
        fst (load_previous_report after) = Raise JSONDecodeError)) /\
   (forall failure,
       write_fault w LATEST_REPORT_PATH = None ->
       write_fault w (archive_path (archive_reading w)) = Some failure ->
       fst (save_report report w) = Raise (OSError (archive_path (archive_reading w))) /\
       fs after !! LATEST_REPORT_PATH = Some text)).
Proof.
  intros text after. subst after. rewrite save_report_run. cbv zeta.
  change (json_dumps (saved_record report w)) with text.
  split; [| intros Hdir; split; [| split]].
  - intros failure ->. split; reflexivity.
  - rewrite Hdir. intros ->. split; reflexivity.
  - rewrite Hdir. intros written ->. cbn [fst snd]. split; [reflexivity |].
    split; [reflexivity |]. intros -> Hread.
    match goal with
    | |- fst (load_previous_report ?w1) = _ =>
        destruct (load_previous_report_malformed w1 "") as (_ & Hjson & _);
        [ cbn [fs set_fs set_ticks]; change (str_take 0 text) with "";
          apply lookup_insert_eq
        | exact Hread
        | rewrite Hjson; reflexivity ]
    end.
  - rewrite Hdir. intros failure -> Harchive. rewrite Harchive.
    destruct failure as [| written]; cbn [fst snd fs set_fs set_ticks].
    + split; [reflexivity |]. apply lookup_insert_eq.
    + split; [reflexivity |].
      rewrite lookup_insert_ne by apply archive_path_not_latest. apply lookup_insert_eq.
Qed.

Lemma save_report_not_atomic_witness :
  (fst (save_report "AUA rose 5%." full_disk_world)
     = Raise (OSError "reports/report_2025-01-31.json") /\
   fs (snd (save_report "AUA rose 5%." full_disk_world)) !! LATEST_REPORT_PATH
     = Some (json_dumps [("date", "31 January 2025");
                         ("timestamp", "2025-01-31T23:59:58");
                         ("report", "AUA rose 5%.")])) /\
  (fst (load_previous_report torn_world)
     = Return (Some (JString "AUA flat.", JString "01 January 2025")) /\
   fs (snd (save_report "AUA rose 5%." torn_world)) !! LATEST_REPORT_PATH = Some "" /\
   fst (load_previous_report (snd (save_report "AUA rose 5%." torn_world)))
     = Raise JSONDecodeError).
Proof.
  split.
  - destruct (save_report_not_atomic "AUA rose 5%." full_disk_world) as (_ & Hrest).
    destruct (Hrest eq_refl) as (_ & _ & Harchive).
    apply (Harchive OpenFails); reflexivity.
  - destruct (save_report_not_atomic "AUA rose 5%." torn_world) as (_ & Hrest).
    destruct (Hrest eq_refl) as (_ & Htorn & _).
    destruct (Htorn 0 eq_refl) as (_ & Hfs & Hload).
    split; [vm_compute; reflexivity |]. split; [rewrite Hfs; reflexivity |].
    apply Hload; reflexivity.
Defined.

(** X4.  A save that succeeds writes the latest record and the archive of
    that day and nothing else: every other file, older archives among them,
    is as it was, and the console gets the one line that names the latest
    record by its full path. *)
Theorem save_report_leaves_other_files report w w' :
  save_report report w = (Return tt, w') ->
  (forall p, p <> LATEST_REPORT_PATH -> p <> archive_path (archive_reading w) ->
             fs w' !! p = fs w !! p) /\
  stdout w' = stdout w ++ ["Report saved to "
                           +:+ path_str (SCRIPT_DIR_PARENT (environ w))
                                 "reports/latest_report.json"] /\
  outbox w' = outbox w /\ api_log w' = api_log w.
Proof.
  intros Hsave.
  pose proof (save_report_success _ _ _ Hsave) as (Hfs & _ & _ & _ & _ & Hout).
  split; [| split; [exact Hout |]].
  - intros p Hlatest Harchive. rewrite Hfs.
    rewrite lookup_insert_ne by congruence. rewrite lookup_insert_ne by congruence.
    reflexivity.
  - pose proof (keeps_save_report outbox ltac:(reflexivity) ltac:(reflexivity)
                  ltac:(reflexivity) report w) as Hbox.
    pose proof (keeps_save_report api_log ltac:(reflexivity) ltac:(reflexivity)
                  ltac:(reflexivity) report w) as Hlog.
    rewrite Hsave in Hbox, Hlog. split; assumption.
Qed.

Lemma save_report_leaves_other_files_witness :
  fs (snd (save_report "AUA rose 5%." second_run_world)) !! "reports/report_2025-01-01.json"
    = None /\
  stdout (snd (save_report "AUA rose 5%." second_run_world))
    = ["Report saved to /home/runner/work/hl-regular-due-diligence/"
       +:+ "hl-regular-due-diligence/reports/latest_report.json"].
Proof.
  destruct (save_report_leaves_other_files "AUA rose 5%." second_run_world
              (snd (save_report "AUA rose 5%." second_run_world)))
    as (Hother & Hout & _); [reflexivity |].
  split; [| exact Hout].
  rewrite Hother; [reflexivity | discriminate | discriminate].
Defined.

(** X5.  Steps 5 and 6.  When the send returns and no write fails, the
    message is delivered, the save succeeds, and the next load (of a file that
    can be read) finds the report just sent as the JSON text gives it back,
    dated by the first clock reading of the save.  When the relay has
    accepted the message and the send raises all the same, the message is
    delivered and nothing is saved. *)
Theorem send_then_save_hands_over html_content subject new_report w :
  let w' := snd (send_then_save html_content subject new_report w) in
  (smtp w (outgoing html_content subject w) = Delivered ->
   (forall p, write_fault w p = None) ->
   read_fault w LATEST_REPORT_PATH = false ->
   is_str new_report = true ->
   fst (send_then_save html_content subject new_report w) = Return tt /\
   outbox w' = outbox w ++ [outgoing html_content subject w] /\
   load_previous_report w' =
     (Return (Some (JString (joined new_report),
                    JString (strftime_d_B_Y (clock w (ticks w))))), w')) /\
  (forall e,
      smtp w (outgoing html_content subject w) = DeliveredThenRaised e ->
      fst (send_then_save html_content subject new_report w) = Raise e /\
      outbox w' = outbox w ++ [outgoing html_content subject w] /\
      fs w' = fs w).
Proof.
  intros w'. subst w'. unfold send_then_save.
  rewrite run_bind, send_email_run. cbv zeta. split.
  - intros Hsmtp Hdisk Hread Hstr. rewrite Hsmtp. cbv beta iota.
    match goal with
    | |- context [(_ ≫= _) ?ws] => set (sent := ws)
    end.
    rewrite run_bind.
    pose proof (save_report_never_refused new_report sent Hdisk) as Hok.
    pose proof (keeps_save_report outbox ltac:(reflexivity) ltac:(reflexivity)
                  ltac:(reflexivity) new_report sent) as Hbox.
    destruct (save_report new_report sent) as [o saved] eqn:Hsave.
    cbn [fst snd] in Hok, Hbox. subst o.
    destruct (save_report_success _ _ _ Hsave) as (_ & _ & _ & Hrf & _).
    pose proof (save_report_latest _ _ _ Hsave) as Hlatest.
    assert (Hprints : forall w0,
               (print banner ≫= λ _ : (), print "Complete!" ≫= λ _ : (), print banner) w0 =
               (Return tt, said banner (said "Complete!" (said banner w0))))
      by reflexivity.
    rewrite Hprints. cbn [fst snd].
    split; [reflexivity |]. split; [exact Hbox |].
    rewrite (load_previous_report_object _
               [("date", JString (strftime_d_B_Y (clock w (ticks w))));
                ("timestamp", JString (isoformat (clock w (S (ticks w)))));
                ("report", JString (joined new_report))]); [reflexivity |].
    exists (json_dumps (saved_record new_report sent)).
    split; [exact Hlatest |]. split; [cbn; rewrite Hrf; exact Hread |].
    apply (saved_record_reloaded new_report sent Hstr).
  - intros e Hsmtp. rewrite Hsmtp. repeat split.
Qed.

Lemma send_then_save_hands_over_witness :
  (load_previous_report
     (snd (send_then_save "<html></html>" "subject" "AUA rose 5%." quiet_world)) =
   (Return (Some (JString "AUA rose 5%.", JString "31 January 2025")),
    snd (send_then_save "<html></html>" "subject" "AUA rose 5%." quiet_world))) /\
  (fst (send_then_save "<html></html>" "subject" "AUA rose 5%." bad_quit_world) =
   Raise SMTPException) /\
  (length (outbox (snd (send_then_save "<html></html>" "subject" "AUA rose 5%."
                          bad_quit_world))) = 1) /\
  (fs (snd (send_then_save "<html></html>" "subject" "AUA rose 5%." bad_quit_world)) = ∅).
Proof.
  destruct (send_then_save_hands_over "<html></html>" "subject" "AUA rose 5%." quiet_world)
    as (Hgood & _).
  destruct Hgood as (_ & _ & Hload); [reflexivity | reflexivity | reflexivity | reflexivity |].
  destruct (send_then_save_hands_over "<html></html>" "subject" "AUA rose 5%." bad_quit_world)
    as (_ & Hbad).
  destruct (Hbad SMTPException eq_refl) as (Hraise & Hbox & Hfs).
  split; [rewrite Hload; reflexivity |]. split; [exact Hraise |].
  split; [rewrite Hbox; reflexivity | exact Hfs].
Defined.

(** ** The research client *)

Lemma research_loop_fails n :
  forall fuel messages r w what,
    stop_reason r = PAUSE_TURN ->
    (forall k, k < n -> is_pause (reply_at w k) = true) ->
    reply_at w n = ApiFailure what ->
    n < fuel ->
    exists w',
      research_loop fuel messages r w = (Raise (APIError what), w') /\
      length (api_log w') = length (api_log w) + S n.
Proof.
  induction n as [| n IH]; intros fuel messages r w what Hr Hall Hfail Hfuel;
    (destruct fuel as [| fuel]; [lia |]); rewrite research_loop_step by assumption.
  - rewrite Hfail. eexists. split; [reflexivity |]. unfold continued. simpl.
    rewrite length_app. reflexivity.
  - pose proof (Hall 0 ltac:(lia)) as H0.
    destruct (reply_at w 0) as [r' | what'] eqn:Hreply; [| discriminate].
    destruct (IH fuel (continuation messages r) r' (continued messages r w) what)
      as (w' & Hrun & Hlen).
    + apply is_pause_reply; assumption.
    + intros k Hk. rewrite reply_at_continued. apply Hall. lia.
    + rewrite reply_at_continued. assumption.
    + lia.
    + exists w'. split; [assumption |]. rewrite Hlen.
      unfold continued. simpl. rewrite length_app. simpl. lia.
Qed.

(** X6.  A call that fails ends the research with the error it raised, on
    the first call as after any number of continuations: after [n] pauses and
    a failing call, [conduct_research] has called [client.messages.create]
    [n + 1] times and raises; it returns no report, catches nothing and calls
    no further.  (Whether the client library had sent the failing request
    more than once before it gave up does not show in the function.) *)
Theorem conduct_research_failure n w what :
  (forall k, k < n -> is_pause (reply_at w k) = true) ->
  reply_at w n = ApiFailure what ->
  forall fuel, n <= fuel ->
    fst (conduct_research fuel w) = Raise (APIError what) /\
    length (api_log (snd (conduct_research fuel w))) = length (api_log w) + S n.
Proof.
  intros Hall Hfail fuel Hfuel. rewrite conduct_research_run.
  destruct n as [| n].
  - rewrite Hfail. simpl. rewrite length_app. simpl. split; [reflexivity | lia].
  - pose proof (Hall 0 ltac:(lia)) as H0.
    destruct (reply_at w 0) as [r | what'] eqn:Hreply; [| discriminate].
    destruct (research_loop_fails n fuel (first_messages w) r (started w) what)
      as (w' & Hrun & Hlen).
    + apply is_pause_reply; assumption.
    + intros k Hk. rewrite reply_at_started. apply Hall. lia.
    + rewrite reply_at_started. assumption.
    + lia.
    + rewrite Hrun. simpl. split; [reflexivity |]. rewrite Hlen.
      unfold started, requested. simpl. rewrite length_app. simpl. lia.
Qed.

Lemma conduct_research_failure_witness :
  fst (conduct_research 5 failing_world) = Raise (APIError "overloaded") /\
  length (api_log (snd (conduct_research 5 failing_world))) = 2.
Proof.
  apply (conduct_research_failure 1 failing_world "overloaded").
  - intros [| k] Hk; [reflexivity | lia].
  - reflexivity.
  - lia.
Defined.

Lemma turns_cons r rs :
  turns (r :: rs) = [Message "assistant" (Blocks (content r)); CONTINUE] ++ turns rs.
Proof. reflexivity. Qed.

(** The requests of the loop, one for each pause it handles: the first
    pause is the response the loop starts with, the later ones are the
    replies to its own requests. *)
Lemma research_loop_conversation fuel :
  forall msgs r w,
    exists paused : list response,
      length paused <= fuel /\
      (forall k r', paused !! k = Some r' ->
         stop_reason r' = PAUSE_TURN /\
         match k with
         | 0 => r' = r
         | S j => reply_at w j = Reply r'
         end) /\
      api_log (snd (research_loop fuel msgs r w)) =
      api_log w ++ map (fun i => research_request 10 (msgs ++ turns (take (S i) paused)))
                       (seq 0 (length paused)).
Proof.
  induction fuel as [| fuel IH]; intros msgs r w;
    destruct (decide (stop_reason r = PAUSE_TURN)) as [Hr | Hr];
    try (rewrite research_loop_done by assumption; exists []; simpl;
         rewrite app_nil_r; split; [lia |]; split; [| reflexivity];
         intros k r' Hk; discriminate).
  - rewrite research_loop_stalled by assumption. exists []. simpl.
    rewrite app_nil_r. split; [lia |]. split; [| reflexivity].
    intros k r' Hk. discriminate.
  - rewrite research_loop_step by assumption.
    destruct (reply_at w 0) as [r1 | what] eqn:Hreply.
    + destruct (IH (continuation msgs r) r1 (continued msgs r w))
        as (paused & Hlen & Hheard & Hlog).
      exists (r :: paused). split; [simpl; lia |]. split.
      * intros [| k] r' Hk; simpl in Hk.
        -- injection Hk as <-. split; [exact Hr | reflexivity].
        -- destruct (Hheard k r' Hk) as [Hstop Hwhere]. split; [exact Hstop |].
           destruct k as [| j]; [subst r'; exact Hreply |].
           rewrite <- (reply_at_continued msgs r). exact Hwhere.
      * rewrite Hlog. unfold continued. cbn [api_log set_api_log set_stdout].
        rewrite <- app_assoc. f_equal. cbn [length seq map app].
        f_equal. rewrite <- seq_shift, map_map. apply map_ext. intros i.
        cbn [take]. rewrite turns_cons. unfold continuation, CONTINUE.
        rewrite <- !app_assoc. reflexivity.
    + exists [r]. split; [simpl; lia |]. split.
      * intros [| k] r' Hk; simpl in Hk; [| discriminate].
        injection Hk as <-. split; [exact Hr | reflexivity].
      * cbn [snd]. unfold continued. cbn [api_log set_api_log set_stdout length seq map take].
        unfold turns, continuation, CONTINUE. cbn [flat_map app]. reflexivity.
Qed.

(** X7.  The calls of one research, in the order made: the opening request,
    then one request for each pause.  The request after the [i]-th pause
    allows 10 searches and carries the whole conversation so far: the prompt
    of the second clock reading, then for each pause up to this one the
    assistant turn with the content of the paused response and the
    instruction to continue.  There are at most [fuel] of them. *)
Theorem conduct_research_requests fuel w :
  exists paused : list response,
    length paused <= fuel /\
    (forall k r, paused !! k = Some r ->
       reply_at w k = Reply r /\ stop_reason r = "pause_turn") /\
    api_log (snd (conduct_research fuel w)) =
    api_log w ++
    first_request w ::
    map (fun i => Request MODEL 8192 [Tool "web_search_20250305" "web_search" 10]
                    (first_messages w ++ turns (take (S i) paused)))
        (seq 0 (length paused)).
Proof.
  rewrite conduct_research_run.
  destruct (reply_at w 0) as [r | what] eqn:Hreply.
  - destruct (research_loop_conversation fuel (first_messages w) r (started w))
      as (paused & Hlen & Hheard & Hlog).
    exists paused. split; [exact Hlen |]. split.
    + intros k r' Hk. destruct (Hheard k r' Hk) as [Hstop Hwhere]. split; [| exact Hstop].
      destruct k as [| j]; [subst r'; exact Hreply |].
      rewrite <- reply_at_started. exact Hwhere.
    + assert (Hw : forall w', api_log w' = api_log (snd (research_loop fuel (first_messages w) r
                                                             (started w))) ->
                api_log w' = api_log w ++ first_request w ::
                  map (fun i => research_request 10 (first_messages w ++ turns (take (S i) paused)))
                      (seq 0 (length paused))).
      { intros w' ->. rewrite Hlog. unfold started, requested. simpl.
        rewrite <- app_assoc. reflexivity. }
      destruct (research_loop fuel (first_messages w) r (started w)) as [[final | e |] w'];
        apply Hw; reflexivity.
  - exists []. simpl. split; [lia |]. split; [| reflexivity].
    intros k r Hk. discriminate.
Qed.

Lemma conduct_research_requests_witness :
  messages <$> api_log (snd (conduct_research 2 pausing_world)) !! 2 =
  Some (first_messages pausing_world
          ++ [Message "assistant" (Blocks [OtherBlock "server_tool_use"]); CONTINUE;
              Message "assistant" (Blocks [OtherBlock "server_tool_use"]); CONTINUE]).
Proof.
  destruct (conduct_research_requests 2 pausing_world) as (paused & Hlen & Hheard & Hlog).
  rewrite Hlog.
  assert (Hcount : length (api_log (snd (conduct_research 2 pausing_world))) = 3)
    by (vm_compute; reflexivity).
  rewrite Hlog in Hcount. cbn [api_log pausing_world app length] in Hcount.
  rewrite length_map, length_seq in Hcount.
  destruct paused as [| p0 [| p1 [| p2 paused]]]; simpl in Hcount; try lia.
  destruct (Hheard 0 p0 eq_refl) as [H0 _]. destruct (Hheard 1 p1 eq_refl) as [H1 _].
  vm_compute in H0, H1. injection H0 as <-. injection H1 as <-.
  reflexivity.
Defined.

(** ** Dates *)

Lemma month_names_inj i j x y :
  i < 12 -> j < 12 ->
  nth i month_names "" +:+ " " +:+ x = nth j month_names "" +:+ " " +:+ y ->
  i = j /\ x = y.
Proof.
  intros Hi Hj H.
  do 12 (destruct i as [| i];
         [ do 12 (destruct j as [| j];
                  [ first [ split; [reflexivity |]; do 2 apply append_inv_prefix in H; exact H
                          | exfalso; apply (f_equal (String.substring 0 3)) in H;
                            vm_compute in H; discriminate H ] |]); lia |]).
  lia.
Qed.

(** [%d %B %Y] tells calendar days apart. *)
Lemma strftime_d_B_Y_inj (a b : datetime) :
  valid_datetime a -> valid_datetime b ->
  strftime_d_B_Y a = strftime_d_B_Y b -> same_calendar_day a b.
Proof.
  intros (Hya & Hma & Hda & _) (Hyb & Hmb & Hdb & _). unfold strftime_d_B_Y. intros H.
  apply append_eq_length in H; [| rewrite !length_zero_padded; reflexivity].
  destruct H as [Hd H]. apply append_inv_prefix in H.
  unfold month_name in H. apply month_names_inj in H; [| lia | lia].
  destruct H as [Hm Hy].
  apply zero_padded_inj in Hd; [| simpl; lia | simpl; lia].
  apply str_of_N_inj in Hy.
  repeat split; [assumption | lia | assumption].
Qed.

Lemma strftime_d_B_Y_same_day (a b : datetime) :
  same_calendar_day a b -> strftime_d_B_Y a = strftime_d_B_Y b.
Proof. intros (Hy & Hm & Hd). unfold strftime_d_B_Y. rewrite Hy, Hm, Hd. reflexivity. Qed.

(** X8.  The research prompt is built twice, with two readings of the clock:
    once for the opening request and once for the conversation that the
    continuations replay.  The conversation starts with the prompt that was
    sent exactly when both readings fall on the same day; across midnight the
    service is shown a first message it never received. *)
Theorem research_prompt_built_twice w :
  valid_datetime (clock w (ticks w)) ->
  valid_datetime (clock w (S (ticks w))) ->
  (messages (first_request w) = first_messages w <->
   same_calendar_day (clock w (ticks w)) (clock w (S (ticks w)))) /\
  (forall fuel r,
      reply_at w 0 = Reply r -> stop_reason r = "pause_turn" ->
      api_log (snd (conduct_research (S fuel) w)) !! S (length (api_log w)) =
      Some (Request MODEL 8192 [Tool "web_search_20250305" "web_search" 10]
              (first_messages w ++ [Message "assistant" (Blocks (content r)); CONTINUE]))).
Proof.
  intros Hv1 Hv2. split.
  - unfold first_request, first_messages, research_request. cbn [messages]. split.
    + intros H.
      assert (H' : RESEARCH_PROMPT +:+ strftime_d_B_Y (clock w (ticks w)) =
                   RESEARCH_PROMPT +:+ strftime_d_B_Y (clock w (S (ticks w))))
        by congruence.
      apply append_inv_prefix in H'. apply strftime_d_B_Y_inj; assumption.
    + intros Hsame. rewrite (strftime_d_B_Y_same_day _ _ Hsame). reflexivity.
  - intros fuel r Hreply Hr.
    rewrite conduct_research_run, Hreply.
    rewrite research_loop_step by assumption.
    assert (Hlook : forall w' more,
              api_log w' = api_log (continued (first_messages w) r (started w)) ++ more ->
              api_log w' !! S (length (api_log w)) =
              Some (research_request 10 (continuation (first_messages w) r))).
    { intros w' more ->. unfold continued, started, requested. simpl.
      rewrite <- !app_assoc. rewrite lookup_app_r by lia.
      replace (S (length (api_log w)) - length (api_log w)) with 1 by lia. reflexivity. }
    destruct (reply_at (started w) 0) as [r' | what].
    + destruct (research_loop_log fuel (continuation (first_messages w) r) r'
                  (continued (first_messages w) r (started w))) as [more Hmore].
      destruct (research_loop fuel (continuation (first_messages w) r) r'
                  (continued (first_messages w) r (started w))) as [[final | e |] w'];
        cbn [fst snd] in *;
        first [ apply (Hlook _ more); exact Hmore
              | apply (Hlook _ more); unfold completed; simpl; exact Hmore ].
    + cbn [snd]. apply (Hlook _ []). rewrite app_nil_r. reflexivity.
Qed.

Lemma research_prompt_built_twice_witness :
  messages (first_request new_day_world) <> first_messages new_day_world /\
  (messages <$> api_log (snd (conduct_research 1 new_day_world)) !! 1) =
  Some (first_messages new_day_world
          ++ [Message "assistant" (Blocks [OtherBlock "server_tool_use"]); CONTINUE]).
Proof.
  destruct (research_prompt_built_twice new_day_world) as (Hiff & Hnext).
  - unfold valid_datetime; simpl; lia.
  - unfold valid_datetime; simpl; lia.
  - split.
    + intros Heq. apply Hiff in Heq. destruct Heq as (_ & Hmonth & _).
      vm_compute in Hmonth. discriminate.
    + pose proof (Hnext 0 (Response "pause_turn" [OtherBlock "server_tool_use"])
                    eq_refl eq_refl) as Hsecond.
      change (S (length (api_log new_day_world))) with 1 in Hsecond.
      rewrite Hsecond. reflexivity.
Defined.

(** X9.  The [date] member of a record and the name of its archive file come
    from two readings of the clock.  After a successful save the archive named
    for the day of the last reading holds the date of the first one: when
    midnight falls between them, the file named for one day is dated the day
    before. *)
Theorem archive_name_and_date_can_disagree report w w' :
  save_report report w = (Return tt, w') ->
  valid_datetime (date_reading w) ->
  valid_datetime (archive_reading w) ->
  fs w' !! archive_path (archive_reading w) =
    Some (json_dumps [("date", strftime_d_B_Y (date_reading w));
                      ("timestamp", isoformat (timestamp_reading w));
                      ("report", report)]) /\
  (is_str report = true ->
   exists content members,
     fs w' !! archive_path (archive_reading w) = Some content /\
     json_loads content = Value (JObject members) /\
     dict_lookup "date" members = Some (JString (strftime_d_B_Y (date_reading w)))) /\
  (strftime_d_B_Y (date_reading w) = strftime_d_B_Y (archive_reading w) <->
   same_calendar_day (date_reading w) (archive_reading w)).
Proof.
  intros Hsave Hv1 Hv3.
  pose proof (save_report_archive _ _ _ Hsave) as Hfile.
  split; [exact Hfile |]. split.
  - intros Hs. destruct (saved_record_reloaded report w Hs) as [_ Hjson].
    eexists. eexists. split; [exact Hfile |]. split; [exact Hjson | reflexivity].
  - split; [apply strftime_d_B_Y_inj; assumption | apply strftime_d_B_Y_same_day].
Qed.

Lemma archive_name_and_date_can_disagree_witness :
  exists content members,
    fs (snd (save_report "AUA rose 5%." late_save_world)) !! "reports/report_2025-02-01.json"
      = Some content /\
    json_loads content = Value (JObject members) /\
    dict_lookup "date" members = Some (JString "31 January 2025").
Proof.
  destruct (archive_name_and_date_can_disagree "AUA rose 5%." late_save_world
              (snd (save_report "AUA rose 5%." late_save_world)))
    as (_ & Hdate & _).
  - reflexivity.
  - unfold valid_datetime; simpl; lia.
  - unfold valid_datetime; simpl; lia.
  - destruct (Hdate eq_refl) as (content & members & Hfile & Hjson & Hlookup).
    exists content, members. split; [exact Hfile |]. split; [exact Hjson | exact Hlookup].
Defined.

(** ** The markup conversion *)

Lemma str_has_append c a b : str_has c (a +:+ b) = str_has c a || str_has c b.
Proof.
  induction a as [| x a IH]; simpl; [reflexivity |].
  destruct (decide (x = c)); [reflexivity | exact IH].
Qed.

Lemma split_lines_one_line s : str_has LF s = false -> split_lines s = [s].
Proof.
  induction s as [| c s IH]; simpl; [reflexivity |].
  destruct (decide (c = LF)); [discriminate |]. intros H. rewrite (IH H). reflexivity.
Qed.

Lemma split_lines_append a s :
  str_has LF a = false -> split_lines (a +:+ String LF s) = a :: split_lines s.
Proof.
  induction a as [| c a IH]; simpl.
  - intros _. destruct (decide (LF = LF)); [reflexivity | contradiction].
  - destruct (decide (c = LF)); [discriminate |]. intros H. rewrite (IH H). reflexivity.
Qed.

Lemma per_line_one_line f s : str_has LF s = false -> per_line f s = f s.
Proof. intros H. unfold per_line. rewrite (split_lines_one_line _ H). reflexivity. Qed.

Lemma sub_heading_other marker opening closing line :
  str_startswith marker line = false -> sub_heading marker opening closing line = line.
Proof. intros H. unfold sub_heading. rewrite H. reflexivity. Qed.

Lemma not_a_heading s marker :
  str_startswith "#" s = false -> str_startswith (String "#" marker) s = false.
Proof.
  destruct s as [| c s]; simpl; [reflexivity |].
  destruct (decide ("#"%char = c)); [discriminate | reflexivity].
Qed.

Lemma sub_strong_no_star s :
  str_has "*" s = false -> forall fuel, sub_strong fuel s = s.
Proof.
  induction s as [| c s IH]; intros H fuel.
  - destruct fuel; reflexivity.
  - simpl in H. destruct (decide (c = "*"%char)) as [| Hc]; [discriminate |].
    destruct fuel as [| fuel]; [reflexivity |].
    cbn [sub_strong]. cbn [str_startswith].
    destruct (decide ("*"%char = c)); [congruence |].
    rewrite (IH H). reflexivity.
Qed.

Lemma str_partition_no_bar s : str_has "|" s = false -> str_partition "|" s = None.
Proof.
  induction s as [| c s IH]; [reflexivity |]. simpl.
  destruct (decide (c = "|"%char)) as [| Hc]; [discriminate |]. intros H.
  destruct (decide ("|"%char = c)); [congruence |]. rewrite (IH H). reflexivity.
Qed.

Lemma sub_row_no_bar s : str_has "|" s = false -> sub_row s = s.
Proof. intros H. unfold sub_row. rewrite (str_partition_no_bar _ H). reflexivity. Qed.

Lemma replace_no_LF rest new s :
  str_has LF s = false -> replace_from (String LF rest) new 0 s = s.
Proof.
  induction s as [| c s IH]; [reflexivity |]. simpl.
  destruct (decide (c = LF)) as [| Hc]; [discriminate |]. intros H.
  destruct (decide (LF = c)); [congruence |]. rewrite (IH H). reflexivity.
Qed.

(** The bold and table substitutions and the two replacements leave plain
    text as it is. *)
Lemma md_inline_plain s :
  plain s ->
  str_replace (String LF "") "<br>"
    (str_replace (String LF (String LF "")) PARAGRAPH_BREAK
       (per_line sub_row (per_line (fun l => sub_strong (S (String.length l)) l) s))) = s.
Proof.
  intros (Hlf & Hstar & Hbar).
  rewrite (per_line_one_line _ s Hlf), (sub_strong_no_star _ Hstar).
  rewrite (per_line_one_line _ s Hlf), (sub_row_no_bar _ Hbar).
  unfold str_replace.
  rewrite (replace_no_LF _ _ s Hlf), (replace_no_LF _ _ s Hlf). reflexivity.
Qed.

(** X10.  [md_to_html] escapes nothing.  Text on one line with no star and no
    bar that does not start with a hash sign comes out as it went in, angle
    brackets, ampersands and quotes included; the empty text gives the empty
    text. *)
Theorem md_to_html_keeps_plain_text s :
  plain s -> str_startswith "#" s = false -> md_to_html_str s = s.
Proof.
  intros Hplain Hhash. pose proof Hplain as (Hlf & _).
  unfold md_to_html_str. cbv zeta.
  rewrite (per_line_one_line _ s Hlf), sub_heading_other by (apply not_a_heading, Hhash).
  rewrite (per_line_one_line _ s Hlf), sub_heading_other by (apply not_a_heading, Hhash).
  apply md_inline_plain, Hplain.
Qed.

Lemma md_to_html_keeps_plain_text_witness :
  md_to_html_str "<script>alert(1)</script> & <b>AUA</b>" =
  "<script>alert(1)</script> & <b>AUA</b>".
Proof.
  apply md_to_html_keeps_plain_text; [repeat split |]; reflexivity.
Defined.

Lemma replace_LF_removes new :
  str_has LF new = false ->
  forall s skip, str_has LF (replace_from (String LF "") new skip s) = false.
Proof.
  intros Hnew. induction s as [| c s IH]; intros skip; [reflexivity |].
  cbn [replace_from]. destruct skip as [| k]; [| apply IH].
  cbn [str_startswith].
  destruct (decide (LF = c)) as [<- | Hc].
  - rewrite str_has_append, Hnew. apply IH.
  - cbn [str_has]. destruct (decide (c = LF)); [congruence | apply IH].
Qed.

(** X11.  The output of [md_to_html] is one line: every newline of the text
    has become a paragraph break or a [<br>], whatever the text was. *)
Theorem md_to_html_has_no_newline text : str_has LF (md_to_html_str text) = false.
Proof.
  unfold md_to_html_str. cbv zeta. unfold str_replace at 1.
  apply replace_LF_removes. reflexivity.
Qed.

Lemma plain_append a b : plain a -> plain b -> plain (a +:+ b).
Proof.
  intros (Ha1 & Ha2 & Ha3) (Hb1 & Hb2 & Hb3). unfold plain.
  rewrite !str_has_append, Ha1, Ha2, Ha3, Hb1, Hb2, Hb3. repeat split.
Qed.

Lemma md_after_headings text line :
  per_line (sub_heading "### " H3_OPEN H3_CLOSE)
    (per_line (sub_heading "## " H2_OPEN H2_CLOSE) text) = line ->
  plain line -> md_to_html_str text = line.
Proof.
  intros Hline Hplain. unfold md_to_html_str. cbv zeta. rewrite Hline.
  apply md_inline_plain, Hplain.
Qed.

Lemma sub_heading_match marker opening closing title :
  title <> "" ->
  sub_heading marker opening closing (marker +:+ title) = opening +:+ title +:+ closing.
Proof.
  intros Hne. unfold sub_heading.
  assert (Hstart : forall m s, str_startswith m (m +:+ s) = true).
  { induction m as [| c m IH]; intros s; [reflexivity |]. simpl.
    destruct (decide (c = c)); [apply IH | contradiction]. }
  assert (Hdrop : forall m s, str_drop (String.length m) (m +:+ s) = s).
  { induction m as [| c m IH]; intros s; [reflexivity | apply IH]. }
  rewrite Hstart, Hdrop. destruct title; [contradiction | reflexivity].
Qed.

(** X12.  Headings.  A line made of the marker [## ] and a plain title
    becomes a level-2 heading with the title as its text, a line made of
    [### ] and a plain title a level-3 heading; the marker of level 3 is not
    taken for the one of level 2, and a marker with no title is left as it
    is. *)
Theorem md_to_html_headings title :
  plain title -> title <> "" ->
  md_to_html_str ("## " +:+ title) = H2_OPEN +:+ title +:+ H2_CLOSE /\
  md_to_html_str ("### " +:+ title) = H3_OPEN +:+ title +:+ H3_CLOSE /\
  md_to_html_str "## " = "## ".
Proof.
  intros Hplain Hne. pose proof Hplain as (Hlf & _).
  assert (Hconst : forall opening closing,
             plain opening -> plain closing -> plain (opening +:+ title +:+ closing)).
  { intros opening closing Ho Hc. apply plain_append; [exact Ho |].
    apply plain_append; assumption. }
  split; [| split; [| reflexivity]].
  - assert (Hout : plain (H2_OPEN +:+ title +:+ H2_CLOSE)) by (apply Hconst; repeat split).
    apply md_after_headings; [| exact Hout].
    rewrite (per_line_one_line _ ("## " +:+ title))
      by (rewrite str_has_append, Hlf; reflexivity).
    rewrite sub_heading_match by assumption.
    rewrite per_line_one_line by apply Hout.
    apply sub_heading_other. reflexivity.
  - assert (Hout : plain (H3_OPEN +:+ title +:+ H3_CLOSE)) by (apply Hconst; repeat split).
    apply md_after_headings; [| exact Hout].
    rewrite (per_line_one_line _ ("### " +:+ title))
      by (rewrite str_has_append, Hlf; reflexivity).
    rewrite sub_heading_other by reflexivity.
    rewrite per_line_one_line by (rewrite str_has_append, Hlf; reflexivity).
    apply sub_heading_match. assumption.
Qed.

Lemma md_to_html_headings_witness :
  md_to_html_str "## 1. Leadership & <CEO> search" =
    H2_OPEN +:+ "1. Leadership & <CEO> search" +:+ H2_CLOSE /\
  md_to_html_str "### 1. Leadership & <CEO> search" =
    H3_OPEN +:+ "1. Leadership & <CEO> search" +:+ H3_CLOSE.
Proof.
  destruct (md_to_html_headings "1. Leadership & <CEO> search") as (H2 & H3 & _).
  - repeat split.
  - discriminate.
  - split; [exact H2 | exact H3].
Defined.

Lemma str_rpartition_last c s : str_rpartition c (s +:+ String c "") = Some (s, "").
Proof.
  induction s as [| a s IH].
  - simpl. destruct (decide (c = c)); [reflexivity | contradiction].
  - change (String a s +:+ String c "") with (String a (s +:+ String c "")).
    cbn [str_rpartition]. rewrite IH. reflexivity.
Qed.

(** X13.  Table rows.  A line that starts and ends with a bar becomes one
    table row with one cell, and the cell holds everything between the first
    bar and the last, inner bars included: the columns of a row are not
    split. *)
Theorem md_to_html_row_is_one_cell inner :
  inner <> "" -> str_has LF inner = false -> str_has "*" inner = false ->
  md_to_html_str ("|" +:+ inner +:+ "|") = ROW_OPEN +:+ inner +:+ ROW_CLOSE.
Proof.
  intros Hne Hlf Hstar.
  assert (Hline : str_has LF ("|" +:+ inner +:+ "|") = false)
    by (rewrite !str_has_append, Hlf; reflexivity).
  assert (Hout : str_has LF (ROW_OPEN +:+ inner +:+ ROW_CLOSE) = false)
    by (rewrite !str_has_append, Hlf; reflexivity).
  unfold md_to_html_str. cbv zeta.
  rewrite (per_line_one_line _ _ Hline), sub_heading_other by reflexivity.
  rewrite (per_line_one_line _ _ Hline), sub_heading_other by reflexivity.
  rewrite (per_line_one_line _ _ Hline).
  rewrite sub_strong_no_star by (rewrite !str_has_append, Hstar; reflexivity).
  rewrite (per_line_one_line _ _ Hline).
  assert (Hrow : sub_row ("|" +:+ inner +:+ "|") = ROW_OPEN +:+ inner +:+ ROW_CLOSE).
  { unfold sub_row.
    change (str_partition "|" ("|" +:+ inner +:+ "|")) with (Some ("", inner +:+ "|")).
    cbv beta iota. rewrite str_rpartition_last. destruct inner as [| g group]; [contradiction |].
    rewrite append_empty_r. reflexivity. }
  rewrite Hrow. unfold str_replace.
  rewrite (replace_no_LF (String LF "") PARAGRAPH_BREAK _ Hout).
  apply (replace_no_LF "" "<br>" _ Hout).
Qed.

Lemma md_to_html_row_is_one_cell_witness :
  md_to_html_str "| Metric | Previous | Current | Change |" =
  ROW_OPEN +:+ " Metric | Previous | Current | Change " +:+ ROW_CLOSE.
Proof.
  apply (md_to_html_row_is_one_cell " Metric | Previous | Current | Change ");
    [discriminate | reflexivity | reflexivity].
Defined.

Lemma sub_strong_prefix a :
  str_has "*" a = false ->
  forall fuel rest,
    sub_strong (String.length a + fuel) (a +:+ rest) = a +:+ sub_strong fuel rest.
Proof.
  induction a as [| c a IH]; intros H fuel rest; [reflexivity |].
  simpl in H. destruct (decide (c = "*"%char)) as [| Hc]; [discriminate |].
  change (String.length (String c a) + fuel) with (S (String.length a + fuel)).
  change (String c a +:+ rest) with (String c (a +:+ rest)).
  cbn [sub_strong str_startswith].
  destruct (decide ("*"%char = c)); [congruence |].
  rewrite (IH H). reflexivity.
Qed.

Lemma str_partition_stars p b :
  str_has "*" p = false -> str_partition "**" (p +:+ "**" +:+ b) = Some (p, b).
Proof.
  induction p as [| c p IH]; intros H; [reflexivity |].
  simpl in H. destruct (decide (c = "*"%char)) as [| Hc]; [discriminate |].
  change (String c p +:+ "**" +:+ b) with (String c (p +:+ "**" +:+ b)).
  cbn [str_partition str_startswith].
  destruct (decide ("*"%char = c)); [congruence |].
  rewrite (IH H). reflexivity.
Qed.

Lemma sub_strong_span fuel x b :
  x <> "" -> str_has "*" x = false -> str_has "*" b = false ->
  sub_strong (S fuel) ("**" +:+ x +:+ "**" +:+ b) = STRONG_OPEN +:+ x +:+ STRONG_CLOSE +:+ b.
Proof.
  intros Hne Hx Hb. destruct x as [| g x]; [contradiction |].
  simpl in Hx. destruct (decide (g = "*"%char)); [discriminate |].
  change ("**" +:+ String g x +:+ "**" +:+ b)
    with (String "*" (String "*" (String g (x +:+ "**" +:+ b)))).
  cbn [sub_strong str_startswith str_drop].
  destruct (decide ("*"%char = "*"%char)); [| contradiction].
  rewrite (str_partition_stars _ _ Hx), (sub_strong_no_star _ Hb).
  change (String g x +:+ STRONG_CLOSE +:+ b) with (String g (x +:+ STRONG_CLOSE +:+ b)).
  reflexivity.
Qed.

(** X14.  Bold.  On a line with no bar, a pair of double stars around a
    non-empty text without stars becomes a [<strong>] element, and the text
    before and after it is kept. *)
Theorem md_to_html_strong a x b :
  plain a -> plain x -> plain b -> x <> "" -> str_startswith "#" a = false ->
  md_to_html_str (a +:+ "**" +:+ x +:+ "**" +:+ b) =
  a +:+ STRONG_OPEN +:+ x +:+ STRONG_CLOSE +:+ b.
Proof.
  intros (Ha1 & Ha2 & Ha3) (Hx1 & Hx2 & Hx3) (Hb1 & Hb2 & Hb3) Hne Hhash.
  set (line := a +:+ "**" +:+ x +:+ "**" +:+ b).
  set (out := a +:+ STRONG_OPEN +:+ x +:+ STRONG_CLOSE +:+ b).
  assert (Hline : str_has LF line = false)
    by (unfold line; rewrite !str_has_append, Ha1, Hx1, Hb1; reflexivity).
  assert (Hout1 : str_has LF out = false)
    by (unfold out; rewrite !str_has_append, Ha1, Hx1, Hb1; reflexivity).
  assert (Hout3 : str_has "|" out = false)
    by (unfold out; rewrite !str_has_append, Ha3, Hx3, Hb3; reflexivity).
  assert (Hstart : forall marker, str_startswith (String "#" marker) line = false).
  { intros marker. unfold line. destruct a as [| c a]; [reflexivity |].
    simpl in Hhash |- *. destruct (decide ("#"%char = c)); [discriminate | reflexivity]. }
  unfold md_to_html_str. cbv zeta.
  rewrite (per_line_one_line _ line Hline), sub_heading_other by apply Hstart.
  rewrite (per_line_one_line _ line Hline), sub_heading_other by apply Hstart.
  rewrite (per_line_one_line _ line Hline).
  assert (Hstrong : sub_strong (S (String.length line)) line = out).
  { unfold line.
    rewrite length_append.
    replace (S (String.length a + String.length ("**" +:+ x +:+ "**" +:+ b)))
      with (String.length a + S (String.length ("**" +:+ x +:+ "**" +:+ b))) by lia.
    rewrite (sub_strong_prefix _ Ha2), sub_strong_span by assumption. reflexivity. }
  rewrite Hstrong.
  rewrite (per_line_one_line _ out Hout1), (sub_row_no_bar _ Hout3).
  unfold str_replace.
  rewrite (replace_no_LF (String LF "") PARAGRAPH_BREAK _ Hout1).
  apply (replace_no_LF "" "<br>" _ Hout1).
Qed.

Lemma md_to_html_strong_witness :
  md_to_html_str "AUA rose **5%** in the quarter" =
  "AUA rose " +:+ STRONG_OPEN +:+ "5%" +:+ STRONG_CLOSE +:+ " in the quarter".
Proof.
  apply (md_to_html_strong "AUA rose " "5%" " in the quarter").
  - repeat split.
  - repeat split.
  - repeat split.
  - discriminate.
  - reflexivity.
Defined.

Lemma replace_after_prefix rest new a s :
  str_has LF a = false ->
  replace_from (String LF rest) new 0 (a +:+ s) = a +:+ replace_from (String LF rest) new 0 s.
Proof.
  induction a as [| c a IH]; intros H; [reflexivity |].
  simpl in H. destruct (decide (c = LF)) as [| Hc]; [discriminate |].
  change (String c a +:+ s) with (String c (a +:+ s)).
  cbn [replace_from str_startswith].
  destruct (decide (LF = c)); [congruence |].
  rewrite (IH H). reflexivity.
Qed.

Lemma per_line_two f a b :
  str_has LF a = false -> str_has LF b = false ->
  per_line f (a +:+ String LF b) = f a +:+ String LF (f b).
Proof.
  intros Ha Hb. unfold per_line.
  rewrite (split_lines_append _ _ Ha), (split_lines_one_line _ Hb). reflexivity.
Qed.

Lemma per_line_three f a b :
  str_has LF a = false -> str_has LF b = false ->
  per_line f (a +:+ String LF (String LF b)) = f a +:+ String LF (f "" +:+ String LF (f b)).
Proof.
  intros Ha Hb. unfold per_line. rewrite (split_lines_append _ _ Ha).
  change (split_lines (String LF b)) with ("" :: split_lines b).
  rewrite (split_lines_one_line _ Hb). reflexivity.
Qed.

(** X15.  Line breaks.  Between two plain lines one newline becomes [<br>]
    and a blank line becomes the paragraph break, a closing [</p>] followed
    by an opening [<p>]: the paragraph it closes was never opened. *)
Theorem md_to_html_breaks a b :
  plain a -> plain b -> str_startswith "#" a = false -> str_startswith "#" b = false ->
  md_to_html_str (a +:+ String LF b) = a +:+ "<br>" +:+ b /\
  md_to_html_str (a +:+ String LF (String LF b)) = a +:+ PARAGRAPH_BREAK +:+ b /\
  str_startswith "</p><p" PARAGRAPH_BREAK = true.
Proof.
  intros (Ha1 & Ha2 & Ha3) (Hb1 & Hb2 & Hb3) Ha Hb.
  assert (Hh : forall marker s, str_startswith "#" s = false ->
                 sub_heading (String "#" marker) H2_OPEN H2_CLOSE s = s /\
                 sub_heading (String "#" marker) H3_OPEN H3_CLOSE s = s).
  { intros marker s Hs. split; apply sub_heading_other, not_a_heading, Hs. }
  split; [| split; [| reflexivity]].
  - unfold md_to_html_str. cbv zeta.
    rewrite (per_line_two _ a b Ha1 Hb1).
    rewrite (proj1 (Hh _ a Ha)), (proj1 (Hh _ b Hb)).
    rewrite (per_line_two _ a b Ha1 Hb1).
    rewrite (proj2 (Hh _ a Ha)), (proj2 (Hh _ b Hb)).
    rewrite (per_line_two _ a b Ha1 Hb1).
    rewrite (sub_strong_no_star _ Ha2), (sub_strong_no_star _ Hb2).
    rewrite (per_line_two _ a b Ha1 Hb1).
    rewrite (sub_row_no_bar _ Ha3), (sub_row_no_bar _ Hb3).
    unfold str_replace.
    rewrite (replace_after_prefix _ _ a _ Ha1).
    assert (Hkeep : replace_from (String LF (String LF "")) PARAGRAPH_BREAK 0 (String LF b)
                    = String LF b).
    { destruct b as [| c b']; [reflexivity |].
      simpl in Hb1. destruct (decide (c = LF)) as [| Hc]; [discriminate |].
      cbn [replace_from str_startswith].
      repeat match goal with
             | |- context [decide ?P] => destruct (decide P); try congruence
             end.
      rewrite (replace_no_LF (String LF "") PARAGRAPH_BREAK b' Hb1). reflexivity. }
    rewrite Hkeep. rewrite (replace_after_prefix _ _ a _ Ha1).
    cbn [replace_from str_startswith String.length Nat.sub].
    destruct (decide (LF = LF)); [| contradiction].
    rewrite (replace_no_LF "" "<br>" b Hb1). reflexivity.
  - unfold md_to_html_str. cbv zeta.
    rewrite (per_line_three _ a b Ha1 Hb1).
    rewrite (proj1 (Hh _ a Ha)), (proj1 (Hh _ b Hb)).
    change (sub_heading "## " H2_OPEN H2_CLOSE "") with "".
    change ("" +:+ String LF b) with (String LF b).
    rewrite (per_line_three _ a b Ha1 Hb1).
    rewrite (proj2 (Hh _ a Ha)), (proj2 (Hh _ b Hb)).
    change (sub_heading "### " H3_OPEN H3_CLOSE "") with "".
    change ("" +:+ String LF b) with (String LF b).
    rewrite (per_line_three _ a b Ha1 Hb1).
    rewrite (sub_strong_no_star _ Ha2), (sub_strong_no_star _ Hb2).
    change (sub_strong (S (String.length "")) "") with "".
    change ("" +:+ String LF b) with (String LF b).
    rewrite (per_line_three _ a b Ha1 Hb1).
    rewrite (sub_row_no_bar _ Ha3), (sub_row_no_bar _ Hb3).
    change (sub_row "") with "".
    change ("" +:+ String LF b) with (String LF b).
    unfold str_replace.
    rewrite (replace_after_prefix _ _ a _ Ha1).
    assert (Hbreak : replace_from (String LF (String LF "")) PARAGRAPH_BREAK 0
                       (String LF (String LF b)) = PARAGRAPH_BREAK +:+ b).
    { cbn [replace_from str_startswith String.length Nat.sub].
      destruct (decide (LF = LF)); [| contradiction].
      rewrite (replace_no_LF (String LF "") PARAGRAPH_BREAK b Hb1). reflexivity. }
    rewrite Hbreak.
    apply (replace_no_LF "" "<br>").
    rewrite !str_has_append, Ha1, Hb1. reflexivity.
Qed.

Lemma md_to_html_breaks_witness :
  md_to_html_str (String.concat (String LF "") ["AUA rose 5%."; "Clients: 1.9m"]) =
    "AUA rose 5%.<br>Clients: 1.9m" /\
  md_to_html_str (String.concat (String LF "") ["AUA rose 5%."; ""; "Clients: 1.9m"]) =
    "AUA rose 5%." +:+ PARAGRAPH_BREAK +:+ "Clients: 1.9m".
Proof.
  destruct (md_to_html_breaks "AUA rose 5%." "Clients: 1.9m") as (Hone & Htwo & _).
  - repeat split.
  - repeat split.
  - reflexivity.
  - reflexivity.
  - split; [exact Hone | exact Htwo].
Defined.

Lemma days_in_month_bounds y m : (28 <= days_in_month y m <= 31)%N.
Proof.
  unfold days_in_month. destruct (is_leap y);
    repeat match goal with
           | |- context [match ?x with _ => _ end] => destruct x
           end; lia.
Qed.

Lemma add_days_app a b d : add_days (a + b) d = add_days b (add_days a d).
Proof. revert d. induction a as [| a IH]; intros d; [reflexivity | apply IH]. Qed.

(** Days are added within a month by moving the day of the month. *)
Lemma add_days_within n :
  forall d, (day d + N.of_nat n <= days_in_month (year d) (month d))%N ->
            add_days n d = replace_day (day d + N.of_nat n) d.
Proof.
  induction n as [| n IH]; intros d Hle.
  - destruct d. unfold replace_day. simpl. rewrite N.add_0_r. reflexivity.
  - cbn [add_days]. unfold next_day.
    destruct (N.ltb_spec (day d) (days_in_month (year d) (month d))) as [Hlt | Hge];
      [| lia].
    rewrite IH by (destruct d; simpl in *; lia).
    destruct d. unfold replace_day. simpl. f_equal. lia.
Qed.

(** X16.  The date in the footer, [(now.replace(day=1) + timedelta(days=32))
    .replace(day=1)]: for every date below December 9999 it is the first day
    of the month after [now], in the following year after a December, at the
    time of day of [now]; the 32 days never overshoot a month. *)
Theorem next_report_is_first_of_next_month now :
  valid_datetime now ->
  (year now < 9999 \/ month now < 12)%N ->
  let next := replace_day 1 (add_days 32 (replace_day 1 now)) in
  day next = 1%N /\
  ((month now < 12)%N -> month next = (month now + 1)%N /\ year next = year now) /\
  (month now = 12%N -> month next = 1%N /\ year next = (year now + 1)%N) /\
  hour next = hour now /\ minute next = minute now /\ second next = second now.
Proof.
  intros (Hy & Hm & _) _. destruct now as [y m d h mi s us].
  cbn [year month] in Hy, Hm.
  pose proof (days_in_month_bounds y m) as Hlen.
  set (len := N.to_nat (days_in_month y m)).
  set (first := mk_datetime y m 1 h mi s us).
  set (last := mk_datetime y m (days_in_month y m) h mi s us).
  set (following := if (m <? 12)%N then mk_datetime y (m + 1) 1 h mi s us
                    else mk_datetime (y + 1) 1 1 h mi s us).
  assert (Hlast : add_days (len - 1) first = last).
  { rewrite add_days_within by (unfold first, len; cbn [day year month]; lia).
    unfold replace_day, first, last. cbn [day year month hour minute second microsecond].
    f_equal. unfold len. lia. }
  assert (Hfollowing : next_day last = following).
  { unfold next_day, last, following. cbn [day year month hour minute second microsecond].
    rewrite N.ltb_irrefl. reflexivity. }
  assert (Hmonth : (day following + N.of_nat (32 - len)
                    <= days_in_month (year following) (month following))%N).
  { unfold following, len. destruct (m <? 12)%N; cbn [day year month];
      [pose proof (days_in_month_bounds y (m + 1))
      | pose proof (days_in_month_bounds (y + 1) 1)]; lia. }
  assert (Hrun : add_days 32 first = replace_day (day following + N.of_nat (32 - len)) following).
  { replace 32 with ((len - 1) + S (32 - len)) at 1 by (unfold len; lia).
    rewrite add_days_app, Hlast. cbn [add_days]. rewrite Hfollowing.
    apply add_days_within, Hmonth. }
  change (replace_day 1 (mk_datetime y m d h mi s us)) with first.
  cbv zeta. rewrite Hrun. unfold replace_day, following.
  cbn [year month day hour minute second microsecond].
  destruct (N.ltb_spec m 12) as [Hlt | Hge];
    cbn [year month day hour minute second microsecond];
    repeat split; intros; try reflexivity; lia.
Qed.

Lemma next_report_is_first_of_next_month_witness :
  strftime_d_B_Y (replace_day 1 (add_days 32 (replace_day 1 (mk_datetime 2024 12 31 23 59 58 0))))
  = "01 January 2025".
Proof.
  destruct (next_report_is_first_of_next_month (mk_datetime 2024 12 31 23 59 58 0))
    as (Hday & _ & Hdec & _).
  - unfold valid_datetime; simpl; lia.
  - left. simpl. lia.
  - destruct (Hdec eq_refl) as (Hmonth & Hyear).
    unfold strftime_d_B_Y. rewrite Hday, Hmonth, Hyear. reflexivity.
Defined.

(** ** The comparator *)



